(** * YouTube channel analytics: the derivation pipeline of
      [ai_analytics/youtube_analyzer.py], embedded and verified.

    The development follows the class [YouTubeAnalyzer]:

    - [Py]          the fragment of Python the analyzer relies on: exceptions,
                    dynamically typed values, dictionaries, [round], [int];
    - [Float]       rounding, and numpy's mean and deviation, where a
                    computed number is compared with a threshold;
    - [Binary64]    the rounding of IEEE binary64, with numpy's mean and
                    deviation on short lists;
    - [Pool]        the credential pools and their rotation;
    - [Duration]    [parse_duration];
    - [Stats]       [np.mean], [np.std], [calculate_consistency], the trend
                    classifier and the other helpers of the metrics engine;
    - [Engagement]  [calculate_comprehensive_engagement] and the performance
                    aggregation, with their default dictionaries;
    - [Composite]   [assess_channel_scale], [calculate_ai_enhanced_metrics];
    - [Diversity]   [calculate_diversity_score_enhanced];
    - [Narrative]   the insight and recommendation generators;
    - [Analysis]    [analyze_channel] with the cache and the static fallback;
    - [Keys]        the credential pools as they are built from the environment;
    - [Fetch]       the channel fetch with its retries, and the resolver of
                    handles;
    - [Validation]  [validate_ai_metrics];
    - [Growth]      [predict_growth_enhanced] and [identify_growth_drivers];
    - [Demographics] [infer_demographics_enhanced];
    - [Gaps]        [identify_content_gaps_ai];
    - [Cache]       [populate_snapshot_data] and [flatten_youtube_data];
    - [Labels]      the order of the engagement labels;
    - [Publishing]  the publishing pattern and the two recency scores;
    - [Details]     [get_video_details_safe];
    - [App]         [calculate_consistent_growth_predictions] of [app.py].

    Conventions.  A Python [int] is a [Z].  A Python [float] is a real number:
    the arithmetic of the analyzer is read over [R], so [np.sqrt] and [np.log]
    are [sqrt] and [ln].  Rounding error is modelled where a computed number
    is compared with the thresholds of a classification, in
    [calculate_consistency] and the trend classifier ([Float]); elsewhere the
    properties are bounds, orders and labels that rounding does not move, and
    the arithmetic is exact.  A dictionary is a
    finite map from strings ([gmap string _]) unless the order of its entries
    is part of what is computed.  Code that may raise returns in [exc]. *)

From Stdlib Require Import ZArith Reals Lra Lia String Ascii List Sorted.
From stdpp Require Import base option list gmap strings sorting.

#[local] Set Warnings "-register-all".
#[local] Open Scope string_scope.
#[local] Open Scope Z_scope.

(* ===================================================================== *)
(** ** Python: exceptions, values, dictionaries                           *)
(* ===================================================================== *)

Module Py.

(** The classes of exception the analyzer can meet.  All of them derive from
    [Exception], which is what every handler of the module catches. *)
Inductive exn : Type :=
| TypeError | AttributeError | KeyError | IndexError | ValueError
| ZeroDivisionError | RequestException | JSONDecodeError | OtherException.

(** A computation that returns a value or raises. *)
Inductive exc (A : Type) : Type :=
| Ok (a : A)
| Raise (e : exn).
Arguments Ok {A} a.
Arguments Raise {A} e.

#[export] Instance exc_ret : MRet exc := fun _ a => Ok a.
#[export] Instance exc_bind : MBind exc := fun _ _ f m =>
  match m with Ok a => f a | Raise e => Raise e end.

(** [try: body / except Exception: handler]. *)
Definition try_except {A} (body : exc A) (handler : exn -> exc A) : exc A :=
  match body with Ok a => Ok a | Raise e => handler e end.

Definition returns {A} (m : exc A) : Prop := exists a, m = Ok a.

(** Dynamically typed values: what [json] produces and what the analyzer
    stores in its dictionaries. *)
Inductive pyval : Type :=
| PNone
| PBool (b : bool)
| PInt (z : Z)
| PFloat (r : R)
| PStr (s : string)
| PList (l : list pyval)
| PDict (d : gmap string pyval).

Abbreviation dict := (gmap string pyval).

(** [d.get(k, default)]. *)
Definition get (d : dict) (k : string) (dflt : pyval) : pyval :=
  default dflt (d !! k).

(** [d[k]]. *)
Definition getitem (d : dict) (k : string) : exc pyval :=
  match d !! k with Some v => Ok v | None => Raise KeyError end.

(** [v.get(...)], [v.keys()], [v[k] = x] need [v] to be a dictionary. *)
Definition as_dict (v : pyval) : exc dict :=
  match v with PDict d => Ok d | _ => Raise AttributeError end.

(** The operand of an arithmetic operation or of an order comparison with
    a number. *)
Definition as_num (v : pyval) : exc R :=
  match v with
  | PInt z => Ok (IZR z)
  | PFloat r => Ok r
  | PBool b => Ok (if b then 1%R else 0%R)
  | _ => Raise TypeError
  end.

Definition as_str (v : pyval) : exc string :=
  match v with PStr s => Ok s | _ => Raise AttributeError end.

(** Truth value of an object, as [if v:] and [not v] test it. *)
Definition truthy (v : pyval) : Prop :=
  match v with
  | PNone => False
  | PBool b => b = true
  | PInt z => z <> 0
  | PFloat r => r <> 0%R
  | PStr s => s <> ""
  | PList l => l <> []
  | PDict d => d <> ∅
  end.

#[export] Instance truthy_dec v : Decision (truthy v).
Proof.
  destruct v as [|b|z|r|s|l|d]; simpl; try apply _.
  destruct (Req_dec_T r 0); [right | left]; tauto.
Defined.

Definition is_num (v : pyval) : Prop :=
  match v with PInt _ | PFloat _ | PBool _ => True | _ => False end.

Definition is_text (v : pyval) : Prop :=
  match v with PStr _ => True | _ => False end.

(** Comparisons of floats, as decisions. *)
#[export] Instance Rlt_decision : RelDecision Rlt := Rlt_dec.
#[export] Instance Rle_decision : RelDecision Rle := Rle_dec.
#[export] Instance Rgt_decision : RelDecision Rgt := Rgt_dec.
#[export] Instance Rge_decision : RelDecision Rge := Rge_dec.
#[export] Instance Req_decision : EqDecision R := Req_dec_T.

(** [v == s] for a value and a string; [v in [a, b]] for two strings. *)
Definition str_eq (v : pyval) (s : string) : bool :=
  match v with PStr s' => bool_decide (s' = s) | _ => false end.
Definition among (v : pyval) (a b : string) : bool := str_eq v a || str_eq v b.

(** [l[i]] on a list: a negative index counts from the end. *)
Definition list_getitem {A} (l : list A) (i : Z) : exc A :=
  let j := if i <? 0 then i + Z.of_nat (length l) else i in
  if j <? 0 then Raise IndexError
  else match l !! Z.to_nat j with Some x => Ok x | None => Raise IndexError end.

(** [a % n] on integers: the result has the sign of [n]. *)
Definition py_mod (a n : Z) : exc Z :=
  if n =? 0 then Raise ZeroDivisionError else Ok (Z.modulo a n).

(** [math.floor]. *)
Definition floor (x : R) : Z := Int_part x.

(** [round(x)]: to the nearest integer, ties to the even one. *)
Definition py_round (x : R) : Z :=
  let f := floor x in
  let d := (x - IZR f)%R in
  if Rlt_dec d (1/2) then f
  else if Rgt_dec d (1/2) then f + 1
  else if Z.even f then f else f + 1.

(** [round(x, ndigits)]. *)
Definition round_to (x : R) (ndigits : nat) : R :=
  (IZR (py_round (x * 10 ^ ndigits)) / 10 ^ ndigits)%R.

(** [int(x)] on a float: truncation towards zero. *)
Definition py_int (x : R) : Z :=
  if Rle_dec 0 x then floor x else - floor (- x).

End Py.
Import Py.

(* ===================================================================== *)
(** ** Floats where the last bit decides                                  *)
(* ===================================================================== *)

Module Float.
#[local] Open Scope R_scope.

(** Where a computed number is compared with a threshold, its last bit can
    decide the outcome.  The two functions of [Stats] that classify by
    thresholds, [calculate_consistency] and the trend classifier, are
    therefore read with the arithmetic of the machine: a float is the real
    number it stands for, and every operation returns the float nearest to
    its exact result.  What they take from IEEE binary64 and from numpy is
    kept abstract:
    - [rnd] rounds a real number to the nearest float, ties to even;
    - [fmean] and [fstd] are [np.mean] and [np.std] of a list of numbers, as
      numpy computes them, with its order of summation and its roundings.
    The laws are what the properties rest on.  Rounding is monotone and
    leaves a float unchanged, a float being [m * 2^e] with [|m| <= 2^53] and
    [e] in the exponent range.  Equal integers whose sum stays within 2^53
    are summed without error, so their mean is the integer itself and their
    deviation is 0.  Overflow is not modelled: the numbers of the analyzer
    are counts, rates and seconds.  [Binary64] defines the rounding of the
    machine and numpy's sums on short lists; it is shown to be such an
    arithmetic ([binary64]), and the examples are run on it. *)
Class arithmetic : Type := Arithmetic {
  rnd : R -> R;
  fmean : list R -> R;
  fstd : list R -> R;
  rnd_monotone : forall x y : R, x <= y -> rnd x <= rnd y;
  rnd_float : forall m e : Z,
    (Z.abs m <= 2 ^ 53)%Z -> (-1074 <= e <= 970)%Z ->
    rnd (IZR m * powerRZ 2 e) = IZR m * powerRZ 2 e;
  fmean_equal_integers : forall (n : nat) (z : Z),
    n <> O -> (Z.of_nat n * Z.abs z <= 2 ^ 53)%Z ->
    fmean (replicate n (IZR z)) = IZR z;
  fstd_equal_integers : forall (n : nat) (z : Z),
    n <> O -> (Z.of_nat n * Z.abs z <= 2 ^ 53)%Z ->
    fstd (replicate n (IZR z)) = 0
}.

(** [x - y], [x * y] and [x / y] on floats. *)
Definition fsub {fa : arithmetic} (x y : R) : R := rnd (x - y).
Definition fmul {fa : arithmetic} (x y : R) : R := rnd (x * y).
Definition fdiv {fa : arithmetic} (x y : R) : R := rnd (x / y).

End Float.
Import Float.

(* ===================================================================== *)
(** ** The arithmetic of the machine                                      *)
(* ===================================================================== *)

Module Binary64.
#[local] Open Scope R_scope.

(** IEEE binary64 on the real numbers its floats stand for.  A float is
    [m * 2^e] with [|m| < 2^53] and [e >= -1074]; the unit in the last place
    of a number lies 52 binary places below its leading bit, and not below
    [2^-1074].  [round] takes a real number to the nearest multiple of that
    unit, a tie to the even one.  Overflow is left out. *)

(** The binade of [y > 0]: the [k] with [2^k <= y < 2^(k+1)]. *)
Definition floor_log2 (y : R) : Z := floor (ln y / ln 2).

Definition ulp_exponent (x : R) : Z :=
  Z.max (floor_log2 (Rabs x) - 52) (-1074).

Definition round (x : R) : R :=
  let e := ulp_exponent x in IZR (py_round (x / powerRZ 2 e)) * powerRZ 2 e.

(** [np.mean] and [np.std] on a short list.  numpy adds fewer than eight
    numbers from left to right, and lays the deviation out as the mean, the
    differences from it, their squares, the mean of the squares and its
    root, rounding every operation. *)
Definition sum_left (l : list R) : R :=
  foldl (fun acc x => round (acc + x)) 0 l.
Definition mean (l : list R) : R := round (sum_left l / INR (length l)).
Definition std (l : list R) : R :=
  let arrmean := mean l in
  let x := (fun v => round (v - arrmean)) <$> l in
  let x2 := (fun d => round (d * d)) <$> x in
  round (sqrt (round (sum_left x2 / INR (length l)))).

End Binary64.

(* ===================================================================== *)
(** ** Credential pools                                                   *)
(* ===================================================================== *)

Module Pool.

(** What a rotation hands back: the key (if any), the new cursor, and the
    seconds spent in [time.sleep]. *)
Record rotation : Type := Rotation {
  rot_key : option string;
  rot_index : Z;
  rot_slept : Z
}.

(** [_rotate_youtube_key], lines 67-81. *)
Definition _rotate_youtube_key (youtube_keys : list string)
    (current_key_index : Z) : exc rotation :=
  next_index ←
    (if current_key_index =? -1 then Ok 0
     else py_mod (current_key_index + 1) (Z.of_nat (length youtube_keys)));
  let slept :=
    if (next_index =? 0) && negb (current_key_index =? -1) then 60 else 0 in
  key ← list_getitem youtube_keys next_index;
  mret (Rotation (Some key) next_index slept).

(** [_rotate_groq_key], lines 83-90. *)
Definition _rotate_groq_key (groq_keys : list string)
    (current_key_index : Z) : exc rotation :=
  next_index ← py_mod (current_key_index + 1) (Z.of_nat (length groq_keys));
  if (next_index =? 0) && negb (current_key_index =? -1)
  then mret (Rotation None (-1) 0)
  else key ← list_getitem groq_keys next_index;
       mret (Rotation (Some key) next_index 0).

(** [n] rotations in a row, each starting from the cursor the previous one
    returned. *)
Fixpoint rotate_n (rotate : Z -> exc rotation) (n : nat) (i : Z) : exc Z :=
  match n with
  | O => Ok i
  | S n' => r ← rotate i; rotate_n rotate n' (rot_index r)
  end.

End Pool.

(* ===================================================================== *)
(** ** Duration tokens                                                    *)
(* ===================================================================== *)

Module Duration.

(** [\d] on ASCII text: the characters [0] to [9].  A token is held as the
    bytes of its UTF-8 encoding, in which a character is ASCII exactly when
    its byte is below 128.  Python's [\d] and [int] take the decimal digits
    of every script; those outside ASCII are not modelled, and the statements
    below about the text at the end of a match are about text whose first
    character is ASCII ([no_leading_digit]). *)
Definition is_digit (c : ascii) : bool :=
  let n := nat_of_ascii c in (48 <=? n)%nat && (n <=? 57)%nat.

Definition digit_value (c : ascii) : Z := Z.of_nat (nat_of_ascii c) - 48.

(** The longest run of digits at the head of [s], and what follows it. *)
Fixpoint span_digits (s : string) : string * string :=
  match s with
  | String c s' =>
      if is_digit c then let '(ds, rest) := span_digits s' in (String c ds, rest)
      else (EmptyString, s)
  | EmptyString => (EmptyString, EmptyString)
  end.

(** [int(group)] on a run of digits. *)
Fixpoint int_of_digits_from (acc : Z) (ds : string) : Z :=
  match ds with
  | String c ds' => int_of_digits_from (acc * 10 + digit_value c) ds'
  | EmptyString => acc
  end.
Definition int_of_digits (ds : string) : Z := int_of_digits_from 0 ds.

(** One optional group [(?:(\d+)U)?] of the pattern, for the unit letter [u]:
    the group takes part in the match exactly when a non-empty run of digits
    is followed by [u].  A shorter run cannot help the matcher, since it is
    followed by a digit, so no other split has to be tried; otherwise the
    group is skipped and nothing is consumed. *)
Definition opt_group (u : ascii) (s : string) : option Z * string :=
  match span_digits s with
  | (String d ds, String c rest) =>
      if Ascii.eqb c u then (Some (int_of_digits (String d ds)), rest)
      else (None, s)
  | _ => (None, s)
  end.

(** A group is skipped on [s], consuming nothing. *)
Definition skips (u : ascii) (s : string) : Prop := opt_group u s = (None, s).

(** [re.match(r'PT(?:(\d+)H)?(?:(\d+)M)?(?:(\d+)S)?', duration)]: the three
    groups and the unmatched remainder of the token, or [None]. *)
Definition re_match (duration : string)
    : option (option Z * option Z * option Z * string) :=
  match duration with
  | String "P" (String "T" s) =>
      let '(h, s1) := opt_group "H" s in
      let '(m, s2) := opt_group "M" s1 in
      let '(sec, s3) := opt_group "S" s2 in
      Some (h, m, sec, s3)
  | _ => None
  end.

(** [parse_duration], lines 1356-1367. *)
Definition parse_duration (duration : string) : Z :=
  match re_match duration with
  | None => 0
  | Some (g1, g2, g3, _) =>
      let hours := default 0 g1 in
      let minutes := default 0 g2 in
      let seconds := default 0 g3 in
      hours * 3600 + minutes * 60 + seconds
  end.

(** The tokens the specification calls well formed: [PT#H#M#S] with each
    component optional and nothing after them. *)
Definition well_formed (token : string) : bool :=
  match re_match token with
  | Some (_, _, _, EmptyString) => true
  | _ => false
  end.

(** A token written from its components, each a run of digits before its
    unit letter, and then whatever follows them. *)
Definition component (digits : option string) (u : ascii) (rest : string)
    : string :=
  match digits with Some ds => ds ++ String u rest | None => rest end.
Definition token_then (h m s : option string) (rest : string) : string :=
  String "P" (String "T"
    (component h "H" (component m "M" (component s "S" rest)))).
Definition token (h m s : option string) : string := token_then h m s "".

Fixpoint all_digits (ds : string) : bool :=
  match ds with
  | String c ds' => is_digit c && all_digits ds'
  | EmptyString => true
  end.
(** [int] converts a run of digits up to the interpreter's limit on the
    length of a decimal string, 4300 digits unless configured otherwise. *)
Definition max_str_digits : nat := 4300.
Definition digits_ok (c : option string) : Prop :=
  match c with
  | Some ds =>
      ds <> "" /\ all_digits ds = true /\
      (String.length ds <=? max_str_digits)%nat = true
  | None => True
  end.
Definition component_value (c : option string) : Z :=
  match c with Some ds => int_of_digits ds | None => 0 end.

(** ASCII characters: the bytes below 128. *)
Definition is_ascii (c : ascii) : bool := (nat_of_ascii c <? 128)%nat.

(** What may follow the components: nothing, or text that begins with an
    ASCII character other than a digit. *)
Definition no_leading_digit (rest : string) : Prop :=
  match rest with
  | String c _ => is_ascii c = true /\ is_digit c = false
  | EmptyString => True
  end.

End Duration.

(* ===================================================================== *)
(** ** Statistics of the metrics engine                                   *)
(* ===================================================================== *)

Module Stats.
#[local] Open Scope R_scope.

Definition sum_R (l : list R) : R := foldr Rplus 0 l.

(** [np.mean]. *)
Definition np_mean (l : list R) : R := sum_R l / INR (length l).

(** [np.std]: the population standard deviation. *)
Definition np_std (l : list R) : R :=
  let m := np_mean l in
  sqrt (np_mean ((fun x => (x - m) * (x - m)) <$> l)).

(** [max(l)] on a non-empty list of numbers. *)
Definition max_R (l : list R) : R :=
  match l with
  | [] => 0
  | x :: l' => foldl Rmax x l'
  end.

(** [calculate_consistency], lines 1325-1354.  The arithmetic of the [try]
    block is between numbers and the one division is guarded, so the handler
    ([return 65]) is never entered. *)
Definition calculate_consistency {fa : arithmetic} (values : list R) : R :=
  if (length values <? 2)%nat then 75
  else if (3 <=? length values)%nat then
    let mean_val := fmean values in
    if Req_dec_T mean_val 0 then 65
    else
      let std_dev := fstd values in
      let cv := fmul (fdiv std_dev mean_val) 100 in
      let consistency :=
        if Rlt_dec cv 50 then fsub 85 (fdiv cv 2)
        else if Rlt_dec cv 100 then fsub 70 (fdiv cv 4)
        else fsub 40 (fdiv cv 10) in
      Rmax 20 (Rmin consistency 95)
  else 70.

(** The consistency score as the specification words it: the default below
    two data points, the piecewise map of the coefficient of variation
    otherwise, each of its operations a float operation. *)
Definition consistency_of_cv {fa : arithmetic} (cv : R) : R :=
  let score :=
    if Rlt_dec cv 50 then fsub 85 (fdiv cv 2)
    else if Rlt_dec cv 100 then fsub 70 (fdiv cv 4)
    else fsub 40 (fdiv cv 10) in
  Rmax 20 (Rmin score 95).
Definition coefficient_of_variation {fa : arithmetic} (values : list R) : R :=
  fmul (fdiv (fstd values) (fmean values)) 100.
Definition consistency_spec {fa : arithmetic} (values : list R) : R :=
  if (length values <? 2)%nat then 75
  else consistency_of_cv (coefficient_of_variation values).

(** [determine_optimal_length_enhanced], lines 1369-1394. *)
Definition determine_optimal_length_enhanced
    (durations performances : list R) : string :=
  match durations, performances with
  | [], _ | _, [] => "Medium (8-15 minutes)"
  | _, _ =>
      let weighted_durations :=
        flat_map (fun '(duration, performance) =>
          let weight :=
            if Rgt_dec (max_R performances) 0
            then performance / max_R performances else 1 in
          replicate (Z.to_nat (py_int (weight * 10))) duration)
          (zip durations performances) in
      let avg_duration :=
        match weighted_durations with
        | [] => np_mean durations
        | _ => np_mean weighted_durations
        end in
      if Rlt_dec avg_duration 180 then "Short (under 3 minutes)"
      else if Rlt_dec avg_duration 480 then "Medium-Short (3-8 minutes)"
      else if Rlt_dec avg_duration 900 then "Medium (8-15 minutes)"
      else if Rlt_dec avg_duration 1800 then "Long (15-30 minutes)"
      else "Very Long (30+ minutes)"
  end.

(** [analyze_performance_trend_enhanced], lines 1396-1439. *)
Definition analyze_performance_trend_enhanced {fa : arithmetic}
    (performances : list R) : string :=
  if (length performances <? 5)%nat then "Insufficient Data"
  else
    let recent_performances :=
      take (Nat.min 10 (length performances)) performances in
    if (length recent_performances <? 5)%nat then "Insufficient Data"
    else
      let half_point := (length recent_performances / 2)%nat in
      let first_half := drop half_point recent_performances in
      let second_half := take half_point recent_performances in
      let first_avg :=
        match first_half with [] => 0 | _ => fmean first_half end in
      let second_avg :=
        match second_half with [] => 0 | _ => fmean second_half end in
      if Req_dec_T first_avg 0 then "Stable"
      else
        let percentage_change :=
          fmul (fdiv (fsub second_avg first_avg) first_avg) 100 in
        if Rgt_dec percentage_change 100 then "Explosive Growth"
        else if Rgt_dec percentage_change 50 then "Rapid Growth"
        else if Rgt_dec percentage_change 20 then "Growing"
        else if Rgt_dec percentage_change 5 then "Slow Growth"
        else if Rgt_dec percentage_change (-20) then "Stable"
        else if Rgt_dec percentage_change (-50) then "Declining"
        else "Rapid Decline".

(** The ordered thresholds of the trend classification, as the specification
    lists them. *)
Definition trend_label (percentage_change : R) : string :=
  if Rgt_dec percentage_change 100 then "Explosive Growth"
  else if Rgt_dec percentage_change 50 then "Rapid Growth"
  else if Rgt_dec percentage_change 20 then "Growing"
  else if Rgt_dec percentage_change 5 then "Slow Growth"
  else if Rgt_dec percentage_change (-20) then "Stable"
  else if Rgt_dec percentage_change (-50) then "Declining"
  else "Rapid Decline".

(** The two halves the classifier compares, and the change of the newer
    over the older in percent, as the floats compute it. *)
Definition recent_window (performances : list R) : list R := take 10 performances.
Definition newer_half (performances : list R) : list R :=
  let w := recent_window performances in take (length w / 2)%nat w.
Definition older_half (performances : list R) : list R :=
  let w := recent_window performances in drop (length w / 2)%nat w.
(** The same change over the real numbers, no operation rounded: the
    percentage change as the specification words it. *)
Definition percentage_change_exact (performances : list R) : R :=
  (np_mean (newer_half performances) - np_mean (older_half performances))
  / np_mean (older_half performances) * 100.
Definition percentage_change_of {fa : arithmetic} (performances : list R) : R :=
  fmul
    (fdiv (fsub (fmean (newer_half performances))
                (fmean (older_half performances)))
          (fmean (older_half performances)))
    100.

(** The thresholds of one content category, lines 1445-1451. *)
Record thresholds : Type := Thresholds {
  excellent : R; good : R; average : R; poor : R
}.
Definition category_thresholds (category : string) : thresholds :=
  if decide (category = "gaming") then Thresholds 6 4 (5/2) (3/2)
  else if decide (category = "tech") then Thresholds 8 5 3 (3/2)
  else if decide (category = "education") then Thresholds 7 (9/2) (5/2) 1
  else if decide (category = "entertainment") then Thresholds 5 3 (3/2) (1/2)
  else Thresholds 8 5 3 1.

(** [assess_engagement_health_enhanced], lines 1441-1462. *)
Definition assess_engagement_health_enhanced (engagement_rate : R)
    (video_count : nat) (category : string) : string :=
  let t := category_thresholds category in
  if Rge_dec engagement_rate (excellent t) then "Excellent"
  else if Rge_dec engagement_rate (good t) then "Good"
  else if Rge_dec engagement_rate (average t) then "Average"
  else "Needs Work".

End Stats.

(* ===================================================================== *)
(** ** Engagement and performance aggregation                             *)
(* ===================================================================== *)

Module Engagement.
Import Stats Duration.
#[local] Open Scope R_scope.

(** A video resource of the provider, with the parts the analyzer reads.  A
    missing key is [None]; counters arrive as decimal strings and are given
    here as the integers [int(...)] makes of them; [publishedAt] is the
    instant [datetime.fromisoformat] parses, in seconds, and [None] when the
    key is missing or does not parse. *)
Record statistics : Type := Statistics {
  viewCount : option Z;
  likeCount : option Z;
  commentCount : option Z
}.
Record snippet : Type := Snippet {
  title : option string;
  publishedAt : option Z;
  snippet_thumbnail_url : option string
}.
Record video : Type := Video {
  video_id : option string;
  video_statistics : option statistics;
  video_snippet : option snippet;
  video_duration : option string;
  thumbnail_url : option string
}.

(** The dictionary [get_channel_videos_safe] returns. *)
Record video_stats : Type := VideoStats { items : option (list video) }.
Record videos_data : Type := VideosData {
  recent_videos : list video;
  videos_video_stats : option video_stats;
  total_videos_fetched : Z
}.

(** [video.get('statistics', {})] and [video.get('snippet', {})]. *)
Definition stats_of (v : video) : statistics :=
  default (Statistics None None None) (video_statistics v).
Definition snippet_of (v : video) : snippet :=
  default (Snippet None None None) (video_snippet v).

(** [int(stats.get('viewCount', 0))] and its siblings. *)
Definition views_of (v : video) : Z := default 0%Z (viewCount (stats_of v)).
Definition likes_of (v : video) : Z := default 0%Z (likeCount (stats_of v)).
Definition comments_of (v : video) : Z := default 0%Z (commentCount (stats_of v)).

(** [self.parse_duration(video.get('contentDetails', {}).get('duration', 'PT0S'))]. *)
Definition duration_seconds (v : video) : Z :=
  parse_duration (default "PT0S" (video_duration v)).

Definition opt_str (o : option string) : pyval :=
  match o with Some s => PStr s | None => PNone end.

(** [a or b]. *)
Definition py_or (a b : pyval) : pyval := if decide (truthy a) then a else b.

(** The videos the aggregations iterate over:
    [videos_data['video_stats'].get('items', [])], and nothing when
    [videos_data] is empty or has no ['video_stats']. *)
Definition items_of (vd : option videos_data) : list video :=
  match vd with
  | Some d =>
      match videos_video_stats d with
      | Some vs => default [] (items vs)
      | None => []
      end
  | None => []
  end.

(** The sort of [get_channel_videos_safe], lines 1030-1034: descending by
    view count, videos with equal counts in their original order. *)
Fixpoint insert_by_views (x : video) (l : list video) : list video :=
  match l with
  | [] => [x]
  | y :: l' =>
      if (views_of y <=? views_of x)%Z then x :: y :: l'
      else y :: insert_by_views x l'
  end.
Definition sorted_videos (fetched : list video) : list video :=
  foldr insert_by_views [] fetched.

(** What [get_channel_videos_safe] returns on success, lines 1044-1048. *)
Definition fetched_videos_data (fetched : list video) (max_results : nat)
    : videos_data :=
  VideosData (take max_results (sorted_videos fetched))
             (Some (VideoStats (Some (sorted_videos fetched))))
             (Z.of_nat (length (sorted_videos fetched))).

(** [get_default_engagement_metrics], lines 1491-1510. *)
Definition get_default_engagement_metrics : dict :=
  list_to_map [
    ("total_recent_views", PInt 0);
    ("total_recent_likes", PInt 0);
    ("total_recent_comments", PInt 0);
    ("total_engagement", PInt 0);
    ("avg_engagement_rate", PInt 0);
    ("engagement_consistency", PInt 0);
    ("engagement_health", PStr "Unknown");
    ("avg_views_per_video", PInt 0);
    ("avg_likes_per_video", PInt 0);
    ("avg_comments_per_video", PInt 0);
    ("views_std_dev", PInt 0);
    ("performance_consistency", PInt 0);
    ("top_performing_video_views", PInt 0);
    ("top_performing_video_likes", PInt 0);
    ("top_performing_video_title", PStr "");
    ("videos_analyzed", PInt 0) ].

(** [get_default_performance_metrics], lines 1512-1522. *)
Definition get_default_performance_metrics : dict :=
  list_to_map [
    ("avg_duration_seconds", PInt 0);
    ("avg_performance_score", PInt 0);
    ("optimal_video_length", PStr "Unknown");
    ("duration_consistency", PInt 0);
    ("performance_trend", PStr "Unknown");
    ("estimated_retention_rate", PInt 0);
    ("content_velocity_score", PInt 0) ].

(** The engagement rate of one video, for the videos that have views. *)
Definition engagement_rate_of (v : video) : option R :=
  if (0 <? views_of v)%Z
  then Some (IZR (likes_of v + comments_of v) / IZR (views_of v) * 100)
  else None.

(** [calculate_comprehensive_engagement], lines 1152-1252.  A number that
    comes out of float arithmetic is stored as a float, also where the source
    takes the integer [0] of an [else] branch. *)
Definition calculate_comprehensive_engagement {fa : arithmetic}
    (vd : option videos_data) : dict :=
  match items_of vd with
  | [] => get_default_engagement_metrics
  | top_video :: _ =>
      let items := items_of vd in
      let total_views := foldr Z.add 0%Z (views_of <$> items) in
      let total_likes := foldr Z.add 0%Z (likes_of <$> items) in
      let total_comments := foldr Z.add 0%Z (comments_of <$> items) in
      let view_counts := (fun v => IZR (views_of v)) <$> items in
      let engagement_rates := omap engagement_rate_of items in
      let num_videos := length items in
      let avg_engagement :=
        match engagement_rates with [] => 0 | _ => np_mean engagement_rates end in
      let engagement_health :=
        assess_engagement_health_enhanced avg_engagement num_videos "general" in
      let engagement_consistency :=
        match engagement_rates with
        | [] => 50 | _ => calculate_consistency engagement_rates end in
      let performance_consistency :=
        match view_counts with
        | [] => 50 | _ => calculate_consistency view_counts end in
      let engagement_consistency :=
        if (num_videos <? 3)%nat then Rmax engagement_consistency 60
        else engagement_consistency in
      let performance_consistency :=
        if (num_videos <? 3)%nat then Rmax performance_consistency 60
        else performance_consistency in
      let top_video_thumbnail :=
        py_or (opt_str (thumbnail_url top_video))
              (opt_str (snippet_thumbnail_url (snippet_of top_video))) in
      let top_video_id := opt_str (video_id top_video) in
      list_to_map [
        ("total_recent_views", PInt total_views);
        ("total_recent_likes", PInt total_likes);
        ("total_recent_comments", PInt total_comments);
        ("total_engagement", PInt (total_likes + total_comments));
        ("avg_engagement_rate", PFloat (round_to avg_engagement 2));
        ("engagement_consistency", PFloat engagement_consistency);
        ("engagement_health", PStr engagement_health);
        ("avg_views_per_video",
           PFloat (round_to (IZR total_views / INR num_videos) 1));
        ("avg_likes_per_video",
           PFloat (round_to (IZR total_likes / INR num_videos) 1));
        ("avg_comments_per_video",
           PFloat (round_to (IZR total_comments / INR num_videos) 1));
        ("views_std_dev", PFloat (round_to (np_std view_counts) 1));
        ("performance_consistency", PFloat performance_consistency);
        ("top_performing_video_views", PInt (views_of top_video));
        ("top_performing_video_likes", PInt (likes_of top_video));
        ("top_performing_video_title",
           PStr (default "" (title (snippet_of top_video))));
        ("top_performing_video_thumbnail", top_video_thumbnail);
        ("top_performing_video_id", top_video_id);
        ("videos_analyzed", PInt (Z.of_nat num_videos)) ]
  end.

(** [calculate_content_velocity], lines 1464-1487.  Any failure inside the
    [try] (a missing snippet or date, a date that does not parse) gives 0. *)
Definition calculate_content_velocity (videos : list video) : R :=
  if (length videos <? 2)%nat then 0
  else
    match mapM (fun v => video_snippet v ≫= publishedAt) videos with
    | Some (d :: dates) =>
        let last := foldr Z.max d dates in
        let first := foldr Z.min d dates in
        let total_days := ((last - first) / 86400)%Z in
        if (total_days =? 0)%Z then 100
        else
          let videos_per_week := INR (length videos) / IZR total_days * 7 in
          round_to (Rmin (videos_per_week * 10) 100) 1
    | _ => 0
    end.

(** The performance score and the retention estimate of one video, for the
    videos that have views. *)
Definition performance_score_of (v : video) : option R :=
  if (0 <? views_of v)%Z
  then Some (IZR (views_of v)
             * (1 + IZR (likes_of v + comments_of v) / IZR (views_of v)))
  else None.
Definition retention_estimate_of (v : video) : option R :=
  if (0 <? views_of v)%Z
  then Some (Rmin (IZR (likes_of v + comments_of v) / IZR (views_of v) * 200) 95)
  else None.

(** [calculate_performance_metrics_enhanced], lines 1254-1308. *)
Definition calculate_performance_metrics_enhanced {fa : arithmetic}
    (vd : option videos_data)
    (engagement_metrics : dict) : dict :=
  match items_of vd with
  | [] => get_default_performance_metrics
  | _ =>
      let items := items_of vd in
      let durations := (fun v => IZR (duration_seconds v)) <$> items in
      let performance_scores := omap performance_score_of items in
      let retention_estimates := omap retention_estimate_of items in
      let avg_duration := np_mean durations in
      let avg_performance :=
        match performance_scores with [] => 0 | _ => np_mean performance_scores end in
      let avg_retention :=
        match retention_estimates with [] => 0 | _ => np_mean retention_estimates end in
      list_to_map [
        ("avg_duration_seconds", PFloat (round_to avg_duration 1));
        ("avg_performance_score", PFloat (round_to avg_performance 1));
        ("optimal_video_length",
           PStr (determine_optimal_length_enhanced durations performance_scores));
        ("duration_consistency", PFloat (calculate_consistency durations));
        ("performance_trend",
           PStr (analyze_performance_trend_enhanced performance_scores));
        ("estimated_retention_rate", PFloat (round_to avg_retention 1));
        ("content_velocity_score", PFloat (calculate_content_velocity items)) ]
  end.

(** [get_performance_metrics_safe], lines 273-279: the aggregation above
    raises nothing on typed videos, so its handler is not entered. *)
Definition get_performance_metrics_safe {fa : arithmetic}
    (vd : option videos_data)
    (engagement_metrics : dict) : dict :=
  calculate_performance_metrics_enhanced vd engagement_metrics.

(** A field at its documented default: a number is zero, a text is
    ["Unknown"]. *)
Definition zero_or_unknown (v : pyval) : Prop :=
  match v with
  | PInt z => z = 0%Z
  | PFloat r => r = 0
  | PStr s => s = "Unknown"
  | _ => True
  end.

(** The first video has at least the views of every other one. *)
Definition head_dominates (l : list video) : Prop :=
  match l with
  | [] => True
  | top :: rest => Forall (fun v => (views_of v <= views_of top)%Z) rest
  end.

(** No videos at all, as [get_channel_videos_safe] reports it. *)
Definition no_videos : videos_data :=
  VideosData [] (Some (VideoStats (Some []))) 0.

End Engagement.

(* ===================================================================== *)
(** ** Composite ("AI-enhanced") metrics                                  *)
(* ===================================================================== *)

Module Composite.
#[local] Open Scope R_scope.

(** [assess_channel_scale], lines 1925-1940. *)
Definition assess_channel_scale (channel_data : dict) : exc string :=
  subscribers ← as_num (get channel_data "subscribers" (PInt 0));
  mret (if Rge_dec subscribers 10000000 then "mega"
        else if Rge_dec subscribers 1000000 then "large"
        else if Rge_dec subscribers 100000 then "medium"
        else if Rge_dec subscribers 10000 then "small"
        else if Rge_dec subscribers 1000 then "micro"
        else "nano").

(** [assess_engagement_health_scaled], lines 2047-2079. *)
Definition assess_engagement_health_scaled (engagement_rate : R)
    (scale : string) : string :=
  if decide (scale = "mega") then
    if Rge_dec engagement_rate 3 then "Excellent"
    else if Rge_dec engagement_rate 2 then "Good"
    else if Rge_dec engagement_rate 1 then "Average"
    else "Needs Work"
  else if decide (scale = "large") then
    if Rge_dec engagement_rate 6 then "Excellent"
    else if Rge_dec engagement_rate 4 then "Good"
    else if Rge_dec engagement_rate (5/2) then "Average"
    else "Needs Work"
  else
    if Rge_dec engagement_rate 8 then "Excellent"
    else if Rge_dec engagement_rate 5 then "Good"
    else if Rge_dec engagement_rate 3 then "Average"
    else "Needs Work".

(** [calculate_ai_enhanced_metrics], lines 1573-1678. *)
Definition calculate_ai_enhanced_metrics
    (channel_data engagement_metrics content_analysis performance_metrics : dict)
    : exc dict :=
  subscribers ← as_num (get channel_data "subscribers" (PInt 0));
  engagement_rate ← as_num (get engagement_metrics "avg_engagement_rate" (PInt 0));
  top_video_views ←
    as_num (get engagement_metrics "top_performing_video_views" (PInt 0));
  consistency ←
    as_num (get engagement_metrics "performance_consistency" (PInt 0));
  content_diversity ←
    as_num (get content_analysis "content_diversity_score" (PInt 0));
  let performance_trend :=
    get performance_metrics "performance_trend" (PStr "Unknown") in
  let viral_ratio := top_video_views / Rmax subscribers 1 in
  channel_scale ← assess_channel_scale channel_data;
  let health_score :=
    if decide (channel_scale = "mega") then
      Rmin (Rmin (engagement_rate * 10) 30
            + Rmin (consistency * (8/10)) 30
            + Rmin (content_diversity * (4/10)) 20
            + Rmin (viral_ratio * (1/10)) 20) 100
    else if decide (channel_scale = "small") then
      Rmin (Rmin (engagement_rate * 8) 40
            + Rmin (consistency * (6/10)) 25
            + Rmin (content_diversity * (5/10)) 20
            + Rmin (viral_ratio * 3) 15) 100
    else
      Rmin (Rmin (engagement_rate * 6) 35
            + Rmin (consistency * (5/10)) 25
            + Rmin (content_diversity * (4/10)) 20
            + Rmin (viral_ratio * 2) 20) 100 in
  let content_quality :=
    Rmin (Rmin (engagement_rate * 7) 40
          + Rmin (consistency * (4/10)) 30
          + Rmin (content_diversity * (3/10)) 20
          + (if among performance_trend "Explosive Growth" "Rapid Growth" then 10
             else if among performance_trend "Growing" "Stable" then 5
             else 0)) 100 in
  let growth_potential :=
    if decide (channel_scale = "mega") then
      if bool_decide (engagement_rate >= 2) && bool_decide (consistency >= 70) then "Medium"
      else if Rge_dec engagement_rate (3/2) then "Low-Medium"
      else "Low"
    else
      if bool_decide (viral_ratio > 20) || bool_decide (engagement_rate > 8) then "High"
      else if bool_decide (viral_ratio > 10) || bool_decide (engagement_rate > 6) then "Medium-High"
      else if bool_decide (viral_ratio > 5) || bool_decide (engagement_rate > 4) then "Medium"
      else if Rgt_dec engagement_rate 2 then "Low-Medium"
      else "Low" in
  let mega := bool_decide (channel_scale = "mega") in
  let performance_tier :=
    if bool_decide (health_score >= 80)
       && bool_decide (engagement_rate >= (if mega then 2 else 6)) then "Excellent"
    else if bool_decide (health_score >= 65)
       && bool_decide (engagement_rate >= (if mega then 3/2 else 4)) then "Good"
    else if Rge_dec health_score 50 then "Average"
    else "Needs Improvement" in
  mret (list_to_map [
    ("channel_health_score", PInt (py_round health_score));
    ("content_quality_score", PInt (py_round content_quality));
    ("growth_potential", PStr growth_potential);
    ("performance_tier", PStr performance_tier);
    ("viral_ratio", PFloat (round_to viral_ratio 1));
    ("engagement_health",
       PStr (assess_engagement_health_scaled engagement_rate channel_scale));
    ("audience_loyalty_score",
       PInt (py_round (Rmin (engagement_rate * (12/10) + consistency * (3/10)) 100)));
    ("algorithm_favorability",
       PInt (py_round (Rmin (consistency * (4/10) + content_diversity * (3/10)
                             + engagement_rate * (3/10)) 100))) ]).

End Composite.

(* ===================================================================== *)
(** ** Content diversity                                                  *)
(* ===================================================================== *)

Module Diversity.
Import Stats.
#[local] Open Scope R_scope.

(** The [categories] dictionary: category label to accumulated score, in the
    order of its entries (the order [categories.values()] yields them). *)
Abbreviation categories := (list (string * R)).

(** [calculate_diversity_score_enhanced], lines 3817-3837. *)
Definition calculate_diversity_score_enhanced (cats : categories) : R :=
  match cats with
  | [] => 0
  | _ =>
      let num_categories := length cats in
      let total_videos := sum_R cats.*2 in
      if decide (total_videos = 0) then 0
      else
        let proportions := (fun count => count / total_videos) <$> cats.*2 in
        let entropy :=
          - sum_R ((fun p => p * ln p) <$> filter (fun p => p > 0) proportions) in
        let max_entropy := ln (INR num_categories) in
        let base_diversity :=
          if decide (max_entropy > 0) then entropy / max_entropy * 100 else 0 in
        let strong_categories :=
          length (filter (fun p => p >= 15/100) proportions) in
        let balance_bonus := Rmin (INR strong_categories * 10) 20 in
        round_to (Rmin (base_diversity + balance_bonus) 100) 1
  end.

(** The shares of the categories, and the score as it is computed from
    them once the total is known not to be zero. *)
Definition proportions (cats : categories) : list R :=
  (fun count => count / sum_R cats.*2) <$> cats.*2.
Definition score_of_proportions (ps : list R) : R :=
  let entropy := - sum_R ((fun p => p * ln p) <$> filter (fun p => p > 0) ps) in
  let max_entropy := ln (INR (length ps)) in
  let base_diversity :=
    if decide (max_entropy > 0) then entropy / max_entropy * 100 else 0 in
  let balance_bonus :=
    Rmin (INR (length (filter (fun p => p >= 15/100) ps)) * 10) 20 in
  round_to (Rmin (base_diversity + balance_bonus) 100) 1.

(** The same categories under other labels. *)
Definition relabel (f : string -> string) (cats : categories) : categories :=
  prod_map f id <$> cats.

(** [n] categories that hold [count] each. *)
Definition even_distribution (labels : list string) (count : R) : categories :=
  (fun l => (l, count)) <$> labels.

End Diversity.

(* ===================================================================== *)
(** ** Insights and recommendations                                       *)
(* ===================================================================== *)

Module Narrative.
#[local] Open Scope R_scope.

(** What the completion endpoint did with one request.  The decoded object
    is taken to be a dictionary whose ['insights'] entry, when present, is a
    list: [Json None] is an object without the entry. *)
Inductive completion : Type :=
| NoJson                                   (* no [{...}] span in the text *)
| BadJson                                  (* [json.loads] raises *)
| Json (insights : option (list pyval)).
Inductive response : Type :=
| Completed (c : completion)               (* status 200 *)
| Rejected (status : Z)                    (* any other status *)
| Failed (e : exn).                        (* the iteration raised *)

(** The provider: its answer to the request sent with the key at a given
    position of the pool. *)
Abbreviation provider := (nat -> string -> response).

(** The answers the loop accepts: a decoded object with three insights or
    more. *)
Definition accepted (r : response) : option (list pyval) :=
  match r with
  | Completed (Json (Some insights)) =>
      if (3 <=? length insights)%nat then Some insights else None
  | _ => None
  end.

(** The loop over the pool in [generate_groq_insights_admin], lines
    2246-2390: the first answer with three insights or more is returned as
    it is; every other outcome moves on to the next key. *)
Fixpoint try_keys (answers : list response) : list pyval :=
  match answers with
  | [] => []
  | Completed (Json insights) :: rest =>
      if (3 <=? length (default [] insights))%nat then default [] insights
      else try_keys rest
  | _ :: rest => try_keys rest
  end.

(** [generate_groq_insights_admin], lines 2238-2390. *)
Definition generate_groq_insights_admin (groq_keys : list string)
    (groq : provider) : list pyval :=
  match groq_keys with
  | [] => []
  | _ => try_keys (imap groq groq_keys)
  end.

Definition dquote : string := String (ascii_of_nat 34) "".

Section Generators.
(** Text formatting of the language: [f'{x:.Nf}'], [f'{v}'], [str.lower]. *)
Variable format_f : nat -> R -> string.
Variable str_of : pyval -> string.
Variable lower : string -> string.

Definition strs (l : list string) : pyval := PList (PStr <$> l).

(** [generate_enhanced_rule_based_insights], lines 2518-2608. *)
Definition generate_enhanced_rule_based_insights
    (channel_data ai_metrics content_analysis performance_metrics : dict)
    : exc (list pyval) :=
  let subscribers := get channel_data "subscribers" (PInt 0) in
  let top_video_views := get channel_data "top_performing_video_views" (PInt 0) in
  let engagement_rate := get ai_metrics "avg_engagement_rate" (PInt 0) in
  top ← as_num top_video_views;
  subs ← as_num subscribers;
  let viral_ratio := top / Rmax subs 1 in
  let insight1 : dict :=
    if decide (viral_ratio > 50) then
      list_to_map [
        ("type", PStr "growth_opportunity");
        ("title", PStr "🚀 EXPLOSIVE VIRAL POTENTIAL DETECTED");
        ("description", PStr ("Your top video has " ++ str_of top_video_views
           ++ " views - that's " ++ format_f 0 viral_ratio
           ++ "X your subscriber count! This indicates massive content appeal to new audiences."));
        ("priority", PStr "high");
        ("confidence", PFloat (95/100));
        ("actionable_steps", strs [
           "ANALYZE: Study why " ++ dquote
             ++ str_of (get channel_data "top_performing_video_title"
                          (PStr "your top video"))
             ++ dquote ++ " went viral";
           "REPLICATE: Create more content in the exact same style/format";
           "PROMOTE: Feature this video in your channel trailer and pinned comment";
           "CONVERT: Add strong subscriber calls-to-action in similar videos" ]) ]
    else
      list_to_map [
        ("type", PStr "growth_opportunity");
        ("title", PStr "Build Audience Foundation");
        ("description", PStr ("Focus on establishing your channel with "
           ++ str_of subscribers
           ++ " subscribers and building your initial audience trust."));
        ("priority", PStr "high");
        ("confidence", PFloat (90/100));
        ("actionable_steps", strs [
           "Create consistent content schedule";
           "Engage with every comment";
           "Optimize video metadata";
           "Share on relevant platforms" ]) ] in
  rate ← as_num engagement_rate;
  let insight2 : dict :=
    if decide (rate < 3) then
      list_to_map [
        ("type", PStr "engagement_boost");
        ("title", PStr "Improve Audience Engagement");
        ("description", PStr ("Your engagement rate of " ++ format_f 1 rate
           ++ "% is below the YouTube average. Focus on increasing viewer interaction."));
        ("priority", PStr "high");
        ("confidence", PFloat (88/100));
        ("actionable_steps", strs [
           "Add clear calls-to-action in video intros and outros";
           "Create interactive content like polls and Q&As";
           "Respond to comments within 24 hours";
           "Use YouTube Community tab for engagement" ]) ]
    else
      list_to_map [
        ("type", PStr "engagement_boost");
        ("title", PStr "Maintain Strong Engagement");
        ("description", PStr ("Your " ++ format_f 1 rate
           ++ "% engagement rate provides a solid foundation for growth."));
        ("priority", PStr "medium");
        ("confidence", PFloat (80/100));
        ("actionable_steps", strs [
           "Continue engaging with your loyal audience";
           "Experiment with new interactive content formats";
           "Analyze retention metrics weekly";
           "Network with creators in your niche" ]) ] in
  let optimal_length := get performance_metrics "optimal_video_length" (PStr "Unknown") in
  length_text ← as_str optimal_length;
  let insight3 : dict :=
    list_to_map [
      ("type", PStr "content_strategy");
      ("title", PStr (str_of optimal_length ++ " Content Excellence"));
      ("description", PStr ("Your optimal video length is " ++ lower length_text
         ++ " - perfect for audience retention and algorithm favorability."));
      ("priority", PStr "high");
      ("confidence", PFloat (88/100));
      ("actionable_steps", strs [
         "Maintain " ++ lower length_text ++ " format for new videos";
         "Focus on strong openings (first 15 seconds)";
         "Use chapter timestamps for better retention";
         "Create content series to encourage binge-watching" ]) ] in
  mret [PDict insight1; PDict insight2; PDict insight3].

(** [generate_ai_insights_enhanced], lines 2219-2236.  The call inside the
    [try] handles its own exceptions, so the handler is not entered. *)
Definition generate_ai_insights_enhanced (groq_keys : list string)
    (groq : provider)
    (channel_data ai_metrics content_analysis performance_metrics : dict)
    : exc (list pyval) :=
  let groq_insights := generate_groq_insights_admin groq_keys groq in
  if (3 <=? length groq_insights)%nat then mret groq_insights
  else generate_enhanced_rule_based_insights
         channel_data ai_metrics content_analysis performance_metrics.

End Generators.

Definition foundation_recommendation : dict :=
  list_to_map [
    ("type", PStr "foundation");
    ("title", PStr "Build Audience Foundation");
    ("description", PStr "Focus on establishing your channel identity and building initial audience trust.");
    ("priority", PStr "high");
    ("actionable_steps", PList (PStr <$> [
       "Define clear channel niche and value proposition";
       "Create 5-10 pillar content pieces";
       "Engage with every comment for first month";
       "Optimize all video metadata (titles, descriptions, tags)" ])) ].

Definition diversity_recommendation : dict :=
  list_to_map [
    ("type", PStr "content_strategy");
    ("title", PStr "Diversify Content Approach");
    ("description", PStr "Expand your content range to attract wider audience segments.");
    ("priority", PStr "medium");
    ("actionable_steps", PList (PStr <$> [
       "Add one new content category each month";
       "Test different video formats (tutorials, reviews, vlogs)";
       "Survey audience for content preferences";
       "Analyze competitor content strategies" ])) ].

Definition health_recommendation : dict :=
  list_to_map [
    ("type", PStr "optimization");
    ("title", PStr "Improve Core Metrics");
    ("description", PStr "Focus on improving fundamental channel metrics before aggressive growth.");
    ("priority", PStr "high");
    ("actionable_steps", PList (PStr <$> [
       "Increase audience engagement through interactive content";
       "Improve video retention with better editing and pacing";
       "Establish consistent upload schedule";
       "Analyze and address audience drop-off points" ])) ].

Definition general_recommendation : dict :=
  list_to_map [
    ("type", PStr "general");
    ("title", PStr "Continue Strategic Growth");
    ("description", PStr "Maintain consistent content quality and audience engagement.");
    ("priority", PStr "medium");
    ("actionable_steps", PList (PStr <$> [
       "Monitor analytics regularly";
       "Stay updated with platform algorithm changes";
       "Engage with your community consistently";
       "Experiment with new content ideas" ])) ].

(** [while len(recommendations) < 3: recommendations.append(general)], with
    a bound on the number of iterations. *)
Fixpoint pad_recommendations (fuel : nat) (recommendations : list pyval)
    : list pyval :=
  match fuel with
  | O => recommendations
  | S fuel' =>
      if (length recommendations <? 3)%nat
      then pad_recommendations fuel' (recommendations ++ [PDict general_recommendation])
      else recommendations
  end.

(** [generate_recommendations_enhanced], lines 2705-2774.  Three iterations
    of the padding loop are enough, see [pad_recommendations_done]. *)
Definition generate_recommendations_enhanced
    (channel_data : dict) (insights : list pyval)
    (content_analysis ai_metrics : dict) : exc (list pyval) :=
  let subscribers := get channel_data "subscribers" (PInt 0) in
  let health_score := get ai_metrics "channel_health_score" (PInt 0) in
  let content_diversity := get content_analysis "content_diversity_score" (PInt 0) in
  let recommendations : list pyval := [] in
  subs ← as_num subscribers;
  let recommendations :=
    if decide (subs < 1000)
    then (recommendations ++ [PDict foundation_recommendation])%list
    else recommendations in
  diversity ← as_num content_diversity;
  let recommendations :=
    if decide (diversity < 60)
    then (recommendations ++ [PDict diversity_recommendation])%list
    else recommendations in
  health ← as_num health_score;
  let recommendations :=
    if decide (health < 60)
    then (recommendations ++ [PDict health_recommendation])%list
    else recommendations in
  mret (take 3 (pad_recommendations 3 recommendations)).

End Narrative.

(* ===================================================================== *)
(** ** The public entry point                                             *)
(* ===================================================================== *)

Module Analysis.
Import Composite.
#[local] Open Scope R_scope.

(** [generate_basic_insights_fallback], lines 3531-3573. *)
Definition generate_basic_insights_fallback : list pyval := [
  PDict (list_to_map [
    ("type", PStr "growth_opportunity");
    ("title", PStr "Establish Channel Foundation");
    ("description", PStr "Focus on building a strong content foundation and engaging with your initial audience.");
    ("priority", PStr "high");
    ("confidence", PFloat (85/100));
    ("actionable_steps", PList (PStr <$> [
       "Create consistent content schedule";
       "Engage with audience comments";
       "Optimize video titles and descriptions";
       "Analyze basic YouTube analytics" ])) ]);
  PDict (list_to_map [
    ("type", PStr "content_strategy");
    ("title", PStr "Develop Content Strategy");
    ("description", PStr "Build a clear content strategy that aligns with your channel goals and audience interests.");
    ("priority", PStr "medium");
    ("confidence", PFloat (80/100));
    ("actionable_steps", PList (PStr <$> [
       "Define your target audience";
       "Research content topics in your niche";
       "Create content calendar";
       "Test different video formats" ])) ]);
  PDict (list_to_map [
    ("type", PStr "engagement_boost");
    ("title", PStr "Boost Audience Engagement");
    ("description", PStr "Increase viewer interaction and build a loyal community around your content.");
    ("priority", PStr "medium");
    ("confidence", PFloat (78/100));
    ("actionable_steps", PList (PStr <$> [
       "Use calls-to-action in videos";
       "Respond to comments promptly";
       "Create interactive content (polls, Q&A)";
       "Run viewer challenges or contests" ])) ]) ].

Definition ints (l : list (string * Z)) : pyval :=
  PDict (list_to_map ((fun '(k, n) => (k, PInt n)) <$> l)).

(** [get_enhanced_fallback_analysis], lines 376-440. *)
Definition get_enhanced_fallback_analysis (channel_id : string) : dict :=
  list_to_map [
    ("channel_metrics", PDict (list_to_map [
       ("channel_title", PStr "YouTube Channel");
       ("subscribers", PInt 0);
       ("total_views", PInt 0);
       ("total_videos", PInt 0);
       ("channel_age_days", PInt 0);
       ("country", PStr "Unknown");
       ("custom_url", PStr "") ]));
    ("engagement_metrics", PDict (list_to_map [
       ("avg_engagement_rate", PInt 0);
       ("engagement_health", PStr "Unknown");
       ("total_recent_likes", PInt 0);
       ("total_recent_comments", PInt 0);
       ("videos_analyzed", PInt 0);
       ("avg_views_per_video", PInt 0);
       ("avg_likes_per_video", PInt 0);
       ("avg_comments_per_video", PInt 0);
       ("performance_consistency", PInt 0);
       ("views_std_dev", PInt 0);
       ("top_performing_video_views", PInt 0);
       ("top_performing_video_likes", PInt 0);
       ("top_performing_video_title", PStr "");
       ("engagement_consistency", PInt 0) ]));
    ("performance_metrics", PDict (list_to_map [
       ("avg_duration_seconds", PInt 0);
       ("optimal_video_length", PStr "Unknown");
       ("performance_trend", PStr "Unknown");
       ("avg_performance_score", PInt 0);
       ("duration_consistency", PInt 0);
       ("estimated_retention_rate", PInt 0);
       ("content_velocity_score", PInt 0) ]));
    ("ai_enhanced_metrics", PDict (list_to_map [
       ("channel_health_score", PInt 0);
       ("performance_tier", PStr "Unknown");
       ("growth_potential", PStr "Unknown");
       ("content_quality_score", PInt 0) ]));
    ("content_analysis", PDict (list_to_map [
       ("content_categories", PDict ∅);
       ("publishing_frequency", PStr "Unknown");
       ("optimal_video_length", PStr "Unknown");
       ("content_gaps", PList []);
       ("trending_alignment_score", PInt 0);
       ("content_diversity_score", PInt 0);
       ("total_videos_analyzed", PInt 0) ]));
    ("demographics", PDict (list_to_map [
       ("age_groups", ints [("18-24", 35); ("25-34", 40); ("35-44", 15); ("45+", 10)]%Z);
       ("gender_ratio", ints [("male", 65); ("female", 35)]%Z);
       ("geographic_distribution",
          ints [("US", 40); ("UK", 15); ("India", 10); ("Other", 35)]%Z);
       ("interests", PList (PStr <$> ["Technology"; "Education"; "Tutorials"])) ]));
    ("ai_insights", PList generate_basic_insights_fallback);
    ("growth_predictions", PDict ∅);
    ("recommendations", PList []);
    ("data_source", PStr "fallback") ].

(** A row of the snapshot table, as the map of its attributes.  Reading an
    attribute the row does not have raises [AttributeError]. *)
Abbreviation snapshot := dict.

(** [safe_get_attr], lines 285-290. *)
Definition safe_get_attr (obj : snapshot) (attr_name : string) (dflt : pyval)
    : pyval :=
  match obj !! attr_name with
  | Some PNone | None => dflt
  | Some value => value
  end.

(** [convert_snapshot_to_analysis], lines 281-374: the only attribute read
    outside [safe_get_attr] is [snapshot.id], in a log line. *)
Definition convert_snapshot_to_analysis (s : snapshot) : dict :=
  match s !! "id" with
  | None => get_enhanced_fallback_analysis ""
  | Some _ =>
    list_to_map [
      ("channel_metrics", PDict (list_to_map [
         ("channel_title", safe_get_attr s "channel_title" (PStr "YouTube Channel"));
         ("channel_description", safe_get_attr s "channel_description" (PStr ""));
         ("subscribers", safe_get_attr s "subscribers" (PInt 0));
         ("total_views", safe_get_attr s "total_views" (PInt 0));
         ("total_videos", safe_get_attr s "total_videos" (PInt 0));
         ("channel_age_days", safe_get_attr s "channel_age_days" (PInt 0));
         ("country", safe_get_attr s "channel_country" (PStr "Unknown"));
         ("custom_url", safe_get_attr s "channel_custom_url" (PStr ""));
         ("published_at", safe_get_attr s "channel_published_at" PNone) ]));
      ("engagement_metrics", PDict (list_to_map [
         ("avg_engagement_rate", safe_get_attr s "avg_engagement_rate" (PInt 0));
         ("engagement_health", safe_get_attr s "engagement_health" (PStr "Unknown"));
         ("total_recent_likes", safe_get_attr s "total_likes" (PInt 0));
         ("total_recent_comments", safe_get_attr s "total_comments" (PInt 0));
         ("videos_analyzed", safe_get_attr s "videos_analyzed" (PInt 0));
         ("avg_views_per_video", safe_get_attr s "avg_views_per_video" (PInt 0));
         ("avg_likes_per_video", safe_get_attr s "avg_likes_per_video" (PInt 0));
         ("avg_comments_per_video", safe_get_attr s "avg_comments_per_video" (PInt 0));
         ("performance_consistency", safe_get_attr s "performance_consistency" (PInt 0));
         ("total_recent_views", safe_get_attr s "total_views" (PInt 0));
         ("total_engagement", safe_get_attr s "total_engagement" (PInt 0));
         ("views_std_dev", safe_get_attr s "views_std_dev" (PInt 0));
         ("top_performing_video_views",
            safe_get_attr s "top_performing_video_views" (PInt 0));
         ("top_performing_video_likes",
            safe_get_attr s "top_performing_video_likes" (PInt 0));
         ("top_performing_video_title",
            safe_get_attr s "top_performing_video_title" (PStr ""));
         ("engagement_consistency", safe_get_attr s "engagement_consistency" (PInt 0)) ]));
      ("performance_metrics", PDict (list_to_map [
         ("avg_duration_seconds", safe_get_attr s "avg_duration_seconds" (PInt 0));
         ("optimal_video_length", safe_get_attr s "optimal_video_length" (PStr "Unknown"));
         ("performance_trend", safe_get_attr s "performance_trend" (PStr "Unknown"));
         ("avg_performance_score", safe_get_attr s "avg_performance_score" (PInt 0));
         ("duration_consistency", safe_get_attr s "duration_consistency" (PInt 0));
         ("estimated_retention_rate", safe_get_attr s "estimated_retention_rate" (PInt 0));
         ("content_velocity_score", safe_get_attr s "content_velocity_score" (PInt 0)) ]));
      ("ai_enhanced_metrics", PDict (list_to_map [
         ("channel_health_score", safe_get_attr s "channel_health_score" (PInt 0));
         ("performance_tier", safe_get_attr s "performance_tier" (PStr "Unknown"));
         ("growth_potential", safe_get_attr s "growth_potential" (PStr "Unknown"));
         ("content_quality_score", safe_get_attr s "content_quality_score" (PInt 0)) ]));
      ("content_analysis", PDict (list_to_map [
         ("content_categories", safe_get_attr s "content_categories" (PDict ∅));
         ("publishing_frequency", safe_get_attr s "publishing_frequency" (PStr "Unknown"));
         ("optimal_video_length", safe_get_attr s "optimal_video_length" (PStr "Unknown"));
         ("content_gaps", safe_get_attr s "content_gaps" (PList []));
         ("trending_alignment_score", safe_get_attr s "trending_topics_alignment" (PInt 0));
         ("content_diversity_score", safe_get_attr s "content_diversity_score" (PInt 0));
         ("total_videos_analyzed", safe_get_attr s "videos_analyzed" (PInt 0)) ]));
      ("demographics", PDict (list_to_map [
         ("age_groups", safe_get_attr s "estimated_age_groups" (PDict ∅));
         ("gender_ratio", safe_get_attr s "estimated_gender_ratio" (PDict ∅));
         ("geographic_distribution", safe_get_attr s "geographic_distribution" (PDict ∅));
         ("interests", safe_get_attr s "audience_interests" (PList [])) ]));
      ("ai_insights", safe_get_attr s "ai_insights" (PList []));
      ("growth_predictions", safe_get_attr s "growth_predictions" (PDict ∅));
      ("recommendations", safe_get_attr s "recommendations" (PList []));
      ("data_source", PStr "cached_7day") ]
  end.

(** [get_recent_analysis_safe], lines 236-271, on the outcome of its query:
    an exception, no row, or the most recent row of the last seven days.
    The log lines read three attributes of the row directly. *)
Definition get_recent_analysis_safe (query : exc (option snapshot))
    : option dict :=
  match query with
  | Ok (Some recent_snapshot) =>
      match recent_snapshot !! "analysis_timestamp",
            recent_snapshot !! "subscribers",
            recent_snapshot !! "optimal_video_length" with
      | Some _, Some _, Some _ => Some (convert_snapshot_to_analysis recent_snapshot)
      | _, _, _ => None
      end
  | Ok None => None
  | Raise _ => None
  end.

(** [unify_data_sources], lines 1897-1923.  The dictionary under
    ['ai_enhanced_metrics'] is updated in place and [analysis] itself is
    returned: the other entries are untouched. *)
Definition unify_data_sources (analysis : dict) : exc dict :=
  channel_metrics ← getitem analysis "channel_metrics" ≫= as_dict;
  let subscribers := get channel_metrics "subscribers" (PInt 0) in
  engagement_metrics ← getitem analysis "engagement_metrics" ≫= as_dict;
  let engagement_rate := get engagement_metrics "avg_engagement_rate" (PInt 0) in
  let top_video_views :=
    get engagement_metrics "top_performing_video_views" (PInt 0) in
  subs ← as_num subscribers;
  top ← as_num top_video_views;
  let viral_ratio := top / Rmax subs 1 in
  match analysis !! "ai_enhanced_metrics" with
  | Some ai_enhanced_metrics =>
      ai ← as_dict ai_enhanced_metrics;
      let ai := <["viral_ratio" := PFloat (round_to viral_ratio 1)]> ai in
      channel_scale ← assess_channel_scale channel_metrics;
      ai ←
        (if bool_decide (channel_scale = "nano")
            || bool_decide (channel_scale = "micro")
         then
           rate ← as_num engagement_rate;
           if decide (rate < 3) then
             current_health ← as_num (get ai "channel_health_score" (PInt 0));
             if decide (current_health > 70)
             then mret (<["channel_health_score" :=
                            PFloat (Rmax 30 (Rmin 60 current_health))]> ai)
             else mret ai
           else mret ai
         else mret ai);
      mret (<["ai_enhanced_metrics" := PDict ai]> analysis)
  | None => mret analysis
  end.

(** The outcome of every call [analyze_channel] makes outside itself: the
    cache query, the provider-backed fetches, the stages of the pipeline and
    the clock.  Each call returns a value or raises. *)
Record outcomes : Type := Outcomes {
  snapshot_query : exc (option snapshot);
  out_channel_data : exc pyval;
  out_videos_data : exc pyval;
  out_videos_data_again : exc pyval;
  out_engagement_metrics : exc pyval;
  out_content_analysis : exc pyval;
  out_performance_metrics : exc pyval;
  out_ai_metrics : exc pyval;
  out_demographics : exc pyval;
  out_insights : exc pyval;
  out_predictions : exc pyval;
  out_recommendations : exc pyval;
  out_growth_metrics : exc pyval;
  now_isoformat : string
}.

(** The fresh analysis of [analyze_channel], lines 107-178.
    [save_analysis_safe] handles its own exceptions and returns nothing, so
    it leaves no trace here. *)
Definition fresh_analysis (w : outcomes) (channel_id : string) : exc dict :=
  channel_data ← out_channel_data w;
  if decide (truthy channel_data) then
    videos_data ← out_videos_data w;
    videos_data ← out_videos_data_again w;
    engagement_metrics ← out_engagement_metrics w;
    content_analysis ← out_content_analysis w;
    performance_metrics ← out_performance_metrics w;
    _ ← as_dict engagement_metrics;
    _ ← as_dict content_analysis;
    ai_metrics ← out_ai_metrics w;
    demographics ← out_demographics w;
    insights ← out_insights w;
    predictions ← out_predictions w;
    recommendations ← out_recommendations w;
    growth_metrics ← out_growth_metrics w;
    let analysis : dict := list_to_map [
      ("channel_metrics", channel_data);
      ("engagement_metrics", engagement_metrics);
      ("performance_metrics", performance_metrics);
      ("content_analysis", content_analysis);
      ("growth_metrics", growth_metrics);
      ("ai_enhanced_metrics", ai_metrics);
      ("demographics", demographics);
      ("ai_insights", insights);
      ("growth_predictions", predictions);
      ("recommendations", recommendations);
      ("analysis_timestamp", PStr (now_isoformat w));
      ("data_source", PStr "youtube_api_v3") ] in
    _ ← as_dict channel_data;
    _ ← as_dict performance_metrics;
    unify_data_sources analysis
  else mret (get_enhanced_fallback_analysis channel_id).

(** [analyze_channel], lines 92-184. *)
Definition analyze_channel (w : outcomes) (channel_id : string)
    (force_refresh : bool) : exc dict :=
  try_except
    (let cached :=
       if force_refresh then None
       else get_recent_analysis_safe (snapshot_query w) in
     match cached with
     | Some recent_analysis =>
         if decide (truthy (PDict recent_analysis)) then mret recent_analysis
         else fresh_analysis w channel_id
     | None => fresh_analysis w channel_id
     end)
    (fun e => mret (get_enhanced_fallback_analysis channel_id)).

(** The sections the specification documents for an Analysis, under the
    keys the analyzer gives them. *)
Definition documented_sections : list string := [
  "channel_metrics"; "engagement_metrics"; "performance_metrics";
  "content_analysis"; "ai_enhanced_metrics"; "ai_insights";
  "recommendations"; "growth_predictions"; "analysis_timestamp";
  "data_source" ].

Definition has_sections (sections : list string) (analysis : dict) : Prop :=
  Forall (fun k => is_Some (analysis !! k)) sections.

Definition structurally_complete (analysis : dict) : Prop :=
  has_sections documented_sections analysis.

(** The sections every path provides: all of them but the timestamp. *)
Definition common_sections : list string :=
  filter (fun k => k ≠ "analysis_timestamp") documented_sections.

Definition data_source_tags : list pyval :=
  [PStr "youtube_api_v3"; PStr "cached_7day"; PStr "fallback"].

(** What every path of [analyze_channel] guarantees of its result: the
    common sections, a known tag, and all documented sections when the tag
    is the one of a fresh analysis. *)
Definition valid_analysis (analysis : dict) : Prop :=
  has_sections common_sections analysis /\
  (exists tag, analysis !! "data_source" = Some tag /\ tag ∈ data_source_tags) /\
  (analysis !! "data_source" = Some (PStr "youtube_api_v3") ->
   structurally_complete analysis).

(** The providers and the cache are all unreachable. *)
Definition all_down : outcomes :=
  let down : exc pyval := Raise RequestException in
  Outcomes (Raise OtherException) down down down down down down down down
           down down down down "".

End Analysis.

(* ===================================================================== *)
(** ** Building the credential pools                                      *)
(* ===================================================================== *)

Module Keys.

(** The process environment, as [os.getenv] reads it. *)
Abbreviation environ := (gmap string string).

(** [str(i)] for a slot number below ten. *)
Definition slot_digit (i : nat) : string := String (ascii_of_nat (48 + i)) "".

(** [if key and key not in keys: keys.append(key)]. *)
Definition add_key (keys : list string) (key : option string) : list string :=
  match key with
  | Some k => if decide (k <> "" /\ k ∉ keys) then (keys ++ [k])%list else keys
  | None => keys
  end.

(** [for i in range(first, first + count): key = os.getenv(f'{prefix}{i}'); ...]. *)
Definition add_slots (env : environ) (prefix : string) (first count : nat)
    (keys : list string) : list string :=
  foldl (fun keys i => add_key keys (env !! (prefix ++ slot_digit i)))
        keys (seq first count).

(** [_initialize_youtube_keys], lines 29-49. *)
Definition _initialize_youtube_keys (api_key : option string) (env : environ)
    : list string :=
  let keys := add_key [] api_key in
  let keys := add_slots env "YOUTUBE_API_KEY_" 1 5 keys in
  add_slots env "YOUTUBE_API_KEY_" 6 4 keys.

(** [groq_api_key or os.getenv('GROQ_API_KEY')], line 21. *)
Definition primary_groq_key (groq_api_key : option string) (env : environ)
    : option string :=
  match groq_api_key with
  | Some k => if decide (k <> "") then Some k else env !! "GROQ_API_KEY"
  | None => env !! "GROQ_API_KEY"
  end.

(** [_initialize_groq_keys], lines 51-65. *)
Definition _initialize_groq_keys (groq_api_key : option string) (env : environ)
    : list string :=
  let keys := add_key [] (primary_groq_key groq_api_key env) in
  add_slots env "GROQ_API_KEY_" 1 5 keys.

(** The values the numbered slots of a provider hold. *)
Definition slot_values (env : environ) (prefix : string) (first count : nat)
    : list string :=
  omap (fun i => env !! (prefix ++ slot_digit i)) (seq first count).

End Keys.

(* ===================================================================== *)
(** ** The rate-limited fetch client                                      *)
(* ===================================================================== *)

Module Fetch.

(** [needle in hay] on strings. *)
Fixpoint contains (needle hay : string) : bool :=
  if String.prefix needle hay then true
  else match hay with
       | String _ hay' => contains needle hay'
       | EmptyString => false
       end.

(** What one request came to. *)
Inductive reply (A : Type) : Type :=
| ApiError (code : option Z) (message : option string)
                                  (* the payload has an ['error'] entry *)
| Empty                           (* no error, and no ['items'] *)
| Found (a : A)                   (* items, and the result built from them *)
| Failed (e : exn).               (* the request or its treatment raised *)
Arguments ApiError {A} code message.
Arguments Empty {A}.
Arguments Found {A} a.
Arguments Failed {A} e.

(** What the client did, in order. *)
Inductive event : Type :=
| Search (key_index : nat)            (* a request to the search endpoint *)
| Request (key_index attempt : nat)   (* a request to the channels endpoint *)
| Sleep (seconds : Z).

Definition searches (log : list event) : nat :=
  foldr (fun e n => match e with Search _ => S n | _ => n end) O log.
Definition requests (log : list event) : nat :=
  foldr (fun e n => match e with Request _ _ => S n | _ => n end) O log.
Definition slept (log : list event) : Z :=
  foldr (fun e acc => match e with Sleep s => s + acc | _ => acc end) 0 log.

Definition key_error_codes : list Z := [403; 400; 401; 429].
Definition key_error_keywords : list string :=
  ["quota"; "exceeded"; "disabled"; "forbidden"; "invalid"; "key"].

Section Client.
(** [str.lower]. *)
Variable lower : string -> string.

(** The test for a key-level failure, lines 713-714. *)
Definition is_key_error (code : option Z) (message : option string) : bool :=
  match code with
  | Some c =>
      bool_decide (c ∈ key_error_codes)
      && existsb (fun keyword =>
                    contains keyword (lower (default "Unknown error" message)))
                 key_error_keywords
  | None => false
  end.

(** A reply that makes the client leave the key at once. *)
Definition key_rejected {A} (r : reply A) : Prop :=
  exists code message,
    r = ApiError code message /\ is_key_error code message = true.

(** The retry loop on one key, lines 687-785: [remaining] attempts are left,
    the next one is number [attempt].  The result is the channel, or nothing
    when the client moves on to the next key. *)
Fixpoint try_key {A} (ask : nat -> reply A) (key_index max_retries : nat)
    (attempt remaining : nat) : list event * option A :=
  match remaining with
  | O => ([], None)
  | S remaining' =>
      let again :=
        if (attempt <? max_retries - 1)%nat then
          let '(log, result) :=
            try_key ask key_index max_retries (S attempt) remaining' in
          (Request key_index attempt :: Sleep (2 ^ Z.of_nat attempt) :: log, result)
        else ([Request key_index attempt], None) in
      match ask attempt with
      | Found a => ([Request key_index attempt], Some a)
      | ApiError code message =>
          if is_key_error code message
          then ([Request key_index attempt], None)
          else again
      | Empty => again
      | Failed _ => again
      end
  end.

(** The loop over the pool, line 686. *)
Fixpoint try_pool {A} (provider : nat -> nat -> reply A) (max_retries : nat)
    (key_index : nat) (keys : list string) : list event * option A :=
  match keys with
  | [] => ([], None)
  | _ :: keys' =>
      match try_key (provider key_index) key_index max_retries 0 max_retries with
      | (log, Some a) => (log, Some a)
      | (log, None) =>
          let '(log', result) := try_pool provider max_retries (S key_index) keys' in
          ((log ++ log')%list, result)
      end
  end.

(** A channel of a search result, with the fields the resolver reads; a
    missing field is [None]. *)
Record search_item : Type := SearchItem {
  item_title : option string;
  item_description : option string;
  item_channel_id : option string
}.

(** The ranking of the candidates, lines 836-868: the first exact match of
    the title, else the first item that has the query in its title or in its
    description, else the first item.  A missing title or channel id raises. *)
Definition classify (search_query : string) (item : search_item)
    : exc (bool * bool) :=
  match item_title item with
  | None => Raise KeyError
  | Some t =>
      let channel_title := lower t in
      let channel_description := lower (default "" (item_description item)) in
      if decide (lower search_query = channel_title) then Ok (true, false)
      else if contains (lower search_query) channel_title then Ok (false, true)
      else if contains (lower search_query) channel_description then Ok (false, true)
      else Ok (false, false)
  end.

Fixpoint rank (search_query : string) (items : list search_item)
    : exc (list search_item * list search_item) :=
  match items with
  | [] => Ok ([], [])
  | item :: items' =>
      c ← classify search_query item;
      r ← rank search_query items';
      let '(is_exact, is_close) := c in
      let '(exact_matches, close_matches) := r in
      Ok (if is_exact : bool then item :: exact_matches else exact_matches,
          if is_close : bool then item :: close_matches else close_matches)
  end.

Definition best_match (search_query : string) (items : list search_item)
    : exc (option string) :=
  r ← rank search_query items;
  let '(exact_matches, close_matches) := r in
  match exact_matches, close_matches, items with
  | best :: _, _, _ | [], best :: _, _ | [], [], best :: _ =>
      match item_channel_id best with
      | Some channel_id => Ok (Some channel_id)
      | None => Raise KeyError
      end
  | [], [], [] => Ok None
  end.

(** The loop over the pool in [resolve_custom_url_to_channel_id], lines
    802-881: one request per key. *)
Fixpoint search_pool (provider : nat -> reply (list search_item))
    (search_query : string) (key_index : nat) (keys : list string)
    : list event * option string :=
  match keys with
  | [] => ([], None)
  | _ :: keys' =>
      let next :=
        let '(log, result) :=
          search_pool provider search_query (S key_index) keys' in
        (Search key_index :: log, result) in
      match provider key_index with
      | ApiError code message =>
          if is_key_error code message then next
          else ([Search key_index], None)
      | Found items =>
          match best_match search_query items with
          | Ok (Some channel_id) => ([Search key_index], Some channel_id)
          | Ok None => next
          | Raise _ => next
          end
      | Empty => next
      | Failed _ => next
      end
  end.

(** [resolve_custom_url_to_channel_id], lines 790-885. *)
Definition resolve_custom_url_to_channel_id (youtube_keys : list string)
    (provider : string -> nat -> reply (list search_item))
    (identifier : string) : list event * option string :=
  match identifier with
  | String "@" search_query =>
      search_pool (provider search_query) search_query 0 youtube_keys
  | _ => ([], None)
  end.

(** [get_enhanced_channel_data_with_retry], lines 672-788.  The outside world
    is given by two providers: [search] answers the search made for a handle
    with the key at a position of the pool, [provider] answers the request
    for a channel made with the key at a position of the pool on a given
    attempt. *)
Definition get_enhanced_channel_data_with_retry (youtube_keys : list string)
    (search : string -> nat -> reply (list search_item))
    (provider : string -> nat -> nat -> reply dict)
    (channel_id : string) (max_retries : nat) : list event * option dict :=
  if String.prefix "@" channel_id then
    match resolve_custom_url_to_channel_id youtube_keys search channel_id with
    | (log, Some resolved_id) =>
        if decide (resolved_id <> "") then
          let '(log', result) :=
            try_pool (provider resolved_id) max_retries 0 youtube_keys in
          ((log ++ log')%list, result)
        else (log, None)
    | (log, None) => (log, None)
    end
  else try_pool (provider channel_id) max_retries 0 youtube_keys.

End Client.

End Fetch.

(* ===================================================================== *)
(** ** Validation of the composite metrics                                *)
(* ===================================================================== *)

Module Validation.
#[local] Open Scope R_scope.

Definition required_fields : list string :=
  ["channel_health_score"; "content_quality_score"; "growth_potential";
   "performance_tier"; "viral_ratio"; "engagement_health"].
Definition valid_growth : list string :=
  ["High"; "Medium-High"; "Medium"; "Low-Medium"; "Low"].

(** [field in metrics]. *)
Definition has_key (metrics : dict) (field : string) : bool :=
  match metrics !! field with Some _ => true | None => false end.

(** [0 <= v <= 100]. *)
Definition in_score_range (v : pyval) : exc bool :=
  r ← as_num v;
  mret (bool_decide (0 <= r) && bool_decide (r <= 100)).

(** [validate_ai_metrics], lines 2117-2140. *)
Definition validate_ai_metrics (metrics : dict) : exc bool :=
  if forallb (has_key metrics) required_fields then
    health ← in_score_range (get metrics "channel_health_score" (PInt 0));
    if negb health then mret false
    else
      quality ← in_score_range (get metrics "content_quality_score" (PInt 0));
      if negb quality then mret false
      else mret (existsb (str_eq (get metrics "growth_potential" PNone))
                         valid_growth)
  else mret false.

(** A field that is absent or holds a number; one that is absent or holds
    a number that is not negative. *)
Definition number_field (d : dict) (k : string) : Prop :=
  is_num (get d k (PInt 0)).
Definition nonneg_field (d : dict) (k : string) : Prop :=
  exists r, as_num (get d k (PInt 0)) = Ok r /\ 0 <= r.

End Validation.

(* ===================================================================== *)
(** ** Growth prediction                                                  *)
(* ===================================================================== *)

Module Growth.
#[local] Open Scope R_scope.

(** [identify_growth_drivers], lines 2683-2702. *)
Definition identify_growth_drivers (ai_metrics engagement_metrics : dict)
    : exc (list string) :=
  health ← as_num (get ai_metrics "channel_health_score" (PInt 0));
  let drivers : list string :=
    if decide (health >= 70) then ["Strong channel health"] else [] in
  rate ← as_num (get engagement_metrics "avg_engagement_rate" (PInt 0));
  let drivers :=
    if decide (rate >= 6) then (drivers ++ ["High engagement rate"])%list
    else drivers in
  consistency ←
    as_num (get engagement_metrics "performance_consistency" (PInt 0));
  let drivers :=
    if decide (consistency >= 70)
    then (drivers ++ ["Consistent performance"])%list else drivers in
  quality ← as_num (get ai_metrics "content_quality_score" (PInt 0));
  let drivers :=
    if decide (quality >= 75) then (drivers ++ ["Quality content"])%list
    else drivers in
  let drivers :=
    match drivers with [] => ["Foundation building phase"] | _ => drivers end in
  mret (take 3 drivers).

(** The base rate of a channel of a given size, lines 2621-2630. *)
Definition base_growth (current_subs : R) : R :=
  if decide (current_subs >= 1000000) then 3/10
  else if decide (current_subs >= 100000) then 8/10
  else if decide (current_subs >= 10000) then 15/10
  else if decide (current_subs >= 1000) then 25/10
  else 4.

(** [{...}.get(growth_potential, 1.0)], lines 2633-2639: the key has to be
    hashable. *)
Definition growth_multiplier (growth_potential : pyval) : exc R :=
  match growth_potential with
  | PList _ | PDict _ => Raise TypeError
  | _ =>
      mret (if str_eq growth_potential "High" then 18/10
            else if str_eq growth_potential "Medium-High" then 14/10
            else if str_eq growth_potential "Medium" then 1
            else if str_eq growth_potential "Low-Medium" then 6/10
            else if str_eq growth_potential "Low" then 3/10
            else 1)
  end.

Definition viral_multiplier (viral_ratio : R) : R :=
  if decide (viral_ratio > 10) then 15/10
  else if decide (viral_ratio > 5) then 13/10
  else 1.

(** [predict_growth_enhanced], lines 2610-2681. *)
Definition predict_growth_enhanced
    (channel_data ai_metrics engagement_metrics : dict) : exc dict :=
  let current_subs := get channel_data "subscribers" (PInt 0) in
  let health_score := get ai_metrics "channel_health_score" (PInt 0) in
  let engagement_rate := get engagement_metrics "avg_engagement_rate" (PInt 0) in
  let consistency :=
    get engagement_metrics "performance_consistency" (PInt 0) in
  let viral_ratio := get ai_metrics "viral_ratio" (PInt 0) in
  let growth_potential := get ai_metrics "growth_potential" (PStr "Unknown") in
  subs ← as_num current_subs;
  multiplier ← growth_multiplier growth_potential;
  viral ← as_num viral_ratio;
  let monthly_growth_rate := base_growth subs * multiplier * viral_multiplier viral in
  rate ← as_num engagement_rate;
  monthly_growth_rate ←
    (if decide (rate > 3) then
       c ← as_num consistency;
       mret (if decide (c > 50) then Rmax monthly_growth_rate (5/10)
             else monthly_growth_rate)
     else mret monthly_growth_rate);
  let monthly_growth_rate := Rmin monthly_growth_rate 15 in
  let projected (months : nat) : pyval :=
    if decide (monthly_growth_rate > 0)
    then PInt (py_int (subs * (1 + monthly_growth_rate / 100) ^ months))
    else current_subs in
  health ← as_num health_score;
  drivers ← identify_growth_drivers ai_metrics engagement_metrics;
  mret (list_to_map [
    ("predicted_monthly_growth_rate", PFloat (round_to monthly_growth_rate 1));
    ("predicted_3month_subs", projected 3%nat);
    ("predicted_6month_subs", projected 6%nat);
    ("predicted_12month_subs", projected 12%nat);
    ("confidence", PFloat (Rmin (health / 100) (9/10)));
    ("growth_drivers", PList (PStr <$> drivers)) ]).

End Growth.

(* ===================================================================== *)
(** ** Audience demographics                                              *)
(* ===================================================================== *)

Module Demographics.
Import Diversity.

(** [list(dict.fromkeys(l))]: the first occurrence of each element, in
    order. *)
Definition fromkeys (l : list string) : list string :=
  foldl (fun seen x => if decide (x ∈ seen) then seen else (seen ++ [x])%list)
        [] l.

(** The interests a category brings, lines 2199-2207. *)
Definition interests_of (category : string) : list string :=
  if decide (category = "gaming")
  then ["Video Games"; "Entertainment"; "Technology"]
  else if decide (category = "tech")
  then ["Technology"; "Gadgets"; "Innovation"]
  else if decide (category = "educational")
  then ["Education"; "Learning"; "Self-Improvement"]
  else if decide (category = "entertainment")
  then ["Entertainment"; "Comedy"; "Fun"]
  else [].

Definition shares (l : list (string * Z)) : pyval :=
  PDict (list_to_map ((fun '(k, n) => (k, PInt n)) <$> l)).

(** [infer_demographics_enhanced], lines 2172-2215.  [content_categories]
    is [content_analysis.get('content_categories', {})], with its entries in
    the order of the dictionary. *)
Definition infer_demographics_enhanced (channel_data : dict)
    (content_categories : categories) : exc dict :=
  _ ← as_str (get channel_data "channel_title" (PStr ""));
  let keys := content_categories.*1 in
  let base_demographics : list (string * pyval) :=
    if existsb (fun cat => bool_decide (cat ∈ keys)) ["gaming"; "tech"] then
      [ ("age_groups",
           shares [("13-17", 25); ("18-24", 45); ("25-34", 20); ("35+", 10)]);
        ("gender_ratio", shares [("male", 75); ("female", 25)]);
        ("geographic_distribution",
           shares [("US", 35); ("UK", 15); ("India", 20); ("Other", 30)]) ]
    else if existsb (fun cat => bool_decide (cat ∈ keys))
                    ["educational"; "tutorial"] then
      [ ("age_groups",
           shares [("18-24", 35); ("25-34", 40); ("35-44", 15); ("45+", 10)]);
        ("gender_ratio", shares [("male", 55); ("female", 45)]);
        ("geographic_distribution",
           shares [("US", 40); ("UK", 15); ("India", 15); ("Other", 30)]) ]
    else
      [ ("age_groups",
           shares [("18-24", 35); ("25-34", 40); ("35-44", 15); ("45+", 10)]);
        ("gender_ratio", shares [("male", 65); ("female", 35)]);
        ("geographic_distribution",
           shares [("US", 40); ("UK", 15); ("India", 10); ("Other", 35)]) ] in
  let interests := flat_map interests_of keys in
  let interests := take 5 (fromkeys interests) in
  let interests : list string :=
    match interests with
    | [] => ["Technology"; "Education"; "Entertainment"]
    | _ => interests
    end in
  mret (<["interests" := PList (PStr <$> interests)]>
          (list_to_map base_demographics)).

(** The sum of the shares of a distribution. *)
Definition shares_total (v : pyval) : Z :=
  match v with
  | PDict d =>
      map_fold (fun _ v acc => match v with PInt z => z + acc | _ => acc end) 0 d
  | _ => 0
  end.

End Demographics.

(* ===================================================================== *)
(** ** Content gaps                                                       *)
(* ===================================================================== *)

Module Gaps.
Import Diversity Fetch.

Definition all_categories : list (string * list string) := [
  ("educational", ["tutorial"; "explainer"; "how-to"; "guide"; "lesson"]);
  ("entertainment", ["comedy"; "challenge"; "prank"; "funny"; "entertainment"]);
  ("review", ["review"; "unboxing"; "test"; "comparison"; "opinion"]);
  ("news", ["news"; "update"; "announcement"; "breaking"; "report"]);
  ("vlog", ["vlog"; "day in life"; "behind scenes"; "personal"; "update"]);
  ("gaming", ["gameplay"; "walkthrough"; "stream"; "gaming"; "playthrough"]);
  ("tech", ["technology"; "tech"; "software"; "hardware"; "digital"]);
  ("creative", ["art"; "design"; "creative"; "making"; "build"]) ].

Definition relevance_keywords : list (string * list string) := [
  ("tutorial", ["learn"; "teach"; "education"; "skill"]);
  ("review", ["product"; "service"; "compare"; "quality"]);
  ("tech", ["technology"; "software"; "digital"; "computer"]);
  ("gaming", ["game"; "play"; "entertainment"; "fun"]) ].

Section Gaps.
(** [str.lower]. *)
Variable lower : string -> string.

(** [(a + b).lower()] for two entries of a dictionary: strings are joined;
    the sum of two numbers or of two lists has no [lower]; other operands
    cannot be added. *)
Definition add_lower (a b : pyval) : exc string :=
  match a, b with
  | PStr x, PStr y => Ok (lower (x ++ y))
  | (PInt _ | PFloat _ | PBool _), (PInt _ | PFloat _ | PBool _) =>
      Raise AttributeError
  | PList _, PList _ => Raise AttributeError
  | _, _ => Raise TypeError
  end.

(** [is_relevant_gap], lines 3760-3776. *)
Definition is_relevant_gap (sub_category : string) (channel_data : dict)
    : exc bool :=
  channel_desc ← add_lower (get channel_data "channel_description" (PStr ""))
                           (get channel_data "channel_title" (PStr ""));
  mret match find (fun '(keyword, _) => contains sub_category keyword)
                  relevance_keywords with
       | Some (_, related) =>
           existsb (fun word => contains word channel_desc) related
       | None => true
       end.

(** [sum(1 for sub in sub_categories if self.is_relevant_gap(sub, channel_data))]. *)
Definition gap_score (sub_categories : list string) (channel_data : dict)
    : exc nat :=
  flags ← mapM (fun sub => is_relevant_gap sub channel_data) sub_categories;
  mret (length (filter (fun flag => flag = true) flags)).

(** The loop of [identify_content_gaps_ai], lines 3751-3756. *)
Fixpoint gaps_from (candidates : list (string * list string))
    (current_categories : list string) (channel_data : dict)
    : exc (list string) :=
  match candidates with
  | [] => mret []
  | (main_category, sub_categories) :: candidates' =>
      if decide (main_category ∈ current_categories)
      then gaps_from candidates' current_categories channel_data
      else
        score ← gap_score sub_categories channel_data;
        gaps ← gaps_from candidates' current_categories channel_data;
        mret (if (2 <=? score)%nat then main_category :: gaps else gaps)
  end.

(** [identify_content_gaps_ai], lines 3736-3758. *)
Definition identify_content_gaps_ai (categories : categories)
    (channel_data : dict) : exc (list string) :=
  gaps ← gaps_from all_categories (categories.*1) channel_data;
  mret (take 4 gaps).

End Gaps.

End Gaps.

(* ===================================================================== *)
(** ** The cache row and the flat view                                    *)
(* ===================================================================== *)

Module Cache.
Import Analysis.

(** A row of assignments [snapshot.attr = section.get(key, default)]; the
    snapshot is the map of its attributes, as in [Analysis.snapshot]. *)
Definition set_attrs (section : dict) (fields : list (string * string * pyval))
    (snapshot : dict) : dict :=
  foldl (fun snapshot '(attr, key, dflt) => <[attr := get section key dflt]> snapshot)
        snapshot fields.

(** The key and the default a row of assignments writes an attribute from:
    those of its last assignment to it. *)
Fixpoint assigned (attr : string) (fields : list (string * string * pyval))
    : option (string * pyval) :=
  match fields with
  | [] => None
  | (attr', key, dflt) :: fields' =>
      match assigned attr fields' with
      | Some field => Some field
      | None => if String.eqb attr attr' then Some (key, dflt) else None
      end
  end.

Definition channel_fields : list (string * string * pyval) := [
  ("channel_title", "channel_title", PStr "");
  ("channel_description", "channel_description", PStr "");
  ("channel_custom_url", "custom_url", PStr "");
  ("channel_country", "country", PStr "Unknown");
  ("subscribers", "subscribers", PInt 0);
  ("total_views", "total_views", PInt 0);
  ("total_videos", "total_videos", PInt 0);
  ("channel_age_days", "channel_age_days", PInt 0) ].

Definition engagement_fields : list (string * string * pyval) := [
  ("total_likes", "total_recent_likes", PInt 0);
  ("total_comments", "total_recent_comments", PInt 0);
  ("total_engagement", "total_engagement", PInt 0);
  ("avg_engagement_rate", "avg_engagement_rate", PInt 0);
  ("engagement_health", "engagement_health", PStr "Unknown");
  ("engagement_consistency", "engagement_consistency", PInt 0);
  ("avg_views_per_video", "avg_views_per_video", PInt 0);
  ("avg_likes_per_video", "avg_likes_per_video", PInt 0);
  ("avg_comments_per_video", "avg_comments_per_video", PInt 0);
  ("performance_consistency", "performance_consistency", PInt 0);
  ("views_std_dev", "views_std_dev", PInt 0);
  ("top_performing_video_views", "top_performing_video_views", PInt 0);
  ("top_performing_video_likes", "top_performing_video_likes", PInt 0);
  ("top_performing_video_title", "top_performing_video_title", PStr "") ].

Definition performance_fields : list (string * string * pyval) := [
  ("avg_duration_seconds", "avg_duration_seconds", PInt 0);
  ("optimal_video_length", "optimal_video_length", PStr "Unknown");
  ("performance_trend", "performance_trend", PStr "Unknown");
  ("avg_performance_score", "avg_performance_score", PInt 0);
  ("duration_consistency", "duration_consistency", PInt 0);
  ("estimated_retention_rate", "estimated_retention_rate", PInt 0);
  ("content_velocity_score", "content_velocity_score", PInt 0) ].

Definition ai_fields : list (string * string * pyval) := [
  ("channel_health_score", "channel_health_score", PInt 0);
  ("performance_tier", "performance_tier", PStr "Unknown");
  ("content_quality_score", "content_quality_score", PInt 0);
  ("growth_potential", "growth_potential", PStr "Unknown") ].

Definition content_fields : list (string * string * pyval) := [
  ("content_categories", "content_categories", PDict ∅);
  ("publishing_frequency", "publishing_frequency", PStr "Unknown");
  ("content_gaps", "content_gaps", PList []);
  ("trending_topics_alignment", "trending_alignment_score", PInt 0);
  ("content_diversity_score", "content_diversity_score", PInt 0);
  ("content_freshness_score", "content_freshness_score", PInt 0);
  ("publishing_consistency", "publishing_consistency", PInt 0) ].

Definition demographic_fields : list (string * string * pyval) := [
  ("estimated_age_groups", "age_groups", PDict ∅);
  ("estimated_gender_ratio", "gender_ratio", PDict ∅);
  ("geographic_distribution", "geographic_distribution", PDict ∅);
  ("audience_interests", "interests", PList []) ].

Definition insight_fields : list (string * string * pyval) := [
  ("ai_insights", "ai_insights", PList []);
  ("growth_predictions", "growth_predictions", PDict ∅);
  ("recommendations", "recommendations", PList []) ].

Section Populate.
(** [datetime.fromisoformat(t.replace('Z', '+00:00'))] as a value of the
    row, and nothing when it raises; the instant of the call. *)
Variable fromisoformat : string -> option pyval.
Variable now : pyval.

(** Lines 583-589: a date that does not parse is stored as [None]. *)
Definition set_published_at (channel_metrics : dict) (snapshot : dict)
    : dict :=
  let published_at := get channel_metrics "published_at" PNone in
  if decide (truthy published_at) then
    <["channel_published_at" :=
        match published_at with
        | PStr t => default PNone (fromisoformat t)
        | _ => PNone
        end]> snapshot
  else snapshot.

(** [populate_snapshot_data], lines 567-668.  The row is updated attribute
    by attribute inside one [try]: when a section is missing or is not a
    dictionary, the attributes written so far stay written and the rest of
    the row is left as it was. *)
Definition populate_snapshot_data (snapshot : dict) (analysis : dict)
    : dict :=
  match getitem analysis "channel_metrics" ≫= as_dict with
  | Raise _ => snapshot
  | Ok channel_metrics =>
  let snapshot := set_attrs channel_metrics channel_fields snapshot in
  let snapshot := set_published_at channel_metrics snapshot in
  match getitem analysis "engagement_metrics" ≫= as_dict with
  | Raise _ => snapshot
  | Ok engagement_metrics =>
  let snapshot := set_attrs engagement_metrics engagement_fields snapshot in
  match as_dict (get analysis "performance_metrics" (PDict ∅)) with
  | Raise _ => snapshot
  | Ok performance_metrics =>
  let snapshot := set_attrs performance_metrics performance_fields snapshot in
  match getitem analysis "ai_enhanced_metrics" ≫= as_dict with
  | Raise _ => snapshot
  | Ok ai_metrics =>
  let snapshot := set_attrs ai_metrics ai_fields snapshot in
  match getitem analysis "content_analysis" ≫= as_dict with
  | Raise _ => snapshot
  | Ok content_analysis =>
  let snapshot := set_attrs content_analysis content_fields snapshot in
  match getitem analysis "demographics" ≫= as_dict with
  | Raise _ => snapshot
  | Ok demographics =>
  let snapshot := set_attrs demographics demographic_fields snapshot in
  let snapshot := set_attrs analysis insight_fields snapshot in
  let snapshot :=
    <["videos_analyzed" := get engagement_metrics "videos_analyzed" (PInt 0)]>
      snapshot in
  let snapshot :=
    <["data_source" := get analysis "data_source" (PStr "unknown")]> snapshot in
  <["analysis_timestamp" := now]> snapshot
  end end end end end end.

End Populate.

(** The engagement fields a cached analysis reads back from the attribute
    that was written from the field of the same name, with their defaults. *)
Definition kept_engagement_fields : list (string * pyval) := [
  ("avg_engagement_rate", PInt 0);
  ("engagement_health", PStr "Unknown");
  ("videos_analyzed", PInt 0);
  ("avg_views_per_video", PInt 0);
  ("avg_likes_per_video", PInt 0);
  ("avg_comments_per_video", PInt 0);
  ("performance_consistency", PInt 0);
  ("total_engagement", PInt 0);
  ("views_std_dev", PInt 0);
  ("top_performing_video_views", PInt 0);
  ("top_performing_video_likes", PInt 0);
  ("top_performing_video_title", PStr "");
  ("engagement_consistency", PInt 0);
  ("total_recent_likes", PInt 0);
  ("total_recent_comments", PInt 0) ].

(** A value that is a dictionary. *)
Definition is_dict (v : pyval) : Prop :=
  match v with PDict _ => True | _ => False end.

(** [flatten_youtube_data], lines 442-517. *)
Definition flatten_youtube_data (analysis : dict) : exc dict :=
  channel_metrics ← as_dict (get analysis "channel_metrics" (PDict ∅));
  engagement_metrics ← as_dict (get analysis "engagement_metrics" (PDict ∅));
  performance_metrics ← as_dict (get analysis "performance_metrics" (PDict ∅));
  ai_metrics ← as_dict (get analysis "ai_enhanced_metrics" (PDict ∅));
  content_analysis ← as_dict (get analysis "content_analysis" (PDict ∅));
  mret (list_to_map [
    ("channel_title", get channel_metrics "channel_title" (PStr "YouTube Channel"));
    ("subscribers", get channel_metrics "subscribers" (PInt 0));
    ("total_views", get channel_metrics "total_views" (PInt 0));
    ("total_videos", get channel_metrics "total_videos" (PInt 0));
    ("channel_age_days", get channel_metrics "channel_age_days" (PInt 0));
    ("custom_url", get channel_metrics "custom_url" (PStr ""));
    ("country", get channel_metrics "country" (PStr "Unknown"));
    ("engagement_rate", get engagement_metrics "avg_engagement_rate" (PInt 0));
    ("engagement_health", get engagement_metrics "engagement_health" (PStr "Unknown"));
    ("engagement_consistency", get engagement_metrics "engagement_consistency" (PInt 0));
    ("total_likes", get engagement_metrics "total_recent_likes" (PInt 0));
    ("total_comments", get engagement_metrics "total_recent_comments" (PInt 0));
    ("total_engagement", get engagement_metrics "total_engagement" (PInt 0));
    ("videos_analyzed", get engagement_metrics "videos_analyzed" (PInt 0));
    ("performance_consistency", get engagement_metrics "performance_consistency" (PInt 0));
    ("views_std_dev", get engagement_metrics "views_std_dev" (PInt 0));
    ("avg_views_per_video", get engagement_metrics "avg_views_per_video" (PInt 0));
    ("avg_likes_per_video", get engagement_metrics "avg_likes_per_video" (PInt 0));
    ("avg_comments_per_video", get engagement_metrics "avg_comments_per_video" (PInt 0));
    ("top_performing_video_views",
       get engagement_metrics "top_performing_video_views" (PInt 0));
    ("top_performing_video_likes",
       get engagement_metrics "top_performing_video_likes" (PInt 0));
    ("top_performing_video_title",
       get engagement_metrics "top_performing_video_title" (PStr ""));
    ("avg_duration_seconds", get performance_metrics "avg_duration_seconds" (PInt 0));
    ("optimal_video_length",
       get performance_metrics "optimal_video_length" (PStr "Unknown"));
    ("performance_trend", get performance_metrics "performance_trend" (PStr "Unknown"));
    ("avg_performance_score", get performance_metrics "avg_performance_score" (PInt 0));
    ("duration_consistency", get performance_metrics "duration_consistency" (PInt 0));
    ("estimated_retention_rate",
       get performance_metrics "estimated_retention_rate" (PInt 0));
    ("content_velocity_score", get performance_metrics "content_velocity_score" (PInt 0));
    ("channel_health", get ai_metrics "channel_health_score" (PInt 0));
    ("performance_tier", get ai_metrics "performance_tier" (PStr "Unknown"));
    ("growth_potential", get ai_metrics "growth_potential" (PStr "Unknown"));
    ("content_quality_score", get ai_metrics "content_quality_score" (PInt 0));
    ("audience_loyalty_score", get ai_metrics "audience_loyalty_score" (PInt 0));
    ("algorithm_favorability", get ai_metrics "algorithm_favorability" (PInt 0));
    ("content_analysis", PDict content_analysis);
    ("content_diversity_score", get content_analysis "content_diversity_score" (PInt 0));
    ("demographics", get analysis "demographics" (PDict ∅));
    ("ai_insights", get analysis "ai_insights" (PList []));
    ("growth_predictions", get analysis "growth_predictions" (PDict ∅));
    ("recommendations", get analysis "recommendations" (PList []));
    ("data_source", get analysis "data_source" (PStr "unknown")) ]).

(** The keys of the flat view. *)
Definition flat_keys : list string := [
  "channel_title"; "subscribers"; "total_views"; "total_videos";
  "channel_age_days"; "custom_url"; "country";
  "engagement_rate"; "engagement_health"; "engagement_consistency";
  "total_likes"; "total_comments"; "total_engagement"; "videos_analyzed";
  "performance_consistency"; "views_std_dev"; "avg_views_per_video";
  "avg_likes_per_video"; "avg_comments_per_video";
  "top_performing_video_views"; "top_performing_video_likes";
  "top_performing_video_title";
  "avg_duration_seconds"; "optimal_video_length"; "performance_trend";
  "avg_performance_score"; "duration_consistency"; "estimated_retention_rate";
  "content_velocity_score";
  "channel_health"; "performance_tier"; "growth_potential";
  "content_quality_score"; "audience_loyalty_score"; "algorithm_favorability";
  "content_analysis"; "content_diversity_score";
  "demographics"; "ai_insights"; "growth_predictions"; "recommendations";
  "data_source" ].

End Cache.

(* ===================================================================== *)
(** ** The order of the engagement labels                                 *)
(* ===================================================================== *)

Module Labels.

(** The engagement labels, from the worst to the best. *)
Definition health_rank (label : string) : nat :=
  if decide (label = "Excellent") then 3
  else if decide (label = "Good") then 2
  else if decide (label = "Average") then 1
  else 0.

End Labels.

(* ===================================================================== *)
(** ** Publishing pattern and recency                                     *)
(* ===================================================================== *)

Module Publishing.
Import Stats Engagement.
#[local] Open Scope R_scope.

(** [video['snippet']['publishedAt']], parsed: nothing when the snippet or
    the date is missing or the date does not parse. *)
Definition publish_date (v : video) : option Z := video_snippet v ≫= publishedAt.

(** [(later - earlier).days] for two instants in seconds. *)
Definition days (later earlier : Z) : Z := ((later - earlier) / 86400)%Z.

(** [(dates[i] - dates[i-1]).days for i in range(1, len(dates))]. *)
Fixpoint intervals (dates : list Z) : list Z :=
  match dates with
  | earlier :: (later :: _) as rest => days later earlier :: intervals rest
  | _ => []
  end.

Definition frequency_label (avg_days_between : R) : string :=
  if Rle_dec avg_days_between 1 then "Daily"
  else if Rle_dec avg_days_between 3 then "Frequent (2-3 days)"
  else if Rle_dec avg_days_between 7 then "Weekly"
  else if Rle_dec avg_days_between 14 then "Bi-weekly"
  else if Rle_dec avg_days_between 30 then "Monthly"
  else "Irregular".

(** [analyze_publishing_pattern_enhanced], lines 3660-3704. *)
Definition analyze_publishing_pattern_enhanced {fa : arithmetic}
    (videos : list video) : dict :=
  if (length videos <? 2)%nat
  then list_to_map [("frequency", PStr "Irregular"); ("consistency", PInt 0)]
  else
    match mapM publish_date videos with
    | None => list_to_map [("frequency", PStr "Unknown"); ("consistency", PInt 0)]
    | Some dates =>
        let dates := merge_sort Z.le dates in
        match dates, last dates with
        | first :: _, Some latest =>
            let total_days := days latest first in
            if (2 <=? length dates)%nat && (0 <? total_days)%Z then
              let avg_days_between :=
                IZR total_days / INR (length dates - 1) in
              let consistency := calculate_consistency (IZR <$> intervals dates) in
              list_to_map [("frequency", PStr (frequency_label avg_days_between));
                           ("consistency", PFloat consistency)]
            else list_to_map [("frequency", PStr "Irregular");
                              ("consistency", PInt 0)]
        | _, _ => list_to_map [("frequency", PStr "Irregular");
                               ("consistency", PInt 0)]
        end
    end.

(** The date of a video for the two recency scores, which have no handler of
    their own: a missing snippet or date raises [KeyError] (a date that does
    not parse, [ValueError]; the record does not tell the two apart). *)
Definition publish_date_or_raise (v : video) : exc Z :=
  match publish_date v with Some t => Ok t | None => Raise KeyError end.

(** [assess_content_freshness], lines 3866-3882, at the instant [now]. *)
Definition assess_content_freshness (now : Z) (videos : list video) : exc R :=
  match videos with
  | [] => mret 0
  | _ =>
      freshness_scores ←
        mapM (fun v =>
                t ← publish_date_or_raise v;
                mret (IZR (Z.max 0 (100 - days now t * 5))))
             (take 20 videos);
      mret match freshness_scores with
           | [] => 0
           | _ => round_to (np_mean freshness_scores) 1
           end
  end.

(** [assess_trending_alignment_ai], lines 3778-3802, at the instant [now]. *)
Definition assess_trending_alignment_ai (now : Z) (videos : list video) : exc R :=
  match videos with
  | [] => mret 0
  | _ =>
      let recent_videos := take 10 videos in
      let max_score := (length recent_videos * 10)%nat in
      scores ←
        mapM (fun v =>
                t ← publish_date_or_raise v;
                let recency_score := Z.max 0 (10 - days now t) in
                let performance_score := Rmin (IZR (views_of v) / 1000) 5 in
                mret (IZR recency_score + performance_score))
             recent_videos;
      mret (if (0 <? max_score)%nat
            then round_to (sum_R scores / INR max_score * 100) 1
            else 0)
  end.

(** A video with a publication date that is not after [now] and a view
    count that is not negative; one published less than a day before [now],
    with 5000 views or more. *)
Definition dated_before (now : Z) (v : video) : Prop :=
  exists t, publish_date v = Some t /\ (t <= now)%Z /\ (0 <= views_of v)%Z.
Definition fresh_hit (now : Z) (v : video) : Prop :=
  exists t, publish_date v = Some t /\ (t <= now < t + 86400)%Z /\
            (5000 <= views_of v)%Z.

End Publishing.

(* ===================================================================== *)
(** ** The details of the videos, fetched in batches                      *)
(* ===================================================================== *)

Module Details.
Import Engagement Fetch.

(** [snippet.get('thumbnails', {})] of an item: for each size, nothing when
    the size is missing or empty, and otherwise its ['url'] if it has one. *)
Record thumbnails : Type := Thumbnails {
  maxres : option (option string);
  high : option (option string);
  medium : option (option string);
  default_size : option (option string)
}.

(** An item of the provider: the video, and the thumbnails of its snippet. *)
Record raw_item : Type := RawItem {
  raw_video : video;
  raw_thumbnails : thumbnails
}.

(** [thumbnails[size]['url']]. *)
Definition url_of (size : option string) : exc (option string) :=
  match size with Some u => Ok (Some u) | None => Raise KeyError end.

(** Lines 1106-1115: the largest size there is. *)
Definition pick_thumbnail (t : thumbnails) : exc (option string) :=
  match maxres t, high t, medium t, default_size t with
  | Some size, _, _, _ | None, Some size, _, _ | None, None, Some size, _
  | None, None, None, Some size => url_of size
  | None, None, None, None => Ok None
  end.

(** Lines 1117-1121: the url goes to the video if it has none and to its
    snippet in any case. *)
Definition set_thumbnail (u : string) (v : video) : video :=
  Video (video_id v) (video_statistics v)
        ((fun s => Snippet (title s) (publishedAt s) (Some u)) <$> video_snippet v)
        (video_duration v)
        (match thumbnail_url v with Some old => Some old | None => Some u end).

Definition with_thumbnail (item : raw_item) : exc video :=
  thumbnail_url ← pick_thumbnail (raw_thumbnails item);
  mret match thumbnail_url with
       | Some u => if decide (u <> "") then set_thumbnail u (raw_video item)
                   else raw_video item
       | None => raw_video item
       end.

(** What the client did: a request for a batch with a key, a pause of half
    a second. *)
Inductive step : Type :=
| Ask (batch key_index : nat)
| Pause.

Definition asks (log : list step) : nat :=
  foldr (fun e n => match e with Ask _ _ => S n | Pause => n end) O log.
Definition pauses (log : list step) : nat :=
  foldr (fun e n => match e with Pause => S n | Ask _ _ => n end) O log.

(** [video_ids[i:i+20] for i in range(0, len(video_ids), 20)]; the fuel is
    the number of ids. *)
Fixpoint batches_of (fuel : nat) (video_ids : list string) : list (list string) :=
  match fuel, video_ids with
  | O, _ | _, [] => []
  | S fuel', _ => take 20 video_ids :: batches_of fuel' (drop 20 video_ids)
  end.

(** The videos an answer brings, when it is taken. *)
Definition answer_of (r : reply (list raw_item)) : list video :=
  match r with
  | Found items =>
      match mapM with_thumbnail items with Ok videos => videos | Raise _ => [] end
  | _ => []
  end.

(** An answer that is taken: items whose thumbnails can be read, or a
    payload without items. *)
Definition well_answered (r : reply (list raw_item)) : Prop :=
  match r with
  | Found items => exists videos, mapM with_thumbnail items = Ok videos
  | Empty => True
  | _ => False
  end.

Section Client.
(** [str.lower]. *)
Variable lower : string -> string.

(** Lines 1097-1099: here the message alone tells a key-level failure. *)
Definition is_key_message (message : option string) : bool :=
  existsb (fun keyword =>
             contains keyword (lower (default "Unknown error" message)))
          key_error_keywords.

(** The loop over the pool for one batch, lines 1081-1134.  A payload
    without ['items'] is an answer with no video. *)
Fixpoint try_keys_for_batch (provider : nat -> reply (list raw_item))
    (batch key_index : nat) (keys : list string) : list step * list video :=
  match keys with
  | [] => ([], [])
  | _ :: keys' =>
      let next :=
        let '(log, videos) :=
          try_keys_for_batch provider batch (S key_index) keys' in
        (Ask batch key_index :: log, videos) in
      match provider key_index with
      | ApiError _ message =>
          if is_key_message message then next
          else ([Ask batch key_index], [])
      | Found items =>
          match mapM with_thumbnail items with
          | Ok videos => ([Ask batch key_index], videos)
          | Raise _ => next
          end
      | Empty => ([Ask batch key_index], [])
      | Failed _ => next
      end
  end.

(** The loop over the batches, lines 1076-1139. *)
Fixpoint fetch_batches (provider : list string -> nat -> reply (list raw_item))
    (keys : list string) (batch : nat) (todo : list (list string))
    : list step * list video :=
  match todo with
  | [] => ([], [])
  | batch_ids :: todo' =>
      let '(log, videos) :=
        try_keys_for_batch (provider batch_ids) batch 0 keys in
      let '(log', videos') := fetch_batches provider keys (S batch) todo' in
      ((log ++ match todo' with [] => [] | _ => [Pause] end ++ log')%list,
       (videos ++ videos')%list)
  end.

(** [get_video_details_safe], lines 1070-1147: the provider answers the
    request for a batch of ids made with the key at a position of the pool.
    The [key_index] argument is not used. *)
Definition get_video_details_safe (youtube_keys : list string)
    (provider : list string -> nat -> reply (list raw_item))
    (video_ids : list string) (key_index : nat) : list step * list video :=
  fetch_batches provider youtube_keys 0
    (batches_of (length video_ids) video_ids).

End Client.

End Details.

(* ===================================================================== *)
(** ** The growth predictions of the application ([app.py])               *)
(* ===================================================================== *)

Module App.
#[local] Open Scope R_scope.

(** [{...}.get(growth_potential, 1.0)], lines 1172-1177 of [app.py]: the
    key has to be hashable. *)
Definition growth_multiplier (growth_potential : pyval) : exc R :=
  match growth_potential with
  | PList _ | PDict _ => Raise TypeError
  | _ =>
      mret (if str_eq growth_potential "High" then 15/10
            else if str_eq growth_potential "Medium" then 12/10
            else if str_eq growth_potential "Low" then 8/10
            else if str_eq growth_potential "Very Low" then 5/10
            else 1)
  end.

(** [calculate_consistent_growth_predictions], lines 1147-1190 of [app.py]. *)
Definition calculate_consistent_growth_predictions (analysis : dict) : exc dict :=
  channel_metrics ← getitem analysis "channel_metrics" ≫= as_dict;
  engagement_metrics ← getitem analysis "engagement_metrics" ≫= as_dict;
  ai_metrics ← getitem analysis "ai_enhanced_metrics" ≫= as_dict;
  let current_subs := get channel_metrics "subscribers" (PInt 0) in
  let engagement_rate := get engagement_metrics "avg_engagement_rate" (PInt 0) in
  let consistency := get engagement_metrics "performance_consistency" (PInt 0) in
  let content_quality := get ai_metrics "content_quality_score" (PInt 0) in
  let growth_potential := get ai_metrics "growth_potential" (PStr "Unknown") in
  subs ← as_num current_subs;
  rate ← as_num engagement_rate;
  let base_rate :=
    if decide (subs >= 1000000) then rate * (4/10)
    else if decide (subs >= 100000) then rate * (5/10)
    else rate * (8/10) in
  c ← as_num consistency;
  let consistency_bonus := c * (1/1000) in
  q ← as_num content_quality;
  let quality_bonus := q * (5/10000) in
  multiplier ← growth_multiplier growth_potential;
  let monthly_growth_rate :=
    (base_rate + consistency_bonus + quality_bonus) * multiplier in
  let monthly_growth_rate := Rmax (1/10) (Rmin monthly_growth_rate 8) in
  let projected (months : nat) : pyval :=
    PInt (py_int (subs * (1 + monthly_growth_rate / 100) ^ months)) in
  mret (list_to_map [
    ("predicted_monthly_growth_rate", PFloat (round_to monthly_growth_rate 1));
    ("predicted_3month_subs", projected 3%nat);
    ("predicted_6month_subs", projected 6%nat);
    ("predicted_12month_subs", projected 12%nat) ]).

End App.

(* ===================================================================== *)
(** * Properties                                                          *)
(* ===================================================================== *)

Import Pool Duration Stats Engagement Composite Diversity Narrative Analysis.

(** ** Rounding on integral values *)

Lemma floor_IZR (z : Z) : floor (IZR z) = z.
Proof.
  unfold floor, Int_part.
  assert (H : z + 1 = up (IZR z)).
  { apply tech_up; rewrite plus_IZR; lra. }
  lia.
Qed.

Lemma py_round_IZR (z : Z) : py_round (IZR z) = z.
Proof.
  unfold py_round. rewrite floor_IZR.
  destruct (Rlt_dec _ _) as [|n]; [done|]. exfalso; apply n; lra.
Qed.

Lemma round_to_IZR (z : Z) (n : nat) (x : R) :
  (x * 10 ^ n)%R = IZR z -> round_to x n = x.
Proof.
  intros E. unfold round_to. rewrite E, py_round_IZR, <- E.
  field. apply pow_nonzero. lra.
Qed.

Lemma py_int_IZR (z : Z) : py_int (IZR z) = z.
Proof.
  unfold py_int. destruct (Rle_dec _ _).
  - apply floor_IZR.
  - rewrite <- opp_IZR, floor_IZR. lia.
Qed.

(** ** Binary64 *)

(** The rounding of the machine is monotone, leaves a float unchanged and
    returns the nearest float, the even one of two; with sums taken from
    left to right it is an arithmetic in the sense of [Float]. *)

Import Binary64.

Section RoundingFacts.
#[local] Open Scope R_scope.

Lemma floor_bounds (x : R) : IZR (floor x) <= x < IZR (floor x) + 1.
Proof. unfold floor. destruct (base_Int_part x). lra. Qed.

Lemma floor_mono (x y : R) : x <= y -> (floor x <= floor y)%Z.
Proof.
  intros H. pose proof (floor_bounds x). pose proof (floor_bounds y).
  assert (IZR (floor x) < IZR (floor y + 1)) by (rewrite plus_IZR; lra).
  apply lt_IZR in H2. lia.
Qed.

Lemma floor_ge (a : Z) (x : R) : IZR a <= x -> (a <= floor x)%Z.
Proof. intros H. rewrite <- (floor_IZR a). by apply floor_mono. Qed.

Lemma floor_le (b : Z) (x : R) : x <= IZR b -> (floor x <= b)%Z.
Proof. intros H. rewrite <- (floor_IZR b). by apply floor_mono. Qed.

Lemma py_round_ge (a : Z) (x : R) : IZR a <= x -> (a <= py_round x)%Z.
Proof.
  intros Ha. pose proof (floor_ge a x Ha). unfold py_round.
  repeat case_match; lia.
Qed.

Lemma py_round_le (b : Z) (x : R) : x <= IZR b -> (py_round x <= b)%Z.
Proof.
  intros Hb. pose proof (floor_le b x Hb). pose proof (floor_bounds x).
  unfold py_round. destruct (Rlt_dec _ _) as [|Hd]; [lia|].
  assert (floor x < b)%Z; [|repeat case_match; lia].
  apply lt_IZR. lra.
Qed.

Lemma py_round_between (a b : Z) (x : R) :
  IZR a <= x <= IZR b -> (a <= py_round x <= b)%Z.
Proof. intros [Ha Hb]. split; [by apply py_round_ge | by apply py_round_le]. Qed.

Lemma py_round_unique (x : R) (n : Z) :
  IZR n - 1 / 2 <= x <= IZR n + 1 / 2 ->
  (x = IZR n - 1 / 2 \/ x = IZR n + 1 / 2 -> Z.even n = true) ->
  py_round x = n.
Proof.
  intros Hn Heven. pose proof (floor_bounds x) as Hf.
  assert (Hcases : n = floor x \/ n = (floor x + 1)%Z).
  { assert (IZR (floor x - 1) < IZR n < IZR (floor x + 2)) as [H1 H2].
    { rewrite minus_IZR, plus_IZR. lra. }
    apply lt_IZR in H1, H2. lia. }
  unfold py_round. destruct Hcases as [-> | ->].
  - destruct (Rlt_dec _ _) as [|H1]; [done|].
    destruct (Rgt_dec _ _); [lra|].
    rewrite Heven; [done|]. right. lra.
  - rewrite plus_IZR in Hn, Heven.
    destruct (Rlt_dec _ _) as [|H1]; [lra|].
    destruct (Rgt_dec _ _) as [|H2]; [done|].
    assert (Ho : Z.even (floor x + 1) = true) by (apply Heven; left; lra).
    rewrite Z.even_add in Ho. simpl in Ho.
    destruct (Z.even (floor x)); [done | done].
Qed.

Lemma py_round_near (x : R) :
  IZR (py_round x) - 1 / 2 <= x <= IZR (py_round x) + 1 / 2 /\
  (x = IZR (py_round x) - 1 / 2 \/ x = IZR (py_round x) + 1 / 2 ->
   Z.even (py_round x) = true).
Proof.
  pose proof (floor_bounds x) as Hf. unfold py_round.
  destruct (Rlt_dec _ _) as [H1|H1].
  - split; [lra|]. intros [E|E]; lra.
  - destruct (Rgt_dec _ _) as [H2|H2].
    + rewrite plus_IZR. split; [lra|]. intros [E|E]; lra.
    + destruct (Z.even (floor x)) eqn:Ev.
      * split; [lra | done].
      * rewrite plus_IZR. split; [lra|]. intros _.
        rewrite Z.even_add, Ev. done.
Qed.

Lemma py_round_opp (x : R) : py_round (- x) = (- py_round x)%Z.
Proof.
  destruct (py_round_near x) as [H1 H2]. apply py_round_unique.
  - rewrite opp_IZR. lra.
  - rewrite opp_IZR, Z.even_opp. intros [E|E]; apply H2; [right | left]; lra.
Qed.

Lemma py_round_mono (x y : R) : x <= y -> (py_round x <= py_round y)%Z.
Proof.
  intros H. pose proof (floor_mono x y H) as Hfl.
  pose proof (floor_bounds x). pose proof (floor_bounds y).
  destruct (Z.eq_dec (floor x) (floor y)) as [E|E].
  - unfold py_round. rewrite E in *.
    repeat destruct (Rlt_dec _ _); repeat destruct (Rgt_dec _ _);
      try lra; try lia; destruct (Z.even (floor y)); lia.
  - assert (py_round x <= floor x + 1)%Z.
    { unfold py_round. repeat case_match; lia. }
    assert (floor y <= py_round y)%Z.
    { unfold py_round. repeat case_match; lia. }
    lia.
Qed.

(** Powers of two. *)
Lemma pow2_pos (k : Z) : 0 < powerRZ 2 k.
Proof. apply powerRZ_lt. lra. Qed.

Lemma pow2_add (a b : Z) : powerRZ 2 (a + b) = powerRZ 2 a * powerRZ 2 b.
Proof. apply powerRZ_add. lra. Qed.

Lemma pow2_nonneg (k : Z) : (0 <= k)%Z -> powerRZ 2 k = IZR (2 ^ k).
Proof.
  intros H. rewrite <- (Z2Nat.id k) by done.
  rewrite <- pow_powerRZ. apply pow_IZR.
Qed.

Lemma pow2_ge_1 (k : Z) : (0 <= k)%Z -> 1 <= powerRZ 2 k.
Proof.
  intros H. rewrite pow2_nonneg by done. apply IZR_le.
  assert (0 < 2 ^ k)%Z by (apply Z.pow_pos_nonneg; lia). lia.
Qed.

Lemma pow2_le (a b : Z) : (a <= b)%Z -> powerRZ 2 a <= powerRZ 2 b.
Proof.
  intros H. replace b with (a + (b - a))%Z by lia. rewrite pow2_add.
  pose proof (pow2_pos a). pose proof (pow2_ge_1 (b - a) ltac:(lia)). nra.
Qed.

Lemma pow2_lt (a b : Z) : (a < b)%Z -> powerRZ 2 a < powerRZ 2 b.
Proof.
  intros H. replace b with (a + 1 + (b - a - 1))%Z by lia. rewrite !pow2_add.
  pose proof (pow2_pos a). pose proof (pow2_ge_1 (b - a - 1) ltac:(lia)).
  simpl (powerRZ 2 1). nra.
Qed.

Lemma pow2_lt_inv (a b : Z) : powerRZ 2 a < powerRZ 2 b -> (a < b)%Z.
Proof.
  intros H. destruct (Z_lt_le_dec a b) as [|Hle]; [done|].
  pose proof (pow2_le b a Hle). lra.
Qed.

Lemma pow2_quotient (a b : Z) :
  (b <= a)%Z -> powerRZ 2 a / powerRZ 2 b = IZR (2 ^ (a - b)).
Proof.
  intros H. rewrite <- pow2_nonneg by lia.
  replace a with ((a - b) + b)%Z at 1 by lia. rewrite pow2_add.
  field. pose proof (pow2_pos b). lra.
Qed.

(** The binade of a positive number. *)
Lemma floor_log2_spec (y : R) :
  0 < y -> powerRZ 2 (floor_log2 y) <= y < powerRZ 2 (floor_log2 y + 1).
Proof.
  intros Hy. unfold floor_log2.
  set (t := ln y / ln 2). pose proof (floor_bounds t) as Hf.
  assert (Hln2 : 0 < ln 2).
  { rewrite <- ln_1. apply ln_increasing; lra. }
  assert (Ey : y = exp (t * ln 2)).
  { unfold t. replace (ln y / ln 2 * ln 2) with (ln y) by (field; lra).
    by rewrite exp_ln. }
  rewrite !powerRZ_Rpower by lra. unfold Rpower. rewrite plus_IZR.
  split.
  - rewrite Ey. destruct (proj1 Hf) as [Hlt | Heq].
    + left. apply exp_increasing. nra.
    + right. by rewrite Heq.
  - rewrite Ey at 1. apply exp_increasing. nra.
Qed.

Lemma floor_log2_unique (y : R) (k : Z) :
  powerRZ 2 k <= y < powerRZ 2 (k + 1) -> floor_log2 y = k.
Proof.
  intros [H1 H2].
  assert (Hy : 0 < y) by (pose proof (pow2_pos k); lra).
  destruct (floor_log2_spec y Hy) as [H3 H4].
  assert (k < floor_log2 y + 1)%Z by (apply pow2_lt_inv; lra).
  assert (floor_log2 y < k + 1)%Z by (apply pow2_lt_inv; lra).
  lia.
Qed.

Lemma floor_log2_mono (x y : R) :
  0 < x -> x <= y -> (floor_log2 x <= floor_log2 y)%Z.
Proof.
  intros Hx H. destruct (floor_log2_spec x Hx) as [H1 _].
  destruct (floor_log2_spec y ltac:(lra)) as [_ H2].
  assert (floor_log2 x < floor_log2 y + 1)%Z by (apply pow2_lt_inv; lra).
  lia.
Qed.

(** Rounding to binary64. *)
Lemma round_0 : round 0 = 0.
Proof.
  unfold round. replace (0 / powerRZ 2 (ulp_exponent 0)) with 0
    by (unfold Rdiv; by rewrite Rmult_0_l).
  rewrite (py_round_IZR 0). lra.
Qed.

Lemma ulp_exponent_opp (x : R) : ulp_exponent (- x) = ulp_exponent x.
Proof. unfold ulp_exponent. by rewrite Rabs_Ropp. Qed.

Lemma round_opp (x : R) : round (- x) = - round x.
Proof.
  unfold round. rewrite ulp_exponent_opp.
  replace (- x / powerRZ 2 (ulp_exponent x))
    with (- (x / powerRZ 2 (ulp_exponent x))) by (unfold Rdiv; lra).
  rewrite py_round_opp, opp_IZR. lra.
Qed.

Lemma round_nonneg (x : R) : 0 <= x -> 0 <= round x.
Proof.
  intros H. unfold round. pose proof (pow2_pos (ulp_exponent x)) as Hp.
  assert (0 <= py_round (x / powerRZ 2 (ulp_exponent x)))%Z as Hm.
  { apply py_round_ge. apply Rmult_le_pos; [done|].
    left. by apply Rinv_0_lt_compat. }
  apply IZR_le in Hm. nra.
Qed.

Lemma round_le_pow2 (x : R) (j : Z) :
  x <= powerRZ 2 j -> (ulp_exponent x <= j)%Z -> round x <= powerRZ 2 j.
Proof.
  intros Hx He. unfold round. set (e := ulp_exponent x) in *.
  pose proof (pow2_pos e) as Hp.
  assert (py_round (x / powerRZ 2 e) <= 2 ^ (j - e))%Z as Hm.
  { apply py_round_le. rewrite <- pow2_quotient by done.
    unfold Rdiv. apply Rmult_le_compat_r; [|done].
    left. by apply Rinv_0_lt_compat. }
  apply IZR_le in Hm. rewrite <- pow2_quotient in Hm by done.
  apply (Rmult_le_compat_r (powerRZ 2 e)) in Hm; [|lra].
  replace (powerRZ 2 j / powerRZ 2 e * powerRZ 2 e) with (powerRZ 2 j) in Hm
    by (field; lra).
  done.
Qed.

Lemma round_ge_pow2 (x : R) (j : Z) :
  powerRZ 2 j <= x -> (ulp_exponent x <= j)%Z -> powerRZ 2 j <= round x.
Proof.
  intros Hx He. unfold round. set (e := ulp_exponent x) in *.
  pose proof (pow2_pos e) as Hp.
  assert (2 ^ (j - e) <= py_round (x / powerRZ 2 e))%Z as Hm.
  { apply py_round_ge. rewrite <- pow2_quotient by done.
    unfold Rdiv. apply Rmult_le_compat_r; [|done].
    left. by apply Rinv_0_lt_compat. }
  apply IZR_le in Hm. rewrite <- pow2_quotient in Hm by done.
  apply (Rmult_le_compat_r (powerRZ 2 e)) in Hm; [|lra].
  replace (powerRZ 2 j / powerRZ 2 e * powerRZ 2 e) with (powerRZ 2 j) in Hm
    by (field; lra).
  done.
Qed.

Lemma round_monotone_pos (x y : R) : 0 < x -> x <= y -> round x <= round y.
Proof.
  intros Hx H.
  assert (Hl : (floor_log2 x <= floor_log2 y)%Z) by (by apply floor_log2_mono).
  assert (Ex : ulp_exponent x = Z.max (floor_log2 x - 52) (-1074)).
  { unfold ulp_exponent. rewrite Rabs_right by lra. done. }
  assert (Ey : ulp_exponent y = Z.max (floor_log2 y - 52) (-1074)).
  { unfold ulp_exponent. rewrite Rabs_right by lra. done. }
  destruct (Z.eq_dec (ulp_exponent x) (ulp_exponent y)) as [E|E].
  - unfold round. rewrite E. pose proof (pow2_pos (ulp_exponent y)) as Hp.
    apply Rmult_le_compat_r; [lra|]. apply IZR_le, py_round_mono.
    unfold Rdiv. apply Rmult_le_compat_r; [|done].
    left. by apply Rinv_0_lt_compat.
  - destruct (floor_log2_spec x Hx) as [_ Hx2].
    destruct (floor_log2_spec y ltac:(lra)) as [Hy1 _].
    assert (powerRZ 2 (floor_log2 x + 1) <= powerRZ 2 (floor_log2 y))
      by (apply pow2_le; lia).
    transitivity (powerRZ 2 (floor_log2 y)).
    + apply round_le_pow2; [lra | lia].
    + apply round_ge_pow2; [lra | lia].
Qed.

Lemma round_monotone (x y : R) : x <= y -> round x <= round y.
Proof.
  intros H. destruct (Rlt_dec 0 x) as [Hx|Hx].
  - by apply round_monotone_pos.
  - destruct (Rlt_dec y 0) as [Hy|Hy].
    + assert (round (- y) <= round (- x)) by (apply round_monotone_pos; lra).
      rewrite !round_opp in H0. lra.
    + assert (0 <= round y) by (apply round_nonneg; lra).
      assert (0 <= round (- x)) by (apply round_nonneg; lra).
      rewrite round_opp in H1. lra.
Qed.

Lemma round_float_pos (m e : Z) :
  (0 < m <= 2 ^ 53)%Z -> (-1074 <= e)%Z ->
  round (IZR m * powerRZ 2 e) = IZR m * powerRZ 2 e.
Proof.
  intros Hm He. set (x := IZR m * powerRZ 2 e).
  pose proof (pow2_pos e) as Hp.
  assert (H1 : 1 <= IZR m) by (apply IZR_le; lia).
  assert (H2 : IZR m <= IZR (2 ^ 53)) by (apply IZR_le; lia).
  rewrite <- pow2_nonneg in H2 by lia.
  assert (Hx : 0 < x) by (unfold x; nra).
  assert (Ex : ulp_exponent x = Z.max (floor_log2 x - 52) (-1074)).
  { unfold ulp_exponent. rewrite Rabs_right by lra. done. }
  destruct (Z.eq_dec m (2 ^ 53)%Z) as [Em|Em].
  - (* the power of two at the top of the range *)
    assert (Exv : x = powerRZ 2 (e + 53)).
    { unfold x. rewrite Em, <- pow2_nonneg by lia. rewrite pow2_add. lra. }
    assert (El : floor_log2 x = (e + 53)%Z).
    { apply floor_log2_unique. rewrite Exv. split; [lra|]. apply pow2_lt. lia. }
    unfold round. rewrite Ex, El.
    replace (Z.max (e + 53 - 52) (-1074)) with (e + 1)%Z by lia.
    rewrite Exv. rewrite pow2_quotient by lia.
    rewrite py_round_IZR. rewrite <- pow2_nonneg by lia.
    rewrite <- pow2_add. f_equal. lia.
  - assert (Hlt : x < powerRZ 2 (e + 53)).
    { unfold x. rewrite pow2_add. assert (IZR m < powerRZ 2 53).
      { rewrite pow2_nonneg by lia. apply IZR_lt. lia. }
      nra. }
    destruct (floor_log2_spec x Hx) as [Hl _].
    assert (floor_log2 x < e + 53)%Z by (apply pow2_lt_inv; lra).
    assert (Hle : (ulp_exponent x <= e)%Z) by lia.
    unfold round. set (u := ulp_exponent x) in *.
    assert (Eq : x / powerRZ 2 u = IZR (m * 2 ^ (e - u))).
    { unfold x. rewrite mult_IZR, <- pow2_quotient by done.
      field. pose proof (pow2_pos u). lra. }
    rewrite Eq, py_round_IZR, mult_IZR, <- pow2_quotient by done.
    unfold x. field. pose proof (pow2_pos u). lra.
Qed.

Lemma round_float (m e : Z) :
  (Z.abs m <= 2 ^ 53)%Z -> (-1074 <= e <= 970)%Z ->
  round (IZR m * powerRZ 2 e) = IZR m * powerRZ 2 e.
Proof.
  intros Hm He. destruct (Z.lt_trichotomy m 0) as [Hneg | [-> | Hpos]].
  - replace (IZR m * powerRZ 2 e) with (- (IZR (- m) * powerRZ 2 e))
      by (rewrite opp_IZR; lra).
    rewrite round_opp, round_float_pos by lia. done.
  - rewrite Rmult_0_l. apply round_0.
  - apply round_float_pos; lia.
Qed.

(** The float nearest to [x], when it is not a power of two: [m * 2^e] with
    [m] of 53 bits, at most half a unit of the last place away, and even
    when exactly half a unit away. *)
Lemma round_nearest_pos (x : R) (m e : Z) :
  (2 ^ 52 < m < 2 ^ 53)%Z -> (-1074 <= e)%Z ->
  (IZR m - 1 / 2) * powerRZ 2 e <= x <= (IZR m + 1 / 2) * powerRZ 2 e ->
  (x = (IZR m - 1 / 2) * powerRZ 2 e \/ x = (IZR m + 1 / 2) * powerRZ 2 e ->
   Z.even m = true) ->
  round x = IZR m * powerRZ 2 e.
Proof.
  intros Hm He Hx Heven. pose proof (pow2_pos e) as Hp.
  assert (H1 : IZR (2 ^ 52 + 1) <= IZR m) by (apply IZR_le; lia).
  assert (H2 : IZR m <= IZR (2 ^ 53 - 1)) by (apply IZR_le; lia).
  rewrite plus_IZR in H1. rewrite minus_IZR in H2.
  rewrite <- !pow2_nonneg in H1, H2 by lia.
  assert (Hb : powerRZ 2 (e + 52) <= x < powerRZ 2 (e + 52 + 1)).
  { replace (e + 52 + 1)%Z with (e + 53)%Z by lia. rewrite !pow2_add.
    pose proof (pow2_pos 52). pose proof (pow2_pos 53). nra. }
  assert (El : floor_log2 x = (e + 52)%Z) by (by apply floor_log2_unique).
  assert (Hxpos : 0 < x) by (pose proof (pow2_pos (e + 52)); lra).
  unfold round, ulp_exponent. rewrite Rabs_right by lra. rewrite El.
  replace (Z.max (e + 52 - 52) (-1074)) with e by lia.
  f_equal. f_equal. apply py_round_unique.
  - split.
    + apply (Rmult_le_reg_r (powerRZ 2 e)); [done|].
      replace (x / powerRZ 2 e * powerRZ 2 e) with x by (field; lra). lra.
    + apply (Rmult_le_reg_r (powerRZ 2 e)); [done|].
      replace (x / powerRZ 2 e * powerRZ 2 e) with x by (field; lra). lra.
  - intros [E|E]; apply Heven; [left | right];
      replace x with (x / powerRZ 2 e * powerRZ 2 e) by (field; lra);
      rewrite E; done.
Qed.

End RoundingFacts.

Section Binary64Laws.
#[local] Open Scope R_scope.

Lemma round_integer (z : Z) : (Z.abs z <= 2 ^ 53)%Z -> round (IZR z) = IZR z.
Proof.
  intros H. pose proof (round_float z 0 H ltac:(lia)) as E.
  simpl in E. by rewrite Rmult_1_r in E.
Qed.

Lemma sum_from (a : R) (l : list R) :
  foldl (fun acc x => round (acc + x)) a l
  = match l with
    | [] => a
    | x :: l' => foldl (fun acc x => round (acc + x)) (round (a + x)) l'
    end.
Proof. by destruct l. Qed.

Lemma sum_equal_integers (k : nat) (j z : Z) :
  ((Z.abs j + Z.of_nat k) * Z.abs z <= 2 ^ 53)%Z ->
  foldl (fun acc x => round (acc + x)) (IZR (j * z)) (replicate k (IZR z))
  = IZR ((j + Z.of_nat k) * z).
Proof.
  revert j. induction k as [|k IH]; intros j H.
  - simpl. f_equal. lia.
  - simpl replicate. simpl foldl. rewrite <- plus_IZR.
    replace (j * z + z)%Z with ((j + 1) * z)%Z by lia.
    rewrite round_integer by nia.
    rewrite IH by lia. f_equal. lia.
Qed.

Lemma mean_equal_integers (n : nat) (z : Z) :
  n <> O -> (Z.of_nat n * Z.abs z <= 2 ^ 53)%Z ->
  mean (replicate n (IZR z)) = IZR z.
Proof.
  intros Hn H. unfold mean, sum_left. rewrite length_replicate.
  pose proof (sum_equal_integers n 0 z ltac:(simpl; lia)) as E.
  replace (IZR (0 * z)) with 0 in E by (by rewrite Z.mul_0_l).
  rewrite E, Z.add_0_l, mult_IZR, <- INR_IZR_INZ.
  replace (INR n * IZR z / INR n) with (IZR z)
    by (field; by apply not_0_INR).
  apply round_integer. nia.
Qed.

Lemma sum_zeros (n : nat) : sum_left (replicate n 0) = 0.
Proof.
  unfold sum_left. induction n as [|n IH]; [done|].
  simpl. rewrite Rplus_0_l, round_0. exact IH.
Qed.

Lemma std_equal_integers (n : nat) (z : Z) :
  n <> O -> (Z.of_nat n * Z.abs z <= 2 ^ 53)%Z ->
  std (replicate n (IZR z)) = 0.
Proof.
  intros Hn H. unfold std. rewrite mean_equal_integers by done.
  rewrite !fmap_replicate, length_replicate.
  replace (IZR z - IZR z) with 0 by lra. rewrite round_0.
  replace (0 * 0) with 0 by lra. rewrite round_0, sum_zeros.
  replace (0 / INR n) with 0 by (unfold Rdiv; by rewrite Rmult_0_l).
  by rewrite round_0, sqrt_0, round_0.
Qed.

End Binary64Laws.

(** Binary64 is an arithmetic: the floats of the machine, with the sums of
    the mean and of the deviation taken from left to right. *)
Definition binary64 : arithmetic :=
  Arithmetic round mean std round_monotone round_float
    mean_equal_integers std_equal_integers.

(** Powers of two as constants, and roots between bounds, for running the
    arithmetic on given numbers. *)
Section Binary64Evaluation.
#[local] Open Scope R_scope.

Lemma pow2_const (e v : Z) : (0 <= e)%Z -> v = (2 ^ e)%Z -> powerRZ 2 e = IZR v.
Proof. intros He ->. by apply pow2_nonneg. Qed.

Lemma pow2_const_neg (k v : Z) :
  (0 <= k)%Z -> v = (2 ^ k)%Z -> powerRZ 2 (- k) = / IZR v.
Proof. intros Hk ->. rewrite powerRZ_neg'. by rewrite pow2_nonneg. Qed.

Lemma sqrt_lower (a v : R) : 0 <= a -> a * a <= v -> a <= sqrt v.
Proof.
  intros Ha H. rewrite <- (sqrt_square a) by done. by apply sqrt_le_1_alt.
Qed.

Lemma sqrt_upper (b v : R) : 0 <= b -> v <= b * b -> sqrt v <= b.
Proof.
  intros Hb H. rewrite <- (sqrt_square b) by done. by apply sqrt_le_1_alt.
Qed.

Lemma sqrt_differs (c v : R) : 0 <= v -> c * c <> v -> sqrt v <> c.
Proof. intros Hv H E. apply H. rewrite <- E. by apply sqrt_sqrt. Qed.

End Binary64Evaluation.

Ltac pow2_eval :=
  repeat match goal with
  | |- context [powerRZ 2 ?e] =>
      lazymatch e with
      | Z0 => rewrite (powerRZ_O 2)
      | Zpos ?p =>
          let v := eval vm_compute in (2 ^ Zpos p)%Z in
          rewrite (pow2_const (Zpos p) v ltac:(lia) ltac:(reflexivity))
      | Zneg ?p =>
          let v := eval vm_compute in (2 ^ Zpos p)%Z in
          change (powerRZ 2 (Zneg p)) with (powerRZ 2 (- Zpos p));
          rewrite (pow2_const_neg (Zpos p) v ltac:(lia) ltac:(reflexivity))
      end
  end.

(** One operation whose exact result is the float [m * 2^e]. *)
Ltac float_exact m e :=
  match goal with
  | |- context [round ?x] =>
      lazymatch x with
      | context [round _] => fail
      | _ =>
          replace (round x) with (IZR m * powerRZ 2 e)%R
            by (transitivity (round (IZR m * powerRZ 2 e));
                [symmetry; apply round_float; lia | f_equal; pow2_eval; lra])
      end
  end.

(** One operation whose result is rounded to [m * 2^e]. *)
Ltac float_near m e :=
  match goal with
  | |- context [round ?x] =>
      lazymatch x with
      | context [round _] => fail
      | _ =>
          replace (round x) with (IZR m * powerRZ 2 e)%R
            by (symmetry; apply round_nearest_pos;
                [lia | lia | pow2_eval; lra
                | pow2_eval; first [intros [E|E]; lra | intros _; reflexivity]])
      end
  end.

(** The root of a float, rounded to [m * 2^e]. *)
Ltac float_sqrt m e :=
  match goal with
  | |- context [round (sqrt ?v)] =>
      replace (round (sqrt v)) with (IZR m * powerRZ 2 e)%R
        by (symmetry; apply round_nearest_pos;
            [lia | lia
            | split; [apply sqrt_lower | apply sqrt_upper]; pow2_eval; lra
            | intros [E|E]; exfalso; revert E; apply sqrt_differs;
              pow2_eval; lra])
  end.

(** ** Credential pools *)

Section PoolFacts.
Variable keys : list string.
Hypothesis nonempty : keys <> [].

Let N : Z := Z.of_nat (length keys).

Lemma pool_size_pos : 0 < N.
Proof using nonempty. subst N. destruct keys; [done | simpl; lia]. Qed.

Lemma list_getitem_in_range (j : Z) :
  0 <= j < N ->
  exists k, list_getitem keys j = Ok k /\ keys !! Z.to_nat j = Some k.
Proof.
  intros Hj. unfold list_getitem.
  destruct (Z.ltb_spec j 0) as [|_]; [lia|].
  destruct (Z.ltb_spec j 0) as [|_]; [lia|].
  destruct (lookup_lt_is_Some_2 keys (Z.to_nat j)) as [k Hk]; [subst N; lia|].
  exists k. by rewrite Hk.
Qed.

(** One rotation of the video-data pool moves the cursor to the next
    position modulo the size of the pool. *)
Lemma rotate_youtube_step (i : Z) :
  -1 <= i ->
  exists k, keys !! Z.to_nat ((i + 1) mod N) = Some k /\
    _rotate_youtube_key keys i =
      Ok (Rotation (Some k) ((i + 1) mod N)
            (if ((i + 1) mod N =? 0) && negb (i =? -1) then 60 else 0)).
Proof using nonempty.
  intros Hi. pose proof pool_size_pos as HN.
  assert (Hr : 0 <= (i + 1) mod N < N) by (apply Z.mod_pos_bound; lia).
  destruct (list_getitem_in_range _ Hr) as (k & Hget & Hk).
  exists k. split; [done|].
  unfold _rotate_youtube_key, py_mod. fold N.
  destruct (Z.eqb_spec i (-1)) as [->|Hne].
  - simpl. change (-1 + 1) with 0 in *. rewrite Z.mod_0_l in * by lia.
    by rewrite Hget.
  - destruct (Z.eqb_spec N 0) as [|_]; [lia|]. simpl. by rewrite Hget.
Qed.

Lemma rotate_youtube_n (n : nat) (i : Z) :
  0 <= i < N ->
  rotate_n (_rotate_youtube_key keys) n i = Ok ((i + Z.of_nat n) mod N).
Proof using nonempty.
  revert i. induction n as [|n IH]; intros i Hi.
  - simpl. by rewrite Z.add_0_r, Z.mod_small.
  - destruct (rotate_youtube_step i) as (k & _ & E); [lia|].
    cbn [rotate_n]. rewrite E. cbn.
    rewrite IH by (apply Z.mod_pos_bound; lia).
    f_equal. rewrite Zplus_mod_idemp_l. f_equal. lia.
Qed.

(** One rotation of the text-generation pool: past the last key the pool
    reports exhaustion, with no key and the cursor back at [-1]. *)
Lemma rotate_groq_step (i : Z) :
  -1 <= i < N ->
  if decide (i = N - 1)
  then _rotate_groq_key keys i = Ok (Rotation None (-1) 0)
  else exists k, keys !! Z.to_nat (i + 1) = Some k /\
         _rotate_groq_key keys i = Ok (Rotation (Some k) (i + 1) 0).
Proof using nonempty.
  intros Hi. pose proof pool_size_pos as HN.
  unfold _rotate_groq_key, py_mod. fold N.
  destruct (Z.eqb_spec N 0) as [|_]; [lia|]. cbn.
  destruct (decide (i = N - 1)) as [->|Hne].
  - replace (N - 1 + 1) with N by lia. rewrite Z.mod_same by lia.
    destruct (Z.eqb_spec (N - 1) (-1)); [lia|]. done.
  - rewrite Z.mod_small by lia.
    destruct (list_getitem_in_range (i + 1)) as (k & Hget & Hk); [lia|].
    exists k. split; [done|].
    destruct (Z.eqb_spec (i + 1) 0) as [E0|_].
    + assert (i = -1) as -> by lia. cbn. change (-1 + 1) with 0 in *.
      by rewrite Hget.
    + cbn. by rewrite Hget.
Qed.

Lemma rotate_groq_n (n : nat) (i : Z) :
  -1 <= i < N ->
  rotate_n (_rotate_groq_key keys) n i
  = Ok ((i + 1 + Z.of_nat n) mod (N + 1) - 1).
Proof using nonempty.
  pose proof pool_size_pos as HN.
  revert i. induction n as [|n IH]; intros i Hi.
  - simpl. rewrite Z.add_0_r, Z.mod_small by lia. f_equal. lia.
  - pose proof (rotate_groq_step i Hi) as Hs. cbn [rotate_n].
    destruct (decide (i = N - 1)) as [->|Hne].
    + rewrite Hs. cbn. rewrite IH by lia. f_equal. f_equal.
      replace (N - 1 + 1 + Z.of_nat (S n)) with (Z.of_nat n + 1 * (N + 1)) by lia.
      rewrite Z.mod_add by lia. f_equal.
    + destruct Hs as (k & _ & E). rewrite E. cbn. rewrite IH by lia.
      f_equal. f_equal. f_equal. lia.
Qed.

End PoolFacts.

(** C10 (as amended).  For a non-empty pool of size N and a cursor i in
    range: the video-data pool rotates in a circle (past the last key it
    hands out the first one again, after the cool-down wait, and N rotations
    bring the cursor back to i); the text-generation pool does not wrap:
    past its last key it hands out no key and resets the cursor to -1, from
    -1 it hands out the first key, and it takes N+1 rotations to come back
    to i. *)
Theorem rotation_cycles (keys : list string) (i : Z) :
  keys <> [] ->
  0 <= i < Z.of_nat (length keys) ->
  let N := length keys in
  (exists first,
     keys !! 0%nat = Some first /\
     _rotate_youtube_key keys (Z.of_nat N - 1) = Ok (Rotation (Some first) 0 60)) /\
  rotate_n (_rotate_youtube_key keys) N i = Ok i /\
  _rotate_groq_key keys (Z.of_nat N - 1) = Ok (Rotation None (-1) 0) /\
  (exists first,
     keys !! 0%nat = Some first /\
     _rotate_groq_key keys (-1) = Ok (Rotation (Some first) 0 0)) /\
  rotate_n (_rotate_groq_key keys) (S N) i = Ok i.
Proof.
  intros Hne Hi N. pose proof (pool_size_pos keys Hne) as HN.
  repeat split.
  - destruct (rotate_youtube_step keys Hne (Z.of_nat N - 1)) as (k & Hk & E); [lia|].
    replace (Z.of_nat N - 1 + 1) with (Z.of_nat (length keys)) in * by (subst N; lia).
    rewrite Z.mod_same in * by lia.
    exists k. split; [done|]. rewrite E.
    destruct (Z.eqb_spec (Z.of_nat N - 1) (-1)); [lia|]. done.
  - rewrite rotate_youtube_n by done.
    rewrite <- (Z.mul_1_l (Z.of_nat N)), Z.mod_add by lia.
    by rewrite Z.mod_small.
  - pose proof (rotate_groq_step keys Hne (Z.of_nat N - 1)) as Hs.
    destruct (decide _) as [_|n]; [apply Hs; lia | done].
  - pose proof (rotate_groq_step keys Hne (-1)) as Hs.
    destruct (decide _) as [e|_]; [lia|].
    destruct Hs as (k & Hk & E); [lia|]. by exists k.
  - rewrite rotate_groq_n by (done || lia). f_equal.
    replace (i + 1 + Z.of_nat (S N)) with (i + 1 + 1 * (Z.of_nat (length keys) + 1))
      by (subst N; lia).
    rewrite Z.mod_add, Z.mod_small by lia. lia.
Qed.

Lemma rotation_cycles_witness :
  rotate_n (_rotate_youtube_key ["AIza-1"; "AIza-2"; "AIza-3"]) 3 1 = Ok 1 /\
  rotate_n (_rotate_groq_key ["gsk-1"; "gsk-2"; "gsk-3"]) 4 1 = Ok 1.
Proof.
  assert (H1 : ["AIza-1"; "AIza-2"; "AIza-3"] <> []) by done.
  assert (H2 : ["gsk-1"; "gsk-2"; "gsk-3"] <> []) by done.
  split.
  - apply (rotation_cycles ["AIza-1"; "AIza-2"; "AIza-3"] 1 H1). simpl; lia.
  - apply (rotation_cycles ["gsk-1"; "gsk-2"; "gsk-3"] 1 H2). simpl; lia.
Defined.

(** C10 (as stated) fails on the text-generation pool: two rotations of a
    pool of two keys, started at 0, leave the cursor at -1. *)
Lemma groq_rotation_not_circular :
  ~ (forall (keys : list string) (i : Z),
       keys <> [] -> 0 <= i < Z.of_nat (length keys) ->
       rotate_n (_rotate_youtube_key keys) (length keys) i = Ok i /\
       rotate_n (_rotate_groq_key keys) (length keys) i = Ok i).
Proof.
  intros H. destruct (H ["gsk-1"; "gsk-2"] 0) as [_ E]; [done | simpl; lia |].
  vm_compute in E. discriminate E.
Qed.

(** ** Duration tokens *)

Lemma span_digits_stop (ds rest : string) :
  all_digits ds = true ->
  (forall c r, rest = String c r -> is_digit c = false) ->
  span_digits (ds ++ rest) = (ds, rest).
Proof.
  intros Hds Hrest. induction ds as [|c ds IH]; simpl in *.
  - destruct rest as [|c r]; simpl in *; [done|]. by rewrite (Hrest c r).
  - apply andb_true_iff in Hds as [Hc Hds]. by rewrite Hc, IH.
Qed.

Lemma span_digits_run (ds rest : string) :
  all_digits ds = true -> no_leading_digit rest ->
  span_digits (ds ++ rest) = (ds, rest).
Proof.
  intros Hds Hrest. apply span_digits_stop; [done|].
  intros c r ->. apply Hrest.
Qed.

Lemma span_digits_unit (ds : string) (u : ascii) (rest : string) :
  all_digits ds = true -> is_digit u = false ->
  span_digits (ds ++ String u rest) = (ds, String u rest).
Proof.
  intros Hds Hu. apply span_digits_stop; [done|]. by intros c r [= <- _].
Qed.

Lemma skips_no_leading_digit (u : ascii) (s : string) :
  no_leading_digit s -> skips u s.
Proof.
  intros H. unfold skips, opt_group.
  change s with ("" ++ s) at 1. by rewrite span_digits_run.
Qed.

Lemma skips_component (u u' : ascii) (c : option string) (rest : string) :
  digits_ok c -> is_digit u' = false -> u' <> u -> skips u rest ->
  skips u (component c u' rest).
Proof.
  intros Hc Hu' Hne Hrest. destruct c as [ds|]; simpl; [|done].
  destruct Hc as (Hnonempty & Hds & _). unfold skips, opt_group.
  rewrite span_digits_unit by done.
  destruct ds as [|d ds]; [done|].
  destruct (Ascii.eqb_spec u' u); done.
Qed.

Lemma opt_group_component (u : ascii) (c : option string) (rest : string) :
  is_digit u = false -> digits_ok c -> skips u rest ->
  opt_group u (component c u rest) = (int_of_digits <$> c, rest).
Proof.
  intros Hu Hc Hrest. destruct c as [ds|]; simpl; [|done].
  destruct Hc as (Hnonempty & Hds & _). unfold opt_group.
  rewrite span_digits_unit by done.
  destruct ds as [|d ds]; [done|]. by rewrite Ascii.eqb_refl.
Qed.

Lemma parse_duration_token_then (h m s : option string) (rest : string) :
  digits_ok h -> digits_ok m -> digits_ok s -> no_leading_digit rest ->
  parse_duration (token_then h m s rest)
  = component_value h * 3600 + component_value m * 60 + component_value s.
Proof.
  intros Hh Hm Hs Hrest.
  unfold parse_duration, token_then, re_match.
  assert (S3 : skips "S" rest) by by apply skips_no_leading_digit.
  assert (M3 : skips "M" rest) by by apply skips_no_leading_digit.
  assert (H3 : skips "H" rest) by by apply skips_no_leading_digit.
  assert (M2 : skips "M" (component s "S" rest)) by by apply skips_component.
  assert (H2 : skips "H" (component s "S" rest)) by by apply skips_component.
  assert (H1 : skips "H" (component m "M" (component s "S" rest)))
    by by apply skips_component.
  rewrite !opt_group_component by done.
  by destruct h, m, s.
Qed.

(** C9 (as amended).  A token [PT#H#M#S], with any subset of the components,
    each a run of the digits [0] to [9] that [int] converts, parses to its
    total number of seconds, and so does the token followed by any text that
    begins with an ASCII character other than a digit: the pattern is
    matched at the start of the token only.  A token that does not begin
    with [PT] parses to 0, the empty token and ["garbage"] among them. *)
Theorem parse_duration_prefix_match :
  (forall (h m s : option string) (rest : string),
     digits_ok h -> digits_ok m -> digits_ok s -> no_leading_digit rest ->
     parse_duration (token_then h m s rest)
     = component_value h * 3600 + component_value m * 60 + component_value s) /\
  (forall h m s : option string,
     digits_ok h -> digits_ok m -> digits_ok s ->
     well_formed (token h m s) = true /\
     parse_duration (token h m s)
     = component_value h * 3600 + component_value m * 60 + component_value s) /\
  parse_duration "PT1H2M3S" = 3723 /\
  parse_duration "PT45S" = 45 /\
  parse_duration "garbage" = 0 /\
  parse_duration "" = 0 /\
  (forall t : string, re_match t = None -> parse_duration t = 0) /\
  (forall t : string,
     String.prefix "PT" t = false -> re_match t = None).
Proof.
  split; [exact parse_duration_token_then|].
  split; [|repeat split; try reflexivity].
  - intros h m s Hh Hm Hs. split; [|by apply parse_duration_token_then].
    unfold well_formed, token, token_then, re_match.
    assert (S3 : skips "S" "") by by apply skips_no_leading_digit.
    assert (M3 : skips "M" "") by by apply skips_no_leading_digit.
    assert (H3 : skips "H" "") by by apply skips_no_leading_digit.
    assert (M2 : skips "M" (component s "S" "")) by by apply skips_component.
    assert (H2 : skips "H" (component s "S" "")) by by apply skips_component.
    assert (H1 : skips "H" (component m "M" (component s "S" "")))
      by by apply skips_component.
    by rewrite !opt_group_component.
  - intros t E. unfold parse_duration. by rewrite E.
  - intros t E. destruct t as [|c1 t]; [done|].
    destruct c1 as [[] [] [] [] [] [] [] []]; try done.
    destruct t as [|c2 t]; [done|].
    destruct c2 as [[] [] [] [] [] [] [] []]; try done.
    simpl in E. by destruct t.
Qed.

Lemma parse_duration_prefix_match_witness :
  parse_duration (token_then (Some "1") None (Some "30") " (live)") = 3630.
Proof.
  apply (proj1 parse_duration_prefix_match (Some "1") None (Some "30") " (live)");
    simpl; auto.
Defined.

(** C9 (as stated) fails: a malformed token whose head is well formed does
    not parse to 0. *)
Lemma malformed_token_not_zero :
  well_formed "PT45Sgarbage" = false /\ parse_duration "PT45Sgarbage" = 45.
Proof. split; reflexivity. Qed.

(** ** Consistency scores *)

Section ConsistencyFacts.
Context {fa : arithmetic}.
#[local] Open Scope R_scope.

Lemma sum_R_replicate (n : nat) (x : R) : sum_R (replicate n x) = INR n * x.
Proof.
  induction n as [|n IH]; [simpl; lra|].
  change (sum_R (replicate (S n) x)) with (x + sum_R (replicate n x)).
  rewrite IH, S_INR. lra.
Qed.

Lemma np_mean_replicate (n : nat) (x : R) :
  n <> O -> np_mean (replicate n x) = x.
Proof.
  intros Hn. unfold np_mean. rewrite length_replicate, sum_R_replicate.
  field. by apply not_0_INR.
Qed.

Lemma np_std_replicate (n : nat) (x : R) :
  n <> O -> np_std (replicate n x) = 0.
Proof.
  intros Hn. unfold np_std. rewrite np_mean_replicate, fmap_replicate by done.
  replace ((x - x) * (x - x)) with 0 by ring.
  rewrite np_mean_replicate by done. apply sqrt_0.
Qed.

(** Integers and half-integers of at most 53 bits are floats. *)
Lemma rnd_integer (m : Z) : (Z.abs m <= 2 ^ 53)%Z -> rnd (IZR m) = IZR m.
Proof.
  intros H. pose proof (rnd_float m 0 H ltac:(lia)) as E.
  simpl in E. by rewrite Rmult_1_r in E.
Qed.

Lemma rnd_half_integer (m : Z) :
  (Z.abs m <= 2 ^ 53)%Z -> rnd (IZR m / 2) = IZR m / 2.
Proof.
  intros H. pose proof (rnd_float m (-1) H ltac:(lia)) as E.
  simpl in E. rewrite Rmult_1_r in E. exact E.
Qed.

Lemma rnd_0 : rnd 0 = 0.
Proof. apply (rnd_integer 0). lia. Qed.

Lemma consistency_of_cv_0 : consistency_of_cv 0 = 85.
Proof.
  unfold consistency_of_cv. destruct (Rlt_dec 0 50); [|lra].
  unfold fsub, fdiv. replace (0 / 2) with 0 by lra. rewrite rnd_0.
  replace (85 - 0) with 85 by lra. rewrite (rnd_integer 85) by lia.
  unfold Rmax, Rmin. repeat destruct (Rle_dec _ _); lra.
Qed.

Lemma consistency_of_cv_bounds (cv : R) : 20 <= consistency_of_cv cv <= 95.
Proof.
  unfold consistency_of_cv, Rmax, Rmin.
  repeat destruct (Rlt_dec _ _); repeat destruct (Rle_dec _ _); lra.
Qed.

Lemma calculate_consistency_cv (values : list R) :
  (3 <= length values)%nat -> fmean values <> 0 ->
  calculate_consistency values
  = consistency_of_cv (coefficient_of_variation values).
Proof.
  intros Hlen Hmean. unfold calculate_consistency.
  destruct (Nat.ltb_spec (length values) 2); [lia|].
  destruct (Nat.leb_spec 3 (length values)); [|lia].
  destruct (Req_dec_T _ _); done.
Qed.

(** Equal integers vary by nothing, on floats as well. *)
Lemma coefficient_of_variation_equal_integers (n : nat) (z : Z) :
  n <> O -> (Z.of_nat n * Z.abs z <= 2 ^ 53)%Z ->
  coefficient_of_variation (replicate n (IZR z)) = 0.
Proof.
  intros Hn Hz. unfold coefficient_of_variation, fmul, fdiv.
  rewrite fstd_equal_integers by done.
  replace (0 / fmean (replicate n (IZR z))) with 0
    by (unfold Rdiv; by rewrite Rmult_0_l).
  rewrite rnd_0. replace (0 * 100) with 0 by lra. apply rnd_0.
Qed.

Lemma calculate_consistency_identical (n : nat) (z : Z) :
  (3 <= n)%nat -> z <> 0%Z -> (Z.of_nat n * Z.abs z <= 2 ^ 53)%Z ->
  calculate_consistency (replicate n (IZR z)) = 85.
Proof.
  intros Hn Hz Hsum. rewrite calculate_consistency_cv.
  - rewrite coefficient_of_variation_equal_integers by (done || lia).
    apply consistency_of_cv_0.
  - by rewrite length_replicate.
  - rewrite fmean_equal_integers by (done || lia). by apply not_0_IZR.
Qed.

End ConsistencyFacts.

(** ** Engagement aggregation *)

Section EngagementFacts.
Context {fa : arithmetic}.
#[local] Open Scope R_scope.

Lemma insert_by_views_perm (x : video) (l : list video) :
  insert_by_views x l ≡ₚ x :: l.
Proof.
  induction l as [|y l IH]; simpl; [done|].
  destruct (Z.leb_spec (views_of y) (views_of x)); [done|].
  rewrite IH. apply Permutation_swap.
Qed.

Lemma sorted_videos_perm (l : list video) : sorted_videos l ≡ₚ l.
Proof.
  induction l as [|x l IH]; simpl; [done|].
  by rewrite insert_by_views_perm, IH.
Qed.

Lemma insert_by_views_dominates (x : video) (l : list video) :
  head_dominates l -> head_dominates (insert_by_views x l).
Proof.
  destruct l as [|y l]; simpl; [by constructor|]. intros Hy.
  destruct (Z.leb_spec (views_of y) (views_of x)) as [Hle|Hlt]; simpl.
  - constructor; [done|]. eapply Forall_impl; [exact Hy|]. simpl. lia.
  - rewrite insert_by_views_perm. constructor; [lia | done].
Qed.

Lemma sorted_videos_dominates (l : list video) : head_dominates (sorted_videos l).
Proof.
  induction l as [|x l IH]; simpl; [done|]. by apply insert_by_views_dominates.
Qed.

Lemma sorted_videos_head_max (fetched : list video) (top : video)
    (rest : list video) :
  sorted_videos fetched = top :: rest ->
  top ∈ fetched /\ Forall (fun v => (views_of v <= views_of top)%Z) fetched.
Proof.
  intros E. pose proof (sorted_videos_dominates fetched) as Hd.
  pose proof (sorted_videos_perm fetched) as Hp. rewrite E in Hd, Hp.
  split.
  - rewrite <- Hp. by left.
  - rewrite <- Hp. constructor; [lia | exact Hd].
Qed.

Lemma engagement_of_items (vd : option videos_data) (top : video)
    (rest : list video) (key : string) :
  items_of vd = top :: rest ->
  calculate_comprehensive_engagement vd !! key
  = calculate_comprehensive_engagement
      (Some (VideosData [] (Some (VideoStats (Some (top :: rest)))) 0)) !! key.
Proof.
  intros E. unfold calculate_comprehensive_engagement. rewrite E. done.
Qed.

End EngagementFacts.

(** C4.  For a non-empty collection the top-performing-video fields of the
    engagement aggregation are those of its first element, whatever the
    rest of the collection holds; and in the collection the fetch stage
    builds, sorted by views, that first element has the most views. *)
Theorem top_video_is_first_element {fa : arithmetic} :
  (forall (vd : option videos_data) (top : video) (rest : list video),
     items_of vd = top :: rest ->
     let m := calculate_comprehensive_engagement vd in
     m !! "top_performing_video_views" = Some (PInt (views_of top)) /\
     m !! "top_performing_video_likes" = Some (PInt (likes_of top)) /\
     m !! "top_performing_video_title"
       = Some (PStr (default "" (title (snippet_of top)))) /\
     m !! "top_performing_video_thumbnail"
       = Some (py_or (opt_str (thumbnail_url top))
                     (opt_str (snippet_thumbnail_url (snippet_of top)))) /\
     m !! "top_performing_video_id" = Some (opt_str (video_id top))) /\
  (forall (fetched : list video) (max_results : nat) (top : video)
          (rest : list video),
     sorted_videos fetched = top :: rest ->
     let m := calculate_comprehensive_engagement
                (Some (fetched_videos_data fetched max_results)) in
     m !! "top_performing_video_views" = Some (PInt (views_of top)) /\
     top ∈ fetched /\
     Forall (fun v => views_of v <= views_of top) fetched).
Proof.
  split.
  - intros vd top rest E m. subst m.
    rewrite !(engagement_of_items vd top rest) by done. done.
  - intros fetched max_results top rest E m. subst m.
    split; [|by eapply sorted_videos_head_max].
    by rewrite (engagement_of_items _ top rest).
Qed.

Lemma top_video_is_first_element_witness :
  calculate_comprehensive_engagement (fa := binary64)
    (Some (fetched_videos_data
       [ Video (Some "a") (Some (Statistics (Some 10) (Some 1) None)) None None None;
         Video (Some "b") (Some (Statistics (Some 70) (Some 5) (Some 2))) None None None;
         Video (Some "c") (Some (Statistics (Some 30) None None)) None None None ]
       30))
    !! "top_performing_video_id" = Some (PStr "b").
Proof.
  apply (proj1 (top_video_is_first_element (fa := binary64)) _
    (Video (Some "b") (Some (Statistics (Some 70) (Some 5) (Some 2))) None None None)
    [ Video (Some "c") (Some (Statistics (Some 30) None None)) None None None;
      Video (Some "a") (Some (Statistics (Some 10) (Some 1) None)) None None None ]).
  reflexivity.
Defined.

(** C3 (as amended).  The aggregation reports as [videos_analyzed] the
    number of videos it was given.  Given none, it raises nothing and
    returns the default dictionaries, in which every number is zero and
    every text is ["Unknown"], but for the title of the top video, which is
    the empty string. *)
Theorem videos_analyzed_and_defaults {fa : arithmetic} :
  (forall vd : option videos_data,
     calculate_comprehensive_engagement vd !! "videos_analyzed"
     = Some (PInt (Z.of_nat (length (items_of vd))))) /\
  (forall (vd : option videos_data) (engagement_metrics : dict),
     items_of vd = [] ->
     calculate_comprehensive_engagement vd = get_default_engagement_metrics /\
     get_performance_metrics_safe vd engagement_metrics
     = get_default_performance_metrics) /\
  map_Forall (fun k v => k <> "top_performing_video_title" -> zero_or_unknown v)
    get_default_engagement_metrics /\
  get_default_engagement_metrics !! "top_performing_video_title" = Some (PStr "") /\
  map_Forall (fun _ v => zero_or_unknown v) get_default_performance_metrics.
Proof.
  repeat split.
  - intros vd. destruct (items_of vd) as [|top rest] eqn:E.
    + unfold calculate_comprehensive_engagement. by rewrite E.
    + by rewrite (engagement_of_items vd top rest).
  - unfold calculate_comprehensive_engagement. by rewrite H.
  - unfold get_performance_metrics_safe, calculate_performance_metrics_enhanced.
    by rewrite H.
  - apply map_Forall_to_list. unfold get_default_engagement_metrics.
    rewrite map_to_list_to_map by compute_done.
    repeat (constructor; [simpl; done|]). constructor.
  - apply map_Forall_to_list. unfold get_default_performance_metrics.
    rewrite map_to_list_to_map by compute_done.
    repeat (constructor; [simpl; done|]). constructor.
Qed.

Lemma videos_analyzed_and_defaults_witness :
  calculate_comprehensive_engagement (fa := binary64) (Some no_videos)
  = get_default_engagement_metrics /\
  get_performance_metrics_safe (fa := binary64) (Some no_videos) ∅
  = get_default_performance_metrics.
Proof.
  apply (proj1 (proj2 (videos_analyzed_and_defaults (fa := binary64)))
           (Some no_videos) ∅).
  reflexivity.
Defined.

(** C3 (as stated) fails: with no videos, one textual field of the result
    is not ["Unknown"]. *)
Lemma default_title_is_not_unknown :
  ~ exists fa : arithmetic,
      map_Forall (fun _ v => zero_or_unknown v)
        (calculate_comprehensive_engagement (Some no_videos)).
Proof.
  intros [fa H]. specialize (H "top_performing_video_title" (PStr "")).
  by discriminate H.
Qed.

(** C5 (as amended).  With fewer than two data points the consistency score
    is 75; with exactly two it is the fixed 70; with three or more it is 65
    when the mean is zero and otherwise the piecewise map of the coefficient
    of variation cv = stdev/mean*100 (85 - cv/2 below 50, 70 - cv/4 below
    100, 40 - cv/10 from 100 on), clamped to [20, 95].  The mean, the
    deviation, cv and the map are the numbers the floats compute, each
    operation rounded, and cv is compared with 50 and 100 as computed.
    Three or more identical non-zero integers (view counts, as long as
    their sum stays within 2^53) score 85.  For a collection of one or two
    videos both consistency scores of the engagement aggregation are at
    least 60; for the empty collection they are the default 0. *)
Theorem consistency_score_cases {fa : arithmetic} :
  (forall values : list R,
     (length values < 2)%nat -> calculate_consistency values = 75%R) /\
  (forall values : list R,
     length values = 2%nat -> calculate_consistency values = 70%R) /\
  (forall values : list R,
     (3 <= length values)%nat -> fmean values = 0%R ->
     calculate_consistency values = 65%R) /\
  (forall values : list R,
     (3 <= length values)%nat -> fmean values <> 0%R ->
     calculate_consistency values
     = consistency_of_cv (fmul (fdiv (fstd values) (fmean values)) 100)) /\
  (forall cv : R,
     (cv < 50 ->
      consistency_of_cv cv = Rmax 20 (Rmin (fsub 85 (fdiv cv 2)) 95)) /\
     (50 <= cv < 100 ->
      consistency_of_cv cv = Rmax 20 (Rmin (fsub 70 (fdiv cv 4)) 95)) /\
     (100 <= cv ->
      consistency_of_cv cv = Rmax 20 (Rmin (fsub 40 (fdiv cv 10)) 95)) /\
     20 <= consistency_of_cv cv <= 95)%R /\
  (forall (n : nat) (z : Z),
     (3 <= n)%nat -> z <> 0 -> Z.of_nat n * Z.abs z <= 2 ^ 53 ->
     calculate_consistency (replicate n (IZR z)) = 85%R) /\
  (forall vd : option videos_data,
     (1 <= length (items_of vd) <= 2)%nat ->
     exists e p : R,
       calculate_comprehensive_engagement vd !! "engagement_consistency"
       = Some (PFloat e) /\
       calculate_comprehensive_engagement vd !! "performance_consistency"
       = Some (PFloat p) /\
       (60 <= e)%R /\ (60 <= p)%R) /\
  (forall vd : option videos_data,
     items_of vd = [] ->
     calculate_comprehensive_engagement vd !! "engagement_consistency"
     = Some (PInt 0) /\
     calculate_comprehensive_engagement vd !! "performance_consistency"
     = Some (PInt 0)).
Proof.
  split; [|split; [|split; [|split; [|split; [|split; [|split]]]]]].
  - intros values H. unfold calculate_consistency.
    destruct (Nat.ltb_spec (length values) 2); [done | lia].
  - intros values H. unfold calculate_consistency. by rewrite H.
  - intros values H Hmean. unfold calculate_consistency.
    destruct (Nat.ltb_spec (length values) 2); [lia|].
    destruct (Nat.leb_spec 3 (length values)); [|lia].
    destruct (Req_dec_T _ _); done.
  - exact calculate_consistency_cv.
  - intros cv. split; [|split; [|split]].
    + intros H. unfold consistency_of_cv. destruct (Rlt_dec cv 50); [done | lra].
    + intros H. unfold consistency_of_cv.
      destruct (Rlt_dec cv 50); [lra|]. destruct (Rlt_dec cv 100); [done | lra].
    + intros H. unfold consistency_of_cv.
      destruct (Rlt_dec cv 50); [lra|]. destruct (Rlt_dec cv 100); [lra | done].
    + apply consistency_of_cv_bounds.
  - exact calculate_consistency_identical.
  - intros vd H. destruct (items_of vd) as [|top rest] eqn:E; [simpl in H; lia|].
    rewrite !(engagement_of_items vd top rest) by done.
    destruct rest as [|v [|w rest]]; [| |simpl in H; lia].
    + eexists _, _. split; [reflexivity|]. split; [reflexivity|].
      split; apply Rmax_r.
    + eexists _, _. split; [reflexivity|]. split; [reflexivity|].
      split; apply Rmax_r.
  - intros vd E. unfold calculate_comprehensive_engagement. by rewrite E.
Qed.

Lemma consistency_score_cases_witness :
  calculate_consistency (fa := binary64)
    [4; 4; 4; 4; 4; 4; 4; 4; 4; 4]%R = 85%R /\
  calculate_consistency (fa := binary64) [7; 9]%R = 70%R.
Proof.
  split.
  - apply (proj1 (proj2 (proj2 (proj2 (proj2 (proj2
             (consistency_score_cases (fa := binary64))))))) 10%nat 4);
      lia.
  - apply (proj1 (proj2 (consistency_score_cases (fa := binary64)))
             [7; 9]%R).
    reflexivity.
Defined.

(** C5 (as stated) fails: for two equal data points the coefficient of
    variation is 0 and the piecewise map gives 85, but the score is 70,
    whatever the rounding. *)
Lemma two_points_score_70 :
  (forall fa : arithmetic, consistency_spec [1; 1]%R = 85%R) /\
  (forall fa : arithmetic, calculate_consistency [1; 1]%R = 70%R).
Proof.
  split; intros fa; [|reflexivity].
  unfold consistency_spec. simpl length. simpl Nat.ltb.
  change [1%R; 1%R] with (replicate 2 (IZR 1)).
  rewrite coefficient_of_variation_equal_integers by (done || lia).
  apply consistency_of_cv_0.
Qed.

(** The floats at the threshold of the map.  The lists 19, 17, 17, 9, 2
    and 1, 1, 3, 3 both vary by exactly half their mean.  For the second
    every operation is exact and the coefficient is 50; for the first the
    mean 12.8 is not a float, the computed coefficient is 49.99999999999999,
    the last float below 50, and the first piece of the map applies. *)
Section ConsistencyOnBinary64.
#[local] Open Scope R_scope.

Lemma mean_of_five :
  mean [19; 17; 17; 9; 2] = IZR 7205759403792794 * powerRZ 2 (-49).
Proof.
  unfold mean, sum_left. simpl foldl.
  change (INR (length [19; 17; 17; 9; 2])) with (INR 5).
  replace (INR 5) with 5 by (simpl; lra).
  float_exact 19%Z 0%Z. float_exact 36%Z 0%Z. float_exact 53%Z 0%Z.
  float_exact 62%Z 0%Z. float_exact 64%Z 0%Z.
  float_near 7205759403792794%Z (-49)%Z. done.
Qed.

Lemma std_of_five :
  std [19; 17; 17; 9; 2] = IZR 7205759403792793 * powerRZ 2 (-50).
Proof.
  unfold std. rewrite mean_of_five.
  change (INR (length [19; 17; 17; 9; 2])) with (INR 5).
  replace (INR 5) with 5 by (simpl; lra).
  unfold sum_left. cbn [fmap list_fmap foldl].
  float_exact 1745144855606067%Z (-48)%Z.
  float_exact 1182194902184755%Z (-48)%Z.
  float_exact (-1069604911500493)%Z (-48)%Z.
  float_exact (-3039929748475085)%Z (-48)%Z.
  float_near 5409949052378807%Z (-47)%Z.
  float_near 4965218589175970%Z (-48)%Z.
  float_near 8128997327403748%Z (-49)%Z.
  float_near 8207810320882730%Z (-46)%Z.
  float_exact 5409949052378807%Z (-47)%Z.
  float_exact 986569793370849%Z (-44)%Z.
  float_near 5187583820777388%Z (-46)%Z.
  float_near 6203708486702856%Z (-46)%Z.
  float_exact 7205759403792793%Z (-45)%Z.
  float_near 5764607523034234%Z (-47)%Z.
  float_sqrt 7205759403792793%Z (-50)%Z.
  done.
Qed.

Lemma cv_of_five :
  coefficient_of_variation (fa := binary64) [19; 17; 17; 9; 2]
  = IZR 7036874417766399 * powerRZ 2 (-47).
Proof.
  unfold coefficient_of_variation, fmul, fdiv.
  change (@fmean binary64) with mean. change (@fstd binary64) with std.
  change (@rnd binary64) with round.
  rewrite mean_of_five, std_of_five.
  float_near 9007199254740991%Z (-54)%Z.
  float_near 7036874417766399%Z (-47)%Z. done.
Qed.

Example consistency_below_the_threshold :
  calculate_consistency (fa := binary64) [19; 17; 17; 9; 2] = 60.
Proof.
  rewrite calculate_consistency_cv.
  - rewrite cv_of_five. unfold consistency_of_cv, fsub, fdiv.
    change (@rnd binary64) with round.
    destruct (Rlt_dec _ _) as [_|H]; [|exfalso; apply H; pow2_eval; lra].
    float_exact 7036874417766399%Z (-48)%Z.
    float_near 8444249301319680%Z (-47)%Z.
    replace (IZR 8444249301319680 * powerRZ 2 (-47)) with 60
      by (pow2_eval; lra).
    unfold Rmax, Rmin. repeat destruct (Rle_dec _ _); lra.
  - simpl. lia.
  - change (mean [19; 17; 17; 9; 2] <> 0). rewrite mean_of_five.
    pow2_eval. lra.
Qed.

(** Over the real numbers the same list varies by exactly 50 percent. *)
Example cv_of_five_exact :
  np_std [19; 17; 17; 9; 2] / np_mean [19; 17; 17; 9; 2] * 100 = 50.
Proof.
  assert (Em : np_mean [19; 17; 17; 9; 2] = 64 / 5).
  { unfold np_mean, sum_R. simpl. lra. }
  assert (Es : np_std [19; 17; 17; 9; 2] = 32 / 5).
  { unfold np_std. rewrite Em. unfold np_mean, sum_R. simpl.
    match goal with |- sqrt ?x = _ =>
      replace x with ((32 / 5) * (32 / 5)) by lra end.
    apply sqrt_square. lra. }
  rewrite Em, Es. lra.
Qed.

Lemma mean_of_four : mean [1; 1; 3; 3] = 2.
Proof.
  unfold mean, sum_left. cbn [foldl].
  change (INR (length [1; 1; 3; 3])) with (INR 4).
  replace (INR 4) with 4 by (simpl; lra).
  float_exact 1%Z 0%Z. float_exact 2%Z 0%Z. float_exact 5%Z 0%Z.
  float_exact 8%Z 0%Z. float_exact 2%Z 0%Z. pow2_eval. lra.
Qed.

Lemma std_of_four : std [1; 1; 3; 3] = 1.
Proof.
  unfold std. rewrite mean_of_four.
  change (INR (length [1; 1; 3; 3])) with (INR 4).
  replace (INR 4) with 4 by (simpl; lra).
  unfold sum_left. cbn [fmap list_fmap foldl].
  float_exact (-1)%Z 0%Z. float_exact 1%Z 0%Z.
  repeat float_exact 1%Z 0%Z.
  float_exact 2%Z 0%Z. float_exact 3%Z 0%Z. float_exact 4%Z 0%Z.
  float_exact 1%Z 0%Z.
  replace (IZR 1 * powerRZ 2 0) with 1 by (pow2_eval; lra).
  rewrite sqrt_1. float_exact 1%Z 0%Z. pow2_eval. lra.
Qed.

Lemma cv_of_four :
  coefficient_of_variation (fa := binary64) [1; 1; 3; 3] = 50.
Proof.
  unfold coefficient_of_variation, fmul, fdiv.
  change (@fmean binary64) with mean. change (@fstd binary64) with std.
  change (@rnd binary64) with round.
  rewrite mean_of_four, std_of_four.
  float_exact 1%Z (-1)%Z. float_exact 50%Z 0%Z. pow2_eval. lra.
Qed.

Example consistency_at_the_threshold :
  calculate_consistency (fa := binary64) [1; 1; 3; 3] = 115 / 2.
Proof.
  rewrite calculate_consistency_cv.
  - rewrite cv_of_four. unfold consistency_of_cv, fsub, fdiv.
    change (@rnd binary64) with round.
    destruct (Rlt_dec 50 50) as [H|_]; [lra|].
    destruct (Rlt_dec 50 100) as [_|H]; [|lra].
    float_exact 25%Z (-1)%Z. float_exact 115%Z (-1)%Z.
    replace (IZR 115 * powerRZ 2 (-1)) with (115 / 2) by (pow2_eval; lra).
    unfold Rmax, Rmin. repeat destruct (Rle_dec _ _); lra.
  - simpl. lia.
  - change (mean [1; 1; 3; 3] <> 0). rewrite mean_of_four. lra.
Qed.

End ConsistencyOnBinary64.

(** ** Trend classification *)

Section TrendFacts.
Context {fa : arithmetic}.
#[local] Open Scope R_scope.

Lemma take_min_length {A} (n : nat) (l : list A) :
  take (Nat.min n (length l)) l = take n l.
Proof.
  destruct (Nat.le_ge_cases n (length l)).
  - by rewrite Nat.min_l.
  - rewrite Nat.min_r by done. by rewrite !take_ge.
Qed.

Lemma mean_of_nonempty (l : list R) :
  l <> [] -> match l with [] => 0 | _ => fmean l end = fmean l.
Proof. by destruct l. Qed.

Lemma trend_label_thresholds (pc : R) :
  (pc > 100 -> trend_label pc = "Explosive Growth") /\
  (50 < pc <= 100 -> trend_label pc = "Rapid Growth") /\
  (20 < pc <= 50 -> trend_label pc = "Growing") /\
  (5 < pc <= 20 -> trend_label pc = "Slow Growth") /\
  (-20 < pc <= 5 -> trend_label pc = "Stable") /\
  (-50 < pc <= -20 -> trend_label pc = "Declining") /\
  (pc <= -50 -> trend_label pc = "Rapid Decline").
Proof.
  unfold trend_label.
  repeat split; intros H; repeat destruct (Rgt_dec _ _); done || lra.
Qed.

Lemma halves_nonempty (performances : list R) :
  (5 <= length performances)%nat ->
  (5 <= length (recent_window performances))%nat /\
  older_half performances <> [] /\ newer_half performances <> [].
Proof.
  intros H. unfold older_half, newer_half, recent_window.
  set (w := take 10 performances).
  assert (Hw : (5 <= length w)%nat) by (subst w; rewrite length_take; lia).
  assert (Hhalf : (0 < length w / 2 < length w)%nat).
  { split; [apply Nat.div_str_pos; lia | apply Nat.div_lt; lia]. }
  split; [done|]. split; intros E; apply (f_equal length) in E;
    rewrite ?length_drop, ?length_take in E;
    change (length (@nil R)) with O in E; lia.
Qed.

(** With five scores or more, the classifier is the guard on the older
    half followed by the thresholds. *)
Lemma trend_unfold (performances : list R) :
  (5 <= length performances)%nat ->
  analyze_performance_trend_enhanced performances
  = if Req_dec_T (fmean (older_half performances)) 0 then "Stable"
    else trend_label (percentage_change_of performances).
Proof.
  intros H. destruct (halves_nonempty performances H) as (Hw & Ho & Hn).
  unfold analyze_performance_trend_enhanced.
  destruct (Nat.ltb_spec (length performances) 5); [lia|].
  rewrite take_min_length. fold (recent_window performances).
  destruct (Nat.ltb_spec (length (recent_window performances)) 5); [lia|].
  fold (older_half performances). fold (newer_half performances).
  by rewrite !mean_of_nonempty by done.
Qed.

End TrendFacts.

(** C8 (as amended).  With fewer than five scores the trend is
    "Insufficient Data".
    Otherwise only the first ten scores count; they are split in two halves
    and the mean of the newer half is compared with the mean of the older
    half as a percentage change, which the ordered thresholds turn into the
    label (when the older half averages zero the change is undefined and the
    label is "Stable").  The means and the change are the numbers the floats
    compute, each operation rounded: it is the computed change that is
    compared with the thresholds. *)
Theorem trend_by_ordered_thresholds {fa : arithmetic} :
  (forall performances : list R,
     (length performances < 5)%nat ->
     analyze_performance_trend_enhanced performances = "Insufficient Data") /\
  (forall performances : list R,
     (5 <= length performances)%nat ->
     fmean (older_half performances) <> 0%R ->
     analyze_performance_trend_enhanced performances
     = trend_label (percentage_change_of performances)) /\
  (forall performances : list R,
     (5 <= length performances)%nat ->
     fmean (older_half performances) = 0%R ->
     analyze_performance_trend_enhanced performances = "Stable") /\
  (forall pc : R,
     (pc > 100 -> trend_label pc = "Explosive Growth") /\
     (50 < pc <= 100 -> trend_label pc = "Rapid Growth") /\
     (20 < pc <= 50 -> trend_label pc = "Growing") /\
     (5 < pc <= 20 -> trend_label pc = "Slow Growth") /\
     (-20 < pc <= 5 -> trend_label pc = "Stable") /\
     (-50 < pc <= -20 -> trend_label pc = "Declining") /\
     (pc <= -50 -> trend_label pc = "Rapid Decline"))%R.
Proof.
  split; [|split; [|split]].
  - intros performances H. unfold analyze_performance_trend_enhanced.
    destruct (Nat.ltb_spec (length performances) 5); [done | lia].
  - intros performances H Hmean. rewrite trend_unfold by done.
    destruct (Req_dec_T _ _); done.
  - intros performances H Hmean. rewrite trend_unfold by done.
    destruct (Req_dec_T _ _); done.
  - exact trend_label_thresholds.
Qed.

Lemma trend_by_ordered_thresholds_witness :
  analyze_performance_trend_enhanced (fa := binary64)
    [300; 300; 100; 100; 100]%R
  = trend_label
      (percentage_change_of (fa := binary64)
         [300; 300; 100; 100; 100]%R).
Proof.
  apply (proj1 (proj2 (trend_by_ordered_thresholds (fa := binary64)))).
  - simpl. lia.
  - change (older_half [300; 300; 100; 100; 100]%R)
      with (replicate 3 (IZR 100)).
    rewrite fmean_equal_integers by lia. lra.
Defined.

(** Three videos at 100 views followed by two newer ones at 300: the means
    are 100 and 300 without rounding error, and the change is 200 percent,
    whatever the rounding. *)
Example trend_of_view_sorted_batch {fa : arithmetic} :
  analyze_performance_trend_enhanced [300; 300; 100; 100; 100]%R
  = "Explosive Growth".
Proof.
  rewrite trend_unfold by (simpl; lia).
  assert (Eo : fmean (older_half [300; 300; 100; 100; 100]%R) = 100%R).
  { apply (fmean_equal_integers 3 100); lia. }
  assert (En : fmean (newer_half [300; 300; 100; 100; 100]%R) = 300%R).
  { apply (fmean_equal_integers 2 300); lia. }
  destruct (Req_dec_T _ _) as [E|_]; [rewrite Eo in E; lra|].
  apply trend_label_thresholds.
  unfold percentage_change_of, fmul, fdiv, fsub. rewrite Eo, En.
  replace (300 - 100)%R with 200%R by lra. rewrite (rnd_integer 200) by lia.
  replace (200 / 100)%R with 2%R by lra. rewrite (rnd_integer 2) by lia.
  replace (2 * 100)%R with 200%R by lra. rewrite (rnd_integer 200) by lia.
  lra.
Qed.

(** Five videos with 2, 2, 2, 1 and 1 views: the older half averages 4/3,
    the newer half 2, and the change is 50 percent.  The floats make it
    50.000000000000014 (the quotient 4/3 is rounded down, the ratio up), so
    the label is the one above the threshold. *)
Section TrendOnBinary64.
#[local] Open Scope R_scope.

Example trend_at_an_exact_half :
  analyze_performance_trend_enhanced (fa := binary64) [2; 2; 2; 1; 1]
  = "Rapid Growth".
Proof.
  rewrite trend_unfold by (simpl; lia).
  unfold percentage_change_of, fmul, fdiv, fsub.
  change (older_half [2; 2; 2; 1; 1]) with [2; 1; 1].
  change (newer_half [2; 2; 2; 1; 1]) with [2; 2].
  change (@fmean binary64) with mean. change (@rnd binary64) with round.
  unfold mean, sum_left. simpl foldl. simpl length.
  replace (INR 3) with 3 by (simpl; lra).
  replace (INR 2) with 2 by (simpl; lra).
  float_exact 2%Z 0%Z.
  float_exact 3%Z 0%Z.
  float_exact 4%Z 0%Z.
  float_near 6004799503160661%Z (-52)%Z.
  float_exact 4%Z 0%Z.
  float_exact 2%Z 0%Z.
  float_exact 3002399751580331%Z (-52)%Z.
  float_near 4503599627370497%Z (-53)%Z.
  float_near 7036874417766402%Z (-47)%Z.
  destruct (Req_dec_T _ _) as [E|_].
  - exfalso. revert E. pow2_eval. lra.
  - apply trend_label_thresholds. pow2_eval. lra.
Qed.

(** C8 (as stated) fails: for five videos with 2, 2, 2, 1 and 1 views the
    change of the newer half over the older is exactly 50 percent, which the
    thresholds label "Growing"; the floats compute a change above 50 and the
    label is "Rapid Growth". *)
Lemma rounding_decides_at_a_threshold :
  percentage_change_exact [2; 2; 2; 1; 1] = 50 /\
  trend_label 50 = "Growing" /\
  analyze_performance_trend_enhanced (fa := binary64) [2; 2; 2; 1; 1]
  = "Rapid Growth".
Proof.
  split; [|split].
  - unfold percentage_change_exact.
    change (older_half [2; 2; 2; 1; 1]) with [2; 1; 1].
    change (newer_half [2; 2; 2; 1; 1]) with [2; 2].
    unfold np_mean, sum_R. simpl. lra.
  - apply trend_label_thresholds. lra.
  - apply trend_at_an_exact_half.
Qed.

End TrendOnBinary64.

(** ** Composite metrics *)

Section CompositeFacts.
#[local] Open Scope R_scope.

Lemma as_num_total (v : pyval) : is_num v -> exists r, as_num v = Ok r.
Proof. destruct v; simpl; try done; eauto. Qed.

Lemma get_present (d : dict) (k : string) (v dflt : pyval) :
  d !! k = Some v -> get d k dflt = v.
Proof. intros E. unfold get. by rewrite E. Qed.

Lemma scale_of_million (channel_data : dict) :
  channel_data !! "subscribers" = Some (PInt 1000000) ->
  assess_channel_scale channel_data = Ok "large".
Proof.
  intros E. unfold assess_channel_scale. rewrite (get_present _ _ _ _ E). cbn.
  destruct (Rge_dec _ _); [lra|]. destruct (Rge_dec _ _); [done | lra].
Qed.

Lemma viral_ratio_of_scenario :
  IZR 50000000 / Rmax (IZR 1000000) 1 = 50.
Proof. rewrite Rmax_left by lra. field. Qed.

End CompositeFacts.

(** C7.  For a channel with 1,000,000 subscribers whose top video has
    50,000,000 views, whatever the other metrics are, the channel scale is
    "large" (not "mega"), the viral ratio is 50.0 and the growth potential
    is "High". *)
Theorem million_subscribers_scenario
    (channel_data engagement_metrics content_analysis performance_metrics : dict) :
  channel_data !! "subscribers" = Some (PInt 1000000) ->
  engagement_metrics !! "top_performing_video_views" = Some (PInt 50000000) ->
  is_num (get engagement_metrics "avg_engagement_rate" (PInt 0)) ->
  is_num (get engagement_metrics "performance_consistency" (PInt 0)) ->
  is_num (get content_analysis "content_diversity_score" (PInt 0)) ->
  assess_channel_scale channel_data = Ok "large" /\
  exists m : dict,
    calculate_ai_enhanced_metrics
      channel_data engagement_metrics content_analysis performance_metrics
    = Ok m /\
    m !! "viral_ratio" = Some (PFloat 50) /\
    m !! "growth_potential" = Some (PStr "High").
Proof.
  intros Hsubs Htop Hrate Hcons Hdiv.
  split; [by apply scale_of_million|].
  destruct (as_num_total _ Hrate) as [rate Erate].
  destruct (as_num_total _ Hcons) as [cons Econs].
  destruct (as_num_total _ Hdiv) as [div Ediv].
  unfold calculate_ai_enhanced_metrics.
  rewrite (scale_of_million _ Hsubs).
  rewrite (get_present _ _ _ _ Hsubs), (get_present _ _ _ _ Htop).
  rewrite Erate, Econs, Ediv. cbn.
  eexists. split; [reflexivity|].
  rewrite viral_ratio_of_scenario. split.
  - rewrite (round_to_IZR 500) by (simpl; lra). reflexivity.
  - rewrite (bool_decide_eq_true_2 (50 > 20)%R) by lra. reflexivity.
Qed.

Lemma million_subscribers_scenario_witness :
  assess_channel_scale {[ "subscribers" := PInt 1000000 ]} = Ok "large" /\
  exists m : dict,
    calculate_ai_enhanced_metrics
      {[ "subscribers" := PInt 1000000 ]}
      {[ "top_performing_video_views" := PInt 50000000 ]} ∅ ∅
    = Ok m /\
    m !! "viral_ratio" = Some (PFloat 50) /\
    m !! "growth_potential" = Some (PStr "High").
Proof.
  apply (million_subscribers_scenario
           {[ "subscribers" := PInt 1000000 ]}
           {[ "top_performing_video_views" := PInt 50000000 ]} ∅ ∅);
    reflexivity || exact I.
Defined.

(** ** Content diversity *)

Section DiversityFacts.
#[local] Open Scope R_scope.

#[local] Instance sum_R_perm : Proper ((≡ₚ) ==> (=)) sum_R.
Proof.
  intros l1 l2 Hp. unfold sum_R.
  induction Hp as [|x l l' _ IH|x y l|l l' l'' _ IH1 _ IH2]; simpl; lra.
Qed.

Lemma filter_replicate {A} (P : A -> Prop) `{!forall x, Decision (P x)}
    (n : nat) (x : A) :
  P x -> filter P (replicate n x) = replicate n x.
Proof.
  intros Hx. induction n as [|n IH]; [done|]. simpl.
  by rewrite filter_cons_True, IH.
Qed.

Lemma diversity_unfold (cats : categories) :
  cats <> [] -> sum_R cats.*2 <> 0 ->
  calculate_diversity_score_enhanced cats
  = score_of_proportions (proportions cats).
Proof.
  intros Hne Htotal. unfold calculate_diversity_score_enhanced.
  destruct cats as [|c cats]; [done|].
  destruct (decide _) as [E|_]; [done|].
  unfold score_of_proportions, proportions. by rewrite !length_fmap.
Qed.

Lemma diversity_of_values (cats cats' : categories) :
  cats.*2 = cats'.*2 ->
  calculate_diversity_score_enhanced cats
  = calculate_diversity_score_enhanced cats'.
Proof.
  intros E. assert (El : length cats = length cats').
  { by rewrite <- (length_fmap snd cats), E, length_fmap. }
  unfold calculate_diversity_score_enhanced.
  destruct cats as [|c cats], cats' as [|c' cats']; try done.
  by rewrite E, El.
Qed.

Lemma balance_bonus_nonneg (k : nat) : 0 <= Rmin (INR k * 10) 20.
Proof.
  pose proof (pos_INR k). unfold Rmin. destruct (Rle_dec _ _); lra.
Qed.

Lemma score_of_one_share : score_of_proportions [1] = 10.
Proof.
  unfold score_of_proportions.
  rewrite !filter_cons_True, !filter_nil by lra.
  cbn [fmap list_fmap length sum_R foldr INR].
  rewrite ln_1. destruct (decide _) as [H|_]; [lra|].
  replace (Rmin (1 * 10) 20) with 10 by (unfold Rmin; destruct (Rle_dec _ _); lra).
  replace (Rmin (0 + 10) 100) with 10 by (unfold Rmin; destruct (Rle_dec _ _); lra).
  apply (round_to_IZR 100). simpl. lra.
Qed.

Lemma score_of_even_shares (n : nat) :
  (2 <= n)%nat -> score_of_proportions (replicate n (/ INR n)) = 100.
Proof.
  intros Hn.
  assert (Hpos : 0 < INR n) by (apply lt_0_INR; lia).
  assert (Hgt : 1 < INR n) by (apply lt_1_INR; lia).
  assert (Hln : 0 < ln (INR n)).
  { rewrite <- ln_1. apply ln_increasing; lra. }
  unfold score_of_proportions.
  rewrite (filter_replicate (fun p => p > 0))
    by (by apply Rlt_gt, Rinv_0_lt_compat).
  rewrite fmap_replicate, sum_R_replicate, length_replicate, ln_Rinv by done.
  destruct (decide _) as [_|H]; [|lra].
  replace (- (INR n * (/ INR n * - ln (INR n))) / ln (INR n) * 100)
    with 100 by (field; lra).
  rewrite Rmin_right
    by (pose proof (balance_bonus_nonneg
          (length (filter (fun p => p >= 15 / 100) (replicate n (/ INR n))))); lra).
  apply (round_to_IZR 1000). simpl. lra.
Qed.

Lemma score_of_proportions_perm (ps ps' : list R) :
  ps ≡ₚ ps' -> score_of_proportions ps = score_of_proportions ps'.
Proof.
  intros Hp. unfold score_of_proportions.
  rewrite (Permutation_length Hp).
  rewrite (sum_R_perm _ _
    (fmap_Permutation _ _ _ (filter_Permutation (fun p => p > 0) _ _ Hp))).
  by rewrite (Permutation_length
    (filter_Permutation (fun p => p >= 15 / 100) _ _ Hp)).
Qed.

End DiversityFacts.

(** C6 (as amended).  A distribution with a single category scores 10: its
    entropy term is 0 and the one category, holding more than 15% of the
    total, earns the balance bonus.  An even distribution over two
    categories or more scores 100.  The score does not depend on the labels:
    it is the same after any relabelling, and the same for any two
    dictionaries whose proportions agree as multisets. *)
Theorem diversity_score_properties :
  (forall (label : string) (count : R),
     count <> 0%R ->
     calculate_diversity_score_enhanced [(label, count)] = 10%R) /\
  (forall (labels : list string) (count : R),
     (2 <= length labels)%nat -> count <> 0%R ->
     calculate_diversity_score_enhanced (even_distribution labels count)
     = 100%R) /\
  (forall (f : string -> string) (cats : categories),
     calculate_diversity_score_enhanced (relabel f cats)
     = calculate_diversity_score_enhanced cats) /\
  (forall cats cats' : categories,
     cats <> [] -> cats' <> [] ->
     sum_R cats.*2 <> 0%R -> sum_R cats'.*2 <> 0%R ->
     proportions cats ≡ₚ proportions cats' ->
     calculate_diversity_score_enhanced cats
     = calculate_diversity_score_enhanced cats').
Proof.
  split; [|split; [|split]].
  - intros label count Hc.
    assert (Ht : sum_R [(label, count)].*2 = count) by (cbn; lra).
    rewrite diversity_unfold by (done || by rewrite Ht).
    unfold proportions. rewrite Ht. cbn [fmap list_fmap snd].
    replace (count / count)%R with 1%R by (by field).
    apply score_of_one_share.
  - intros labels count Hn Hc.
    assert (Hpos : (0 < INR (length labels))%R) by (apply lt_0_INR; lia).
    assert (Ev : (even_distribution labels count).*2
                 = replicate (length labels) count).
    { unfold even_distribution. rewrite <- list_fmap_compose.
      by apply const_fmap. }
    assert (Ht : sum_R (even_distribution labels count).*2
                 = (INR (length labels) * count)%R).
    { by rewrite Ev, sum_R_replicate. }
    rewrite diversity_unfold.
    + unfold proportions. rewrite Ht, Ev, fmap_replicate.
      replace (count / (INR (length labels) * count))%R
        with (/ INR (length labels))%R by (field; lra).
      by apply score_of_even_shares.
    + destruct labels; [simpl in Hn; lia | done].
    + rewrite Ht. apply Rmult_integral_contrapositive_currified; lra.
  - intros f cats. apply diversity_of_values.
    unfold relabel. rewrite <- list_fmap_compose.
    apply list_fmap_ext. by intros ? [??].
  - intros cats cats' Hne Hne' Ht Ht' Hp.
    rewrite !diversity_unfold by done. by apply score_of_proportions_perm.
Qed.

Lemma diversity_score_properties_witness :
  calculate_diversity_score_enhanced [("gaming", 12%R)] = 10%R /\
  calculate_diversity_score_enhanced
    (even_distribution ["tutorial"; "review"; "tech"] 4%R) = 100%R.
Proof.
  split.
  - apply (proj1 diversity_score_properties "gaming" 12%R). lra.
  - apply (proj1 (proj2 diversity_score_properties)
             ["tutorial"; "review"; "tech"] 4%R); [simpl; lia | lra].
Defined.

(** C6 (as stated) fails: a single-category distribution does not score 0. *)
Lemma single_category_scores_ten :
  calculate_diversity_score_enhanced [("gaming", 5%R)] <> 0%R.
Proof.
  assert (Ht : sum_R [("gaming", 5%R)].*2 = 5%R) by (cbn; lra).
  rewrite diversity_unfold by (done || (rewrite Ht; lra)).
  unfold proportions. rewrite Ht. cbn [fmap list_fmap snd].
  replace (5 / 5)%R with 1%R by lra.
  rewrite score_of_one_share. lra.
Qed.

(** ** Insights and recommendations *)

Section NarrativeFacts.
Variable format_f : nat -> R -> string.
Variable str_of : pyval -> string.
Variable lower : string -> string.

Lemma as_str_total (v : pyval) : is_text v -> exists s, as_str v = Ok s.
Proof. destruct v; simpl; try done; eauto. Qed.

Lemma accepted_length (r : response) (insights : list pyval) :
  accepted r = Some insights -> (3 <= length insights)%nat.
Proof.
  destruct r as [[| |[l|]]| |]; cbn -[Nat.leb]; try done.
  destruct (Nat.leb_spec 3 (length l)); [|done]. by intros [= ->].
Qed.

Lemma try_keys_cons (r : response) (answers : list response) :
  try_keys (r :: answers)
  = match accepted r with Some insights => insights | None => try_keys answers end.
Proof.
  destruct r as [[| |[l|]]| |]; try reflexivity.
  cbn -[Nat.leb]. by destruct (3 <=? length l)%nat.
Qed.

Lemma try_keys_length (answers : list response) :
  try_keys answers = [] \/ (3 <= length (try_keys answers))%nat.
Proof.
  induction answers as [|r answers IH]; [by left|].
  rewrite try_keys_cons. destruct (accepted r) as [l|] eqn:E; [|done].
  right. by eapply accepted_length.
Qed.

Lemma try_keys_none_accepted (answers : list response) :
  Forall (fun r => accepted r = None) answers -> try_keys answers = [].
Proof.
  induction 1 as [|r answers Hr _ IH]; [done|].
  by rewrite try_keys_cons, Hr.
Qed.

Lemma try_keys_first_accepted (r : response) (answers : list response)
    (insights : list pyval) :
  accepted r = Some insights -> try_keys (r :: answers) = insights.
Proof. intros E. by rewrite try_keys_cons, E. Qed.

Lemma groq_insights_length (groq_keys : list string) (groq : provider) :
  generate_groq_insights_admin groq_keys groq = [] \/
  (3 <= length (generate_groq_insights_admin groq_keys groq))%nat.
Proof.
  unfold generate_groq_insights_admin.
  destruct groq_keys; [by left | apply try_keys_length].
Qed.

Lemma rule_based_insights_three
    (channel_data ai_metrics content_analysis performance_metrics : dict) :
  is_num (get channel_data "subscribers" (PInt 0)) ->
  is_num (get channel_data "top_performing_video_views" (PInt 0)) ->
  is_num (get ai_metrics "avg_engagement_rate" (PInt 0)) ->
  is_text (get performance_metrics "optimal_video_length" (PStr "Unknown")) ->
  exists l,
    generate_enhanced_rule_based_insights format_f str_of lower
      channel_data ai_metrics content_analysis performance_metrics = Ok l /\
    length l = 3%nat.
Proof.
  intros Hsubs Htop Hrate Hlen.
  destruct (as_num_total _ Hsubs) as [subs Esubs].
  destruct (as_num_total _ Htop) as [top Etop].
  destruct (as_num_total _ Hrate) as [rate Erate].
  destruct (as_str_total _ Hlen) as [text Etext].
  unfold generate_enhanced_rule_based_insights.
  rewrite Esubs, Etop, Erate, Etext. cbn. eauto.
Qed.

(** The padding loop has left its condition behind after three rounds. *)
Lemma pad_recommendations_done (recommendations : list pyval) :
  (3 <= length (pad_recommendations 3 recommendations))%nat.
Proof.
  destruct recommendations as [|a [|b [|c l]]]; simpl; lia.
Qed.

Lemma recommendations_three
    (channel_data : dict) (insights : list pyval)
    (content_analysis ai_metrics : dict) :
  is_num (get channel_data "subscribers" (PInt 0)) ->
  is_num (get content_analysis "content_diversity_score" (PInt 0)) ->
  is_num (get ai_metrics "channel_health_score" (PInt 0)) ->
  exists r,
    generate_recommendations_enhanced
      channel_data insights content_analysis ai_metrics = Ok r /\
    length r = 3%nat.
Proof.
  intros Hsubs Hdiv Hhealth.
  destruct (as_num_total _ Hsubs) as [subs Esubs].
  destruct (as_num_total _ Hdiv) as [div Ediv].
  destruct (as_num_total _ Hhealth) as [health Ehealth].
  unfold generate_recommendations_enhanced.
  rewrite Esubs, Ediv, Ehealth. cbn. eexists. split; [reflexivity|].
  rewrite length_take. pose proof (pad_recommendations_done
    ((((if decide (subs < 1000)%R then [] ++ [PDict foundation_recommendation] else [])
       ++ (if decide (div < 60)%R then [PDict diversity_recommendation] else []))
       ++ (if decide (health < 60)%R then [PDict health_recommendation] else [])))%list).
  repeat destruct (decide _); simpl in *; lia.
Qed.

Lemma groq_none_accepted (groq_keys : list string) (groq : provider) :
  Forall (fun r => accepted r = None) (imap groq groq_keys) ->
  generate_groq_insights_admin groq_keys groq = [].
Proof.
  intros H. unfold generate_groq_insights_admin.
  destruct groq_keys; [done | by apply try_keys_none_accepted].
Qed.

Lemma groq_first_accepted (key : string) (groq_keys : list string)
    (groq : provider) (insights : list pyval) :
  accepted (groq O key) = Some insights ->
  generate_groq_insights_admin (key :: groq_keys) groq = insights.
Proof. intros E. by apply try_keys_first_accepted. Qed.

End NarrativeFacts.




(** ** The public entry point *)

Section AnalysisFacts.
#[local] Open Scope R_scope.

Lemma bind_Ok {A B} (m : exc A) (f : A -> exc B) (b : B) :
  m ≫= f = Ok b -> exists a, m = Ok a /\ f a = Ok b.
Proof. destruct m as [a|e]; [by exists a | done]. Qed.

Lemma common_sections_eq :
  common_sections = [
    "channel_metrics"; "engagement_metrics"; "performance_metrics";
    "content_analysis"; "ai_enhanced_metrics"; "ai_insights";
    "recommendations"; "growth_predictions"; "data_source" ].
Proof. reflexivity. Qed.

Ltac bind_step H :=
  match type of H with
  | (_ ≫= _) = Ok _ => apply bind_Ok in H as (? & _ & H)
  end.

Ltac sections :=
  repeat (constructor; [eexists; reflexivity|]); constructor.

Lemma fallback_valid (channel_id : string) :
  valid_analysis (get_enhanced_fallback_analysis channel_id).
Proof.
  split; [rewrite common_sections_eq; sections|]. split.
  - exists (PStr "fallback"). split; [reflexivity|].
    unfold data_source_tags. set_solver.
  - intros E. discriminate E.
Qed.

Lemma converted_valid (s : snapshot) :
  valid_analysis (convert_snapshot_to_analysis s).
Proof.
  unfold convert_snapshot_to_analysis.
  destruct (s !! "id"); [|apply fallback_valid].
  split; [rewrite common_sections_eq; sections|]. split.
  - exists (PStr "cached_7day"). split; [reflexivity|].
    unfold data_source_tags. set_solver.
  - intros E. discriminate E.
Qed.

Lemma recent_analysis_valid (query : exc (option snapshot)) (a : dict) :
  get_recent_analysis_safe query = Some a -> valid_analysis a.
Proof.
  unfold get_recent_analysis_safe.
  destruct query as [[s|]|]; try done.
  destruct (s !! "analysis_timestamp"), (s !! "subscribers"),
    (s !! "optimal_video_length"); try done.
  intros [= <-]. apply converted_valid.
Qed.

Lemma unify_result (analysis a' : dict) :
  unify_data_sources analysis = Ok a' ->
  a' = analysis \/ exists ai, a' = <["ai_enhanced_metrics" := PDict ai]> analysis.
Proof.
  unfold unify_data_sources. intros H.
  repeat bind_step H.
  destruct (analysis !! "ai_enhanced_metrics"); [|left; by injection H].
  repeat bind_step H.
  right. eexists. by injection H.
Qed.

Lemma fresh_valid (w : outcomes) (channel_id : string) (a : dict) :
  fresh_analysis w channel_id = Ok a -> valid_analysis a.
Proof.
  unfold fresh_analysis. intros H.
  apply bind_Ok in H as (channel_data & _ & H).
  destruct (decide (truthy channel_data)); [|injection H as <-; apply fallback_valid].
  repeat bind_step H.
  apply unify_result in H as [->|[ai ->]].
  - split; [rewrite common_sections_eq; sections|]. split.
    + exists (PStr "youtube_api_v3"). split; [reflexivity|].
      unfold data_source_tags. set_solver.
    + intros _. unfold structurally_complete, documented_sections. sections.
  - split; [rewrite common_sections_eq; sections|]. split.
    + exists (PStr "youtube_api_v3"). split; [reflexivity|].
      unfold data_source_tags. set_solver.
    + intros _. unfold structurally_complete, documented_sections. sections.
Qed.

End AnalysisFacts.

(** C1 (as amended).  For every channel identifier and every behaviour of
    the cache, the providers and the stages, [analyze_channel] raises
    nothing and returns a dictionary that holds the channel, engagement,
    performance, content, composite, insights, recommendations and growth
    prediction sections and a [data_source] tag (of a fresh, a cached or a
    fallback analysis); the timestamp section comes with a fresh analysis.
    When the cache is not consulted or has nothing, and the fresh analysis
    has no channel data to work on or raises, the result is the fallback
    structure. *)
Theorem analyze_channel_never_raises (w : outcomes) (channel_id : string)
    (force_refresh : bool) :
  exists analysis : dict,
    analyze_channel w channel_id force_refresh = Ok analysis /\
    has_sections common_sections analysis /\
    (exists tag, analysis !! "data_source" = Some tag /\ tag ∈ data_source_tags) /\
    (analysis !! "data_source" = Some (PStr "youtube_api_v3") ->
     structurally_complete analysis) /\
    ((if force_refresh then None
      else get_recent_analysis_safe (snapshot_query w)) = None ->
     (forall a, fresh_analysis w channel_id = Ok a ->
                a = get_enhanced_fallback_analysis channel_id) ->
     analysis = get_enhanced_fallback_analysis channel_id).
Proof.
  unfold analyze_channel.
  set (cached := if force_refresh then None
                 else get_recent_analysis_safe (snapshot_query w)).
  assert (Hfresh : exists a,
    try_except (fresh_analysis w channel_id)
      (fun _ => mret (get_enhanced_fallback_analysis channel_id)) = Ok a /\
    valid_analysis a /\
    ((forall a', fresh_analysis w channel_id = Ok a' ->
                 a' = get_enhanced_fallback_analysis channel_id) ->
     a = get_enhanced_fallback_analysis channel_id)).
  { destruct (fresh_analysis w channel_id) as [a|e] eqn:E.
    - exists a. split; [done|]. split; [by eapply fresh_valid | intros Hfb; by apply Hfb].
    - eexists. split; [reflexivity|]. split; [apply fallback_valid | done]. }
  destruct cached as [recent|] eqn:Ec.
  - destruct (decide (truthy (PDict recent))) as [Ht|Hf].
    + exists recent.
      assert (Hv : valid_analysis recent).
      { subst cached. destruct force_refresh; [done|].
        by eapply recent_analysis_valid. }
      destruct Hv as (? & ? & ?). by repeat split.
    + destruct Hfresh as (a & Ea & (? & ? & ?) & _).
      exists a. by repeat split.
  - destruct Hfresh as (a & Ea & (? & ? & ?) & Hfb).
    exists a. by repeat split.
Qed.

Lemma analyze_channel_never_raises_witness :
  exists analysis : dict,
    analyze_channel all_down "UC_x5XG1OV2P6uZZ5FSM9Ttw" true = Ok analysis /\
    analysis = get_enhanced_fallback_analysis "UC_x5XG1OV2P6uZZ5FSM9Ttw".
Proof.
  destruct (analyze_channel_never_raises all_down "UC_x5XG1OV2P6uZZ5FSM9Ttw" true)
    as (a & Ea & _ & _ & _ & Hfb).
  exists a. split; [exact Ea|]. apply Hfb; [reflexivity|]. intros a' E. discriminate E.
Defined.

(** C1 (as stated) fails: with every provider down the result is the
    fallback structure, which has no timestamp section. *)
Lemma fallback_has_no_timestamp :
  analyze_channel all_down "UC_x5XG1OV2P6uZZ5FSM9Ttw" false
  = Ok (get_enhanced_fallback_analysis "UC_x5XG1OV2P6uZZ5FSM9Ttw") /\
  ~ structurally_complete (get_enhanced_fallback_analysis "UC_x5XG1OV2P6uZZ5FSM9Ttw").
Proof.
  split; [reflexivity|].
  intros H. unfold structurally_complete, has_sections in H.
  rewrite Forall_forall in H.
  destruct (H "analysis_timestamp") as [v Hv].
  - unfold documented_sections. set_solver.
  - discriminate Hv.
Qed.
(* ===================================================================== *)
(** * Further properties                                                  *)
(* ===================================================================== *)

#[local] Set Warnings "-clear-no-such-hyp".

Import Keys Fetch.

(** ** Building the credential pools *)

Section KeysFacts.

Lemma add_key_elem (keys : list string) (key : option string) (x : string) :
  x ∈ add_key keys key <-> x ∈ keys \/ (key = Some x /\ x <> "").
Proof.
  unfold add_key. destruct key as [k|]; [|naive_solver].
  destruct (decide _) as [[Hk Hnew]|Hn].
  - rewrite elem_of_app, list_elem_of_singleton. naive_solver.
  - split; [by left|]. intros [H|[[= ->] Hx]]; [done|].
    apply not_and_l in Hn as [Hn|Hn]; [done|]. by apply dec_stable.
Qed.

Lemma add_key_NoDup (keys : list string) (key : option string) :
  NoDup keys -> NoDup (add_key keys key).
Proof.
  intros H. unfold add_key. destruct key as [k|]; [|done].
  destruct (decide _) as [[Hk Hnew]|_]; [|done].
  apply NoDup_app. split; [done|]. split; [|apply NoDup_singleton].
  intros x Hx ->%list_elem_of_singleton. done.
Qed.

Lemma add_key_length (keys : list string) (key : option string) :
  (length (add_key keys key) <= S (length keys))%nat.
Proof.
  unfold add_key. destruct key as [k|]; [|lia].
  destruct (decide _); [rewrite length_app; simpl; lia | lia].
Qed.

Lemma add_key_head (keys : list string) (key : option string) (k : string) :
  head keys = Some k -> head (add_key keys key) = Some k.
Proof.
  unfold add_key. destruct key as [k'|]; [|done].
  destruct (decide _); [|done]. by destruct keys.
Qed.

Lemma add_slots_fold (env : environ) (prefix : string) (first count : nat)
    (keys : list string) :
  add_slots env prefix first count keys
  = foldl add_key keys ((fun i => env !! (prefix ++ slot_digit i)) <$> seq first count).
Proof.
  unfold add_slots. generalize (seq first count). intros l. revert keys.
  induction l as [|i l IH]; intros keys; [done|]. simpl. apply IH.
Qed.

Lemma fold_add_key_elem (vals : list (option string)) (keys : list string)
    (x : string) :
  x ∈ foldl add_key keys vals <-> x ∈ keys \/ (Some x ∈ vals /\ x <> "").
Proof.
  revert keys. induction vals as [|v vals IH]; intros keys; simpl.
  - rewrite elem_of_nil. naive_solver.
  - rewrite IH, add_key_elem, elem_of_cons. naive_solver.
Qed.

Lemma fold_add_key_NoDup (vals : list (option string)) (keys : list string) :
  NoDup keys -> NoDup (foldl add_key keys vals).
Proof.
  revert keys. induction vals as [|v vals IH]; intros keys H; simpl; [done|].
  by apply IH, add_key_NoDup.
Qed.

Lemma fold_add_key_length (vals : list (option string)) (keys : list string) :
  (length (foldl add_key keys vals) <= length keys + length vals)%nat.
Proof.
  revert keys. induction vals as [|v vals IH]; intros keys; simpl; [lia|].
  pose proof (IH (add_key keys v)). pose proof (add_key_length keys v). lia.
Qed.

Lemma fold_add_key_head (vals : list (option string)) (keys : list string)
    (k : string) :
  head keys = Some k -> head (foldl add_key keys vals) = Some k.
Proof.
  revert keys. induction vals as [|v vals IH]; intros keys H; simpl; [done|].
  by apply IH, add_key_head.
Qed.

Lemma slot_values_elem (env : environ) (prefix : string) (first count : nat)
    (x : string) :
  x ∈ slot_values env prefix first count
  <-> Some x ∈ (fun i => env !! (prefix ++ slot_digit i)) <$> seq first count.
Proof.
  unfold slot_values. rewrite list_elem_of_omap, list_elem_of_fmap.
  naive_solver.
Qed.

End KeysFacts.

(** X1.  The pools hold no key twice and no empty key; the video-data pool
    has at most ten keys and the text-generation pool at most six; a pool
    holds exactly the non-empty keys among the primary key and the numbered
    slots of the environment; and a non-empty primary key comes first. *)
Theorem key_pools_distinct_and_bounded (api_key groq_api_key : option string)
    (env : environ) :
  let youtube_keys := _initialize_youtube_keys api_key env in
  let groq_keys := _initialize_groq_keys groq_api_key env in
  (NoDup youtube_keys /\ ("" ∉ youtube_keys) /\
   (length youtube_keys <= 10)%nat /\
   (forall k, k ∈ youtube_keys <->
      k <> "" /\ (api_key = Some k \/
                  k ∈ slot_values env "YOUTUBE_API_KEY_" 1 9)) /\
   (forall k, api_key = Some k -> k <> "" -> head youtube_keys = Some k)) /\
  (NoDup groq_keys /\ ("" ∉ groq_keys) /\
   (length groq_keys <= 6)%nat /\
   (forall k, k ∈ groq_keys <->
      k <> "" /\ (primary_groq_key groq_api_key env = Some k \/
                  k ∈ slot_values env "GROQ_API_KEY_" 1 5)) /\
   (forall k, primary_groq_key groq_api_key env = Some k -> k <> "" ->
              head groq_keys = Some k)).
Proof.
  intros youtube_keys groq_keys.
  assert (Hy : forall k, k ∈ youtube_keys <->
    k <> "" /\ (api_key = Some k \/ k ∈ slot_values env "YOUTUBE_API_KEY_" 1 9)).
  { intros k. subst youtube_keys. unfold _initialize_youtube_keys.
    rewrite !add_slots_fold, !fold_add_key_elem, add_key_elem, elem_of_nil.
    rewrite slot_values_elem.
    change (seq 1 9) with (seq 1 5 ++ seq 6 4)%list.
    rewrite fmap_app, elem_of_app. tauto. }
  assert (Hg : forall k, k ∈ groq_keys <->
    k <> "" /\ (primary_groq_key groq_api_key env = Some k \/
                k ∈ slot_values env "GROQ_API_KEY_" 1 5)).
  { intros k. subst groq_keys. unfold _initialize_groq_keys.
    rewrite !add_slots_fold, !fold_add_key_elem, add_key_elem, elem_of_nil.
    rewrite slot_values_elem. tauto. }
  split; (split; [|split; [|split; [|split]]]); try done.
  - subst youtube_keys. unfold _initialize_youtube_keys. rewrite !add_slots_fold.
    by apply fold_add_key_NoDup, fold_add_key_NoDup, add_key_NoDup, NoDup_nil.
  - rewrite Hy. tauto.
  - subst youtube_keys. unfold _initialize_youtube_keys. rewrite !add_slots_fold.
    etrans; [apply fold_add_key_length|].
    pose proof (fold_add_key_length
      ((fun i => env !! ("YOUTUBE_API_KEY_" ++ slot_digit i)) <$> seq 1 5)
      (add_key [] api_key)) as H1.
    pose proof (add_key_length [] api_key) as H0.
    rewrite !length_fmap, !length_seq in *. simpl in *. lia.
  - intros k -> Hk. subst youtube_keys. unfold _initialize_youtube_keys.
    rewrite !add_slots_fold. apply fold_add_key_head, fold_add_key_head.
    unfold add_key. rewrite decide_True; [done|]. split; [done | apply not_elem_of_nil].
  - subst groq_keys. unfold _initialize_groq_keys. rewrite !add_slots_fold.
    by apply fold_add_key_NoDup, add_key_NoDup, NoDup_nil.
  - rewrite Hg. tauto.
  - subst groq_keys. unfold _initialize_groq_keys. rewrite !add_slots_fold.
    etrans; [apply fold_add_key_length|].
    pose proof (add_key_length [] (primary_groq_key groq_api_key env)) as H0.
    rewrite !length_fmap, !length_seq in *. simpl in *. lia.
  - intros k E Hk. subst groq_keys. unfold _initialize_groq_keys.
    rewrite !add_slots_fold. apply fold_add_key_head. rewrite E.
    unfold add_key. rewrite decide_True; [done|]. split; [done | apply not_elem_of_nil].
Qed.

Lemma key_pools_distinct_and_bounded_witness :
  head (_initialize_youtube_keys (Some "AIza-main")
          {[ "YOUTUBE_API_KEY_1" := "AIza-main" ]})
  = Some "AIza-main".
Proof.
  destruct (key_pools_distinct_and_bounded (Some "AIza-main") None
    {[ "YOUTUBE_API_KEY_1" := "AIza-main" ]}) as [(_ & _ & _ & _ & H) _].
  by apply H.
Defined.

(** ** The rate-limited fetch client *)

Section FetchFacts.
Variable lower : string -> string.

Lemma requests_app (l1 l2 : list event) :
  requests (l1 ++ l2) = (requests l1 + requests l2)%nat.
Proof. induction l1 as [|[] l1 IH]; simpl; lia. Qed.

Lemma searches_app (l1 l2 : list event) :
  searches (l1 ++ l2) = (searches l1 + searches l2)%nat.
Proof. induction l1 as [|[] l1 IH]; simpl; lia. Qed.

Lemma slept_app (l1 l2 : list event) : slept (l1 ++ l2) = slept l1 + slept l2.
Proof. induction l1 as [|[] l1 IH]; simpl; lia. Qed.

Lemma try_key_budget {A} (ask : nat -> reply A) (key_index max_retries : nat)
    (remaining attempt : nat) :
  let log := (try_key lower ask key_index max_retries attempt remaining).1 in
  (requests log <= remaining)%nat /\ searches log = O /\
  0 <= slept log /\
  slept log + 2 ^ Z.of_nat attempt
    <= 2 ^ Z.of_nat (Nat.max attempt (max_retries - 1)).
Proof.
  revert attempt. induction remaining as [|remaining IH]; intros attempt; simpl.
  { repeat split; try lia.
    assert (2 ^ Z.of_nat attempt <= 2 ^ Z.of_nat (attempt `max` (max_retries - 1)));
      [apply Z.pow_le_mono_r; lia | lia]. }
  assert (Hstop : forall r : option A,
    let log := ([Request key_index attempt], r).1 in
    (requests log <= S remaining)%nat /\ searches log = O /\ 0 <= slept log /\
    slept log + 2 ^ Z.of_nat attempt
      <= 2 ^ Z.of_nat (Nat.max attempt (max_retries - 1))).
  { intros r. simpl. repeat split; try lia.
    assert (2 ^ Z.of_nat attempt <= 2 ^ Z.of_nat (attempt `max` (max_retries - 1)));
      [apply Z.pow_le_mono_r; lia | lia]. }
  assert (Hagain :
    let log := (if (attempt <? max_retries - 1)%nat
                then let '(log, result) :=
                       try_key lower ask key_index max_retries (S attempt) remaining in
                     (Request key_index attempt :: Sleep (2 ^ Z.of_nat attempt) :: log,
                      result)
                else ([Request key_index attempt], None)).1 in
    (requests log <= S remaining)%nat /\ searches log = O /\ 0 <= slept log /\
    slept log + 2 ^ Z.of_nat attempt
      <= 2 ^ Z.of_nat (Nat.max attempt (max_retries - 1))).
  { destruct (Nat.ltb_spec attempt (max_retries - 1)) as [Hlt|Hge]; [|apply (Hstop None)].
    specialize (IH (S attempt)).
    destruct (try_key lower ask key_index max_retries (S attempt) remaining)
      as [log result]. simpl in *.
    destruct IH as (Hr & Hs & H0 & Hb).
    assert (0 < 2 ^ Z.of_nat attempt) by (apply Z.pow_pos_nonneg; lia).
    replace (Z.of_nat (S attempt)) with (Z.succ (Z.of_nat attempt)) in Hb by lia.
    rewrite Z.pow_succ_r in Hb by lia.
    replace (S attempt `max` (max_retries - 1))%nat
      with (attempt `max` (max_retries - 1))%nat in Hb by lia.
    repeat split; try lia. }
  destruct (ask attempt) as [code message| |a|e]; simpl.
  - destruct (is_key_error lower code message);
      [apply (Hstop None) | apply Hagain].
  - apply Hagain.
  - apply (Hstop (Some a)).
  - apply Hagain.
Qed.

Lemma try_pool_budget {A} (provider : nat -> nat -> reply A)
    (max_retries : nat) (keys : list string) (key_index : nat) :
  let log := (try_pool lower provider max_retries key_index keys).1 in
  (requests log <= max_retries * length keys)%nat /\ searches log = O /\
  0 <= slept log <= (2 ^ Z.of_nat (max_retries - 1) - 1) * Z.of_nat (length keys).
Proof.
  revert key_index. induction keys as [|key keys IH]; intros key_index.
  { simpl. lia. }
  cbn [try_pool].
  pose proof (try_key_budget (provider key_index) key_index max_retries
                max_retries 0) as Hk.
  destruct (try_key lower (provider key_index) key_index max_retries 0 max_retries)
    as [log result]. simpl in Hk. destruct Hk as (Hr & Hs & H0 & Hb).
  replace (Z.of_nat 0) with 0 in Hb by lia.
  assert (0 <= 2 ^ Z.of_nat (max_retries - 1) - 1).
  { assert (0 < 2 ^ Z.of_nat (max_retries - 1)) by (apply Z.pow_pos_nonneg; lia).
    lia. }
  destruct result as [a|].
  { simpl. repeat split; try nia. }
  specialize (IH (S key_index)).
  destruct (try_pool lower provider max_retries (S key_index) keys) as [log' result'].
  simpl in *. rewrite requests_app, searches_app, slept_app.
  destruct IH as (Hr' & Hs' & H0' & Hb'). repeat split; try nia.
Qed.

Lemma search_pool_budget (provider : nat -> reply (list search_item))
    (search_query : string) (keys : list string) (key_index : nat) :
  let log := (search_pool lower provider search_query key_index keys).1 in
  (searches log <= length keys)%nat /\ requests log = O /\ slept log = 0.
Proof.
  revert key_index. induction keys as [|key keys IH]; intros key_index.
  { simpl. lia. }
  cbn [search_pool]. specialize (IH (S key_index)).
  destruct (search_pool lower provider search_query (S key_index) keys)
    as [log result]. simpl in IH.
  destruct (provider key_index) as [code message| |items|e]; simpl; try lia.
  - destruct (is_key_error lower code message); simpl; lia.
  - destruct (best_match lower search_query items) as [[c|]|e]; simpl; lia.
Qed.

Lemma resolver_budget (keys : list string)
    (provider : string -> nat -> reply (list search_item)) (identifier : string) :
  let log := (resolve_custom_url_to_channel_id lower keys provider identifier).1 in
  (searches log <= length keys)%nat /\ requests log = O /\ slept log = 0.
Proof.
  unfold resolve_custom_url_to_channel_id.
  destruct identifier as [|c identifier]; [simpl; lia|].
  destruct (Ascii.ascii_dec c "@") as [->|Hc].
  - apply search_pool_budget.
  - destruct c as [[] [] [] [] [] [] [] []]; simpl; try lia. by destruct Hc.
Qed.

End FetchFacts.

(** X2.  The cost of one fetch is bounded by the pool: with [n] keys and
    [max_retries] attempts a key, the client makes at most [max_retries * n]
    requests for the channel and at most [n] searches, none when the
    identifier is not a handle, and it sleeps at most
    [2 ^ (max_retries - 1) - 1] seconds a key. *)
Theorem fetch_cost_is_bounded (lower : string -> string)
    (youtube_keys : list string)
    (search : string -> nat -> reply (list search_item))
    (provider : string -> nat -> nat -> reply dict)
    (channel_id : string) (max_retries : nat) :
  let log := (get_enhanced_channel_data_with_retry lower youtube_keys search
                provider channel_id max_retries).1 in
  (requests log <= max_retries * length youtube_keys)%nat /\
  (searches log <= length youtube_keys)%nat /\
  (String.prefix "@" channel_id = false -> searches log = O) /\
  0 <= slept log
    <= (2 ^ Z.of_nat (max_retries - 1) - 1) * Z.of_nat (length youtube_keys).
Proof.
  unfold get_enhanced_channel_data_with_retry.
  assert (0 <= (2 ^ Z.of_nat (max_retries - 1) - 1) * Z.of_nat (length youtube_keys)).
  { assert (0 < 2 ^ Z.of_nat (max_retries - 1)) by (apply Z.pow_pos_nonneg; lia).
    nia. }
  destruct (String.prefix "@" channel_id) eqn:Hp.
  - pose proof (resolver_budget lower youtube_keys search channel_id) as Hs.
    destruct (resolve_custom_url_to_channel_id lower youtube_keys search channel_id)
      as [log [resolved_id|]]; simpl in Hs; [|simpl; repeat split; try lia; done].
    destruct (decide (resolved_id <> "")); [|simpl; repeat split; try lia; done].
    pose proof (try_pool_budget lower (provider resolved_id) max_retries
                  youtube_keys 0) as Hc.
    destruct (try_pool lower (provider resolved_id) max_retries 0 youtube_keys)
      as [log' result]. simpl in *.
    rewrite requests_app, searches_app, slept_app. repeat split; try lia; done.
  - pose proof (try_pool_budget lower (provider channel_id) max_retries
                  youtube_keys 0) as Hc.
    simpl in *. repeat split; try lia.
Qed.

Section RotationFacts.
Variable lower : string -> string.

Lemma try_key_rejected {A} (ask : nat -> reply A) (key_index max_retries : nat) :
  (1 <= max_retries)%nat -> key_rejected lower (ask O) ->
  try_key lower ask key_index max_retries 0 max_retries
  = ([Request key_index 0], None).
Proof.
  intros Hm (code & message & E & Hk).
  destruct max_retries as [|n]; [lia|]. simpl. by rewrite E, Hk.
Qed.

Lemma try_key_found {A} (ask : nat -> reply A) (key_index max_retries : nat)
    (a : A) :
  (1 <= max_retries)%nat -> ask O = Found a ->
  try_key lower ask key_index max_retries 0 max_retries
  = ([Request key_index 0], Some a).
Proof.
  intros Hm E. destruct max_retries as [|n]; [lia|]. simpl. by rewrite E.
Qed.

Lemma try_pool_rotates {A} (provider : nat -> nat -> reply A)
    (max_retries : nat) (a : A) (k : nat) :
  (1 <= max_retries)%nat ->
  forall (keys : list string) (key_index : nat),
  (k < length keys)%nat ->
  (forall j, (j < k)%nat -> key_rejected lower (provider (key_index + j)%nat O)) ->
  provider (key_index + k)%nat O = Found a ->
  try_pool lower provider max_retries key_index keys
  = ((fun j => Request j 0) <$> seq key_index (S k), Some a).
Proof.
  intros Hm. induction k as [|k IH]; intros keys key_index Hk Hrej Hfound;
    (destruct keys as [|key keys]; [simpl in Hk; lia|]); cbn [try_pool].
  - rewrite Nat.add_0_r in Hfound. by rewrite (try_key_found _ _ _ a).
  - rewrite try_key_rejected; [|done|].
    2:{ specialize (Hrej O). rewrite Nat.add_0_r in Hrej. apply Hrej. lia. }
    rewrite (IH keys (S key_index)).
    + done.
    + simpl in Hk. lia.
    + intros j Hj. replace (S key_index + j)%nat with (key_index + S j)%nat by lia.
      apply Hrej. lia.
    + by replace (S key_index + k)%nat with (key_index + S k)%nat by lia.
Qed.

Lemma try_key_sound {A} (ask : nat -> reply A) (key_index max_retries : nat)
    (a : A) (remaining attempt : nat) (log : list event) :
  try_key lower ask key_index max_retries attempt remaining = (log, Some a) ->
  exists attempt', (attempt <= attempt' < attempt + remaining)%nat /\
    ask attempt' = Found a /\ last log = Some (Request key_index attempt').
Proof.
  revert attempt log. induction remaining as [|remaining IH];
    intros attempt log; simpl; [done|].
  assert (Hagain :
    (if (attempt <? max_retries - 1)%nat
     then let '(log, result) :=
            try_key lower ask key_index max_retries (S attempt) remaining in
          (Request key_index attempt :: Sleep (2 ^ Z.of_nat attempt) :: log, result)
     else ([Request key_index attempt], None)) = (log, Some a) ->
    exists attempt', (attempt <= attempt' < attempt + S remaining)%nat /\
      ask attempt' = Found a /\ last log = Some (Request key_index attempt')).
  { destruct (attempt <? max_retries - 1)%nat; [|done].
    destruct (try_key lower ask key_index max_retries (S attempt) remaining)
      as [log' result] eqn:E.
    intros [= <- ->]. apply IH in E as (attempt' & Ha & Hf & Hl).
    exists attempt'. split; [lia|]. split; [done|].
    destruct log' as [|e log']; [done|]. done. }
  destruct (ask attempt) as [code message| |a'|e] eqn:E; try done.
  - by destruct (is_key_error lower code message).
  - intros [= <- <-]. exists attempt. split; [lia|]. done.
Qed.

Lemma try_pool_sound {A} (provider : nat -> nat -> reply A)
    (max_retries : nat) (a : A) (keys : list string) (key_index : nat)
    (log : list event) :
  try_pool lower provider max_retries key_index keys = (log, Some a) ->
  exists j attempt, (j < length keys)%nat /\ (attempt < max_retries)%nat /\
    provider (key_index + j)%nat attempt = Found a /\
    last log = Some (Request (key_index + j) attempt).
Proof.
  revert key_index log. induction keys as [|key keys IH]; intros key_index log;
    [done|]. cbn [try_pool].
  destruct (try_key lower (provider key_index) key_index max_retries 0 max_retries)
    as [log1 [a1|]] eqn:E1.
  - intros [= <- <-]. apply try_key_sound in E1 as (attempt & Ha & Hf & Hl).
    exists O, attempt. rewrite Nat.add_0_r. simpl. repeat split; try done; lia.
  - destruct (try_pool lower provider max_retries (S key_index) keys)
      as [log2 result] eqn:E2.
    intros [= <- ->]. apply IH in E2 as (j & attempt & Hj & Ha & Hf & Hl).
    exists (S j), attempt.
    replace (key_index + S j)%nat with (S key_index + j)%nat by lia.
    simpl. repeat split; try done; [lia|].
    destruct log2 as [|e log2]; [done|]. by rewrite last_app, Hl.
Qed.

Lemma try_pool_none {A} (provider : nat -> nat -> reply A)
    (max_retries : nat) (keys : list string) (key_index : nat) :
  (forall j attempt a, provider j attempt <> Found a) ->
  (try_pool lower provider max_retries key_index keys).2 = None.
Proof.
  intros Hn.
  destruct (try_pool lower provider max_retries key_index keys) as [log [a|]] eqn:E;
    [|done].
  apply try_pool_sound in E as (j & attempt & _ & _ & Hf & _). by apply Hn in Hf.
Qed.

End RotationFacts.

(** X3.  Rotation on quota errors: when the first [k] keys of the pool are
    rejected with a key-level error on their first request and the next key
    finds the channel, the client returns that channel after exactly [k + 1]
    requests, one a key, without sleeping. *)
Theorem rejected_keys_cost_one_request_each (lower : string -> string)
    (youtube_keys : list string)
    (search : string -> nat -> reply (list search_item))
    (provider : string -> nat -> nat -> reply dict)
    (channel_id : string) (max_retries k : nat) (channel : dict) :
  String.prefix "@" channel_id = false ->
  (1 <= max_retries)%nat ->
  (k < length youtube_keys)%nat ->
  (forall j, (j < k)%nat -> key_rejected lower (provider channel_id j O)) ->
  provider channel_id k O = Found channel ->
  get_enhanced_channel_data_with_retry lower youtube_keys search provider
    channel_id max_retries
  = ((fun j => Request j 0) <$> seq 0 (S k), Some channel).
Proof.
  intros Hp Hm Hk Hrej Hfound. unfold get_enhanced_channel_data_with_retry.
  rewrite Hp. by apply try_pool_rotates.
Qed.

Lemma rejected_keys_cost_one_request_each_witness :
  let provider (channel_id : string) (key_index attempt : nat) : reply dict :=
    match key_index with
    | O => ApiError (Some 403) (Some "quota exceeded")
    | _ => Found (list_to_map [("channel_id", PStr channel_id)])
    end in
  get_enhanced_channel_data_with_retry (fun s => s) ["k1"; "k2"; "k3"]
    (fun _ _ => Empty) provider "UCabc" 3
  = ([Request 0 0; Request 1 0],
     Some (list_to_map [("channel_id", PStr "UCabc")])).
Proof.
  intros provider.
  apply (rejected_keys_cost_one_request_each (fun s => s) ["k1"; "k2"; "k3"]
           (fun _ _ => Empty) provider "UCabc" 3 1).
  - reflexivity.
  - lia.
  - simpl. lia.
  - intros j Hj. assert (j = O) as -> by lia.
    exists (Some 403), (Some "quota exceeded"). split; reflexivity.
  - reflexivity.
Defined.

(** X4.  The client returns only what a request found: a channel that is
    returned was the answer to the last request of the log, made with a key
    of the pool within the attempts allowed; and when no request finds a
    channel, nothing is returned. *)
Theorem fetched_channel_was_found (lower : string -> string)
    (youtube_keys : list string)
    (search : string -> nat -> reply (list search_item))
    (provider : string -> nat -> nat -> reply dict)
    (channel_id : string) (max_retries : nat) :
  let outcome := get_enhanced_channel_data_with_retry lower youtube_keys search
                   provider channel_id max_retries in
  (forall channel, outcome.2 = Some channel ->
     exists requested_id key_index attempt,
       (key_index < length youtube_keys)%nat /\ (attempt < max_retries)%nat /\
       provider requested_id key_index attempt = Found channel /\
       last outcome.1 = Some (Request key_index attempt)) /\
  ((forall requested_id key_index attempt channel,
      provider requested_id key_index attempt <> Found channel) ->
   outcome.2 = None).
Proof.
  intros outcome.
  assert (Hsound : forall channel, outcome.2 = Some channel ->
     exists requested_id key_index attempt,
       (key_index < length youtube_keys)%nat /\ (attempt < max_retries)%nat /\
       provider requested_id key_index attempt = Found channel /\
       last outcome.1 = Some (Request key_index attempt)).
  { intros channel. subst outcome. unfold get_enhanced_channel_data_with_retry.
    destruct (String.prefix "@" channel_id).
    - destruct (resolve_custom_url_to_channel_id lower youtube_keys search channel_id)
        as [log [resolved_id|]]; [|done].
      destruct (decide (resolved_id <> "")); [|done].
      destruct (try_pool lower (provider resolved_id) max_retries 0 youtube_keys)
        as [log' result] eqn:E. simpl. intros ->.
      apply try_pool_sound in E as (j & attempt & Hj & Ha & Hf & Hl).
      exists resolved_id, j, attempt. repeat split; try done.
      destruct log' as [|e log']; [done|]. by rewrite last_app, Hl.
    - destruct (try_pool lower (provider channel_id) max_retries 0 youtube_keys)
        as [log' result] eqn:E. simpl. intros ->.
      apply try_pool_sound in E as (j & attempt & Hj & Ha & Hf & Hl).
      by exists channel_id, j, attempt. }
  split; [done|]. intros Hn.
  clearbody outcome. destruct outcome as [log [channel|]]; [|done].
  destruct (Hsound channel eq_refl) as (r & j & a & _ & _ & Hf & _).
  by apply Hn in Hf.
Qed.

Lemma fetched_channel_was_found_witness :
  (get_enhanced_channel_data_with_retry (fun s => s) ["k1"; "k2"]
     (fun _ _ => Empty) (fun _ _ _ => Empty) "UCabc" 3).2 = None.
Proof.
  apply (fetched_channel_was_found (fun s => s) ["k1"; "k2"]
           (fun _ _ => Empty) (fun _ _ _ => Empty) "UCabc" 3).
  intros; discriminate.
Defined.

(** ** Resolving a handle *)

Section ResolverFacts.
Variable lower : string -> string.

Lemma rank_total (search_query : string) (items : list search_item) :
  Forall (fun item => is_Some (item_title item)) items ->
  exists r, rank lower search_query items = Ok r.
Proof.
  induction 1 as [|item items [t Ht] _ [[ex cl] IH]]; [by eexists|].
  cbn [rank]. unfold classify. rewrite Ht, IH.
  repeat (case_match; simpl); by eexists.
Qed.

Lemma rank_exact_first (search_query : string)
    (before after : list search_item) (item : search_item) (t : string) :
  Forall (fun item' => exists t', item_title item' = Some t' /\
                                  lower search_query <> lower t') before ->
  item_title item = Some t -> lower search_query = lower t ->
  Forall (fun item' => is_Some (item_title item')) after ->
  exists exact_matches close_matches,
    rank lower search_query (before ++ item :: after)
    = Ok (item :: exact_matches, close_matches).
Proof.
  intros Hb Ht Hq Ha. induction Hb as [|item' before (t' & Ht' & Hne) _ IH].
  - destruct (rank_total search_query after Ha) as [[ex cl] E].
    simpl. unfold classify. rewrite Ht, decide_True by done. simpl.
    rewrite E. simpl. by eexists _, _.
  - destruct IH as (ex & cl & E). simpl. rewrite E. unfold classify.
    rewrite Ht', decide_False by done.
    repeat (case_match; simpl); by eexists _, _.
Qed.

Lemma rank_sub (search_query : string) (items exact_matches close_matches :
    list search_item) :
  rank lower search_query items = Ok (exact_matches, close_matches) ->
  exact_matches ⊆ items /\ close_matches ⊆ items.
Proof.
  revert exact_matches close_matches.
  induction items as [|item items IH]; intros ex cl; simpl.
  - intros [= <- <-]. done.
  - destruct (classify lower search_query item) as [[is_exact is_close]|e];
      [|done]. simpl.
    destruct (rank lower search_query items) as [[ex' cl']|e]; [|done]. simpl.
    intros [= <- <-]. destruct (IH ex' cl' eq_refl) as [He Hc].
    split; [destruct is_exact | destruct is_close]; set_solver.
Qed.

Lemma best_match_sound (search_query : string) (items : list search_item)
    (channel_id : string) :
  best_match lower search_query items = Ok (Some channel_id) ->
  exists item, item ∈ items /\ item_channel_id item = Some channel_id.
Proof.
  unfold best_match.
  destruct (rank lower search_query items) as [[ex cl]|e] eqn:E; [|done].
  apply rank_sub in E as [He Hc]. simpl.
  destruct ex as [|best ex]; [destruct cl as [|best cl];
    [destruct items as [|best items]; [done|]|]|];
    (destruct (item_channel_id best) as [c|] eqn:Eb; [|done]);
    intros [= <-]; exists best; set_solver.
Qed.

Lemma search_pool_sound (provider : nat -> reply (list search_item))
    (search_query : string) (keys : list string) (key_index : nat)
    (log : list event) (channel_id : string) :
  search_pool lower provider search_query key_index keys = (log, Some channel_id) ->
  exists j items item, (j < length keys)%nat /\
    provider (key_index + j)%nat = Found items /\
    item ∈ items /\ item_channel_id item = Some channel_id.
Proof.
  revert key_index log. induction keys as [|key keys IH]; intros key_index log;
    [done|]. cbn [search_pool].
  assert (Hnext :
    (let '(log, result) :=
       search_pool lower provider search_query (S key_index) keys in
     (Search key_index :: log, result)) = (log, Some channel_id) ->
    exists j items item, (j < length (key :: keys))%nat /\
      provider (key_index + j)%nat = Found items /\
      item ∈ items /\ item_channel_id item = Some channel_id).
  { destruct (search_pool lower provider search_query (S key_index) keys)
      as [log' result] eqn:E. intros [= <- ->].
    apply IH in E as (j & items & item & Hj & Hf & Hi & Hc).
    exists (S j), items, item.
    replace (key_index + S j)%nat with (S key_index + j)%nat by lia.
    simpl. repeat split; try done. lia. }
  destruct (provider key_index) as [code message| |items|e] eqn:E; try done.
  - by destruct (is_key_error lower code message).
  - destruct (best_match lower search_query items) as [[c|]|e] eqn:Eb; try done.
    intros [= <- ->]. apply best_match_sound in Eb as (item & Hi & Hc).
    exists O, items, item. rewrite Nat.add_0_r. simpl. repeat split; try done. lia.
Qed.

End ResolverFacts.

(** X5.  The resolver prefers an exact title: when the search made with the
    first key returns items that all carry a title, the handle resolves to
    the channel of the first item whose title equals the query up to case,
    whatever the items before it are, after a single search. *)
Theorem resolver_prefers_exact_title (lower : string -> string)
    (youtube_keys : list string)
    (provider : string -> nat -> reply (list search_item))
    (search_query : string) (before after : list search_item)
    (item : search_item) (title channel_id : string) :
  youtube_keys <> [] ->
  provider search_query O = Found (before ++ item :: after)%list ->
  Forall (fun item' => exists t', item_title item' = Some t' /\
                                  lower search_query <> lower t') before ->
  item_title item = Some title -> lower search_query = lower title ->
  item_channel_id item = Some channel_id ->
  Forall (fun item' => is_Some (item_title item')) after ->
  resolve_custom_url_to_channel_id lower youtube_keys provider
    (String "@" search_query)
  = ([Search 0], Some channel_id).
Proof.
  intros Hk Hf Hb Ht Hq Hc Ha. unfold resolve_custom_url_to_channel_id.
  destruct youtube_keys as [|key keys]; [done|]. cbn [search_pool].
  rewrite Hf. unfold best_match.
  destruct (rank_exact_first lower search_query before after item title
              Hb Ht Hq Ha) as (ex & cl & ->).
  simpl. by rewrite Hc.
Qed.

Lemma resolver_prefers_exact_title_witness :
  resolve_custom_url_to_channel_id (fun s => s) ["k1"]
    (fun _ _ => Found [SearchItem (Some "mkbhd fans") None (Some "UCfans");
                       SearchItem (Some "mkbhd") None (Some "UCmkbhd")])
    "@mkbhd"
  = ([Search 0], Some "UCmkbhd").
Proof.
  apply (resolver_prefers_exact_title (fun s => s) ["k1"]
    (fun _ _ => Found [SearchItem (Some "mkbhd fans") None (Some "UCfans");
                       SearchItem (Some "mkbhd") None (Some "UCmkbhd")])
    "mkbhd" [SearchItem (Some "mkbhd fans") None (Some "UCfans")] []
    (SearchItem (Some "mkbhd") None (Some "UCmkbhd")) "mkbhd" "UCmkbhd").
  - discriminate.
  - reflexivity.
  - constructor; [|constructor]. exists "mkbhd fans". split; [reflexivity | discriminate].
  - reflexivity.
  - reflexivity.
  - reflexivity.
  - constructor.
Defined.

(** X6.  An error of the search that is not a key-level error ends the
    resolution: the keys after the one that met it are not tried, even when
    they would have found the channel. *)
Theorem resolver_stops_on_api_error (lower : string -> string)
    (youtube_keys : list string)
    (provider : string -> nat -> reply (list search_item))
    (search_query : string) (code : option Z) (message : option string) :
  youtube_keys <> [] ->
  provider search_query O = ApiError code message ->
  is_key_error lower code message = false ->
  resolve_custom_url_to_channel_id lower youtube_keys provider
    (String "@" search_query)
  = ([Search 0], None).
Proof.
  intros Hk Hf He. unfold resolve_custom_url_to_channel_id.
  destruct youtube_keys as [|key keys]; [done|]. cbn [search_pool].
  by rewrite Hf, He.
Qed.

Lemma resolver_stops_on_api_error_witness :
  resolve_custom_url_to_channel_id (fun s => s) ["k1"; "k2"]
    (fun _ key_index =>
       match key_index with
       | O => ApiError (Some 500) (Some "backend error")
       | _ => Found [SearchItem (Some "mkbhd") None (Some "UCmkbhd")]
       end)
    "@mkbhd"
  = ([Search 0], None).
Proof.
  apply (resolver_stops_on_api_error (fun s => s) ["k1"; "k2"]
    (fun _ key_index =>
       match key_index with
       | O => ApiError (Some 500) (Some "backend error")
       | _ => Found [SearchItem (Some "mkbhd") None (Some "UCmkbhd")]
       end)
    "mkbhd" (Some 500) (Some "backend error")).
  - discriminate.
  - reflexivity.
  - reflexivity.
Defined.

(** X7.  The resolver answers for handles only, and only with a channel of a
    search result: an identifier that does not start with [@] resolves to
    nothing without any request, and a resolved id is the channel id of an
    item that the search made with a key of the pool returned. *)
Theorem resolver_answers_from_search_results (lower : string -> string)
    (youtube_keys : list string)
    (provider : string -> nat -> reply (list search_item))
    (identifier : string) :
  let outcome := resolve_custom_url_to_channel_id lower youtube_keys provider
                   identifier in
  (String.prefix "@" identifier = false -> outcome = ([], None)) /\
  (forall channel_id, outcome.2 = Some channel_id ->
     exists search_query key_index items item,
       identifier = String "@" search_query /\
       (key_index < length youtube_keys)%nat /\
       provider search_query key_index = Found items /\
       item ∈ items /\ item_channel_id item = Some channel_id).
Proof.
  intros outcome. subst outcome. unfold resolve_custom_url_to_channel_id.
  destruct identifier as [|c identifier]; [done|].
  destruct (Ascii.ascii_dec c "@") as [->|Hc].
  - split; [by destruct identifier|]. intros channel_id.
    destruct (search_pool lower (provider identifier) identifier 0 youtube_keys)
      as [log result] eqn:E. simpl. intros ->.
    apply search_pool_sound in E as (j & items & item & Hj & Hf & Hi & Hc).
    by exists identifier, j, items, item.
  - destruct c as [[] [] [] [] [] [] [] []]; done.
Qed.

Lemma resolver_answers_from_search_results_witness :
  resolve_custom_url_to_channel_id (fun s => s) ["k1"]
    (fun _ _ => Found [SearchItem (Some "mkbhd") None (Some "UCmkbhd")])
    "UCBJycsmduvYEL83R_U4JriQ"
  = ([], None).
Proof.
  apply (resolver_answers_from_search_results (fun s => s) ["k1"]
    (fun _ _ => Found [SearchItem (Some "mkbhd") None (Some "UCmkbhd")])
    "UCBJycsmduvYEL83R_U4JriQ").
  reflexivity.
Defined.

(** ** Rounding and means within bounds *)

Section NumericFacts.
#[local] Open Scope R_scope.

Lemma round_to_ge (a : Z) (n : nat) (x : R) :
  IZR a <= x -> IZR a <= round_to x n.
Proof.
  intros Ha. unfold round_to.
  assert (Hp : 0 < 10 ^ n) by (apply pow_lt; lra).
  assert (E : 10 ^ n = IZR (10 ^ Z.of_nat n)) by apply pow_IZR.
  assert (H1 : (a * 10 ^ Z.of_nat n <= py_round (x * 10 ^ n))%Z).
  { apply py_round_ge. rewrite mult_IZR, <- E. apply Rmult_le_compat_r; lra. }
  apply IZR_le in H1. rewrite mult_IZR, <- E in H1.
  apply (Rmult_le_reg_r (10 ^ n)); [done|]. field_simplify; lra.
Qed.

Lemma round_to_le (b : Z) (n : nat) (x : R) :
  x <= IZR b -> round_to x n <= IZR b.
Proof.
  intros Hb. unfold round_to.
  assert (Hp : 0 < 10 ^ n) by (apply pow_lt; lra).
  assert (E : 10 ^ n = IZR (10 ^ Z.of_nat n)) by apply pow_IZR.
  assert (H1 : (py_round (x * 10 ^ n) <= b * 10 ^ Z.of_nat n)%Z).
  { apply py_round_le. rewrite mult_IZR, <- E. apply Rmult_le_compat_r; lra. }
  apply IZR_le in H1. rewrite mult_IZR, <- E in H1.
  apply (Rmult_le_reg_r (10 ^ n)); [done|]. field_simplify; lra.
Qed.

Lemma round_to_between (a b : Z) (n : nat) (x : R) :
  IZR a <= x <= IZR b -> IZR a <= round_to x n <= IZR b.
Proof. intros [Ha Hb]. split; [by apply round_to_ge | by apply round_to_le]. Qed.

Lemma py_int_mono (x y : R) : x <= y -> (py_int x <= py_int y)%Z.
Proof.
  intros H. unfold py_int.
  destruct (Rle_dec 0 x), (Rle_dec 0 y); try lra.
  - by apply floor_mono.
  - assert (0 <= floor y)%Z by (by apply (floor_ge 0)).
    assert (0 <= floor (- x))%Z by (apply (floor_ge 0); lra). lia.
  - assert (floor (- y) <= floor (- x))%Z by (apply floor_mono; lra). lia.
Qed.

Lemma py_int_ge (a : Z) (x : R) : IZR a <= x -> (a <= py_int x)%Z.
Proof. intros H. rewrite <- (py_int_IZR a). by apply py_int_mono. Qed.

Lemma sum_R_le (b : R) (l : list R) :
  Forall (fun x => x <= b) l -> sum_R l <= INR (length l) * b.
Proof.
  induction 1 as [|x l Hx _ IH].
  - simpl. lra.
  - change (sum_R (x :: l)) with (x + sum_R l).
    change (length (x :: l)) with (S (length l)). rewrite S_INR. lra.
Qed.

Lemma sum_R_ge (a : R) (l : list R) :
  Forall (fun x => a <= x) l -> INR (length l) * a <= sum_R l.
Proof.
  induction 1 as [|x l Hx _ IH].
  - simpl. lra.
  - change (sum_R (x :: l)) with (x + sum_R l).
    change (length (x :: l)) with (S (length l)). rewrite S_INR. lra.
Qed.

Lemma np_mean_le (b : R) (l : list R) :
  l <> [] -> Forall (fun x => x <= b) l -> np_mean l <= b.
Proof.
  intros Hl H. unfold np_mean. pose proof (sum_R_le b l H).
  assert (0 < INR (length l)).
  { apply lt_0_INR. destruct l; [done | simpl; lia]. }
  apply (Rmult_le_reg_r (INR (length l))); [done|]. field_simplify; lra.
Qed.

Lemma np_mean_ge (a : R) (l : list R) :
  l <> [] -> Forall (fun x => a <= x) l -> a <= np_mean l.
Proof.
  intros Hl H. unfold np_mean. pose proof (sum_R_ge a l H).
  assert (0 < INR (length l)).
  { apply lt_0_INR. destruct l; [done | simpl; lia]. }
  apply (Rmult_le_reg_r (INR (length l))); [done|]. field_simplify; lra.
Qed.

Lemma sum_R_lt (b : R) (l : list R) :
  l <> [] -> Forall (fun x => x < b) l -> sum_R l < INR (length l) * b.
Proof.
  intros Hl H. induction H as [|x l Hx H IH]; [done|].
  change (sum_R (x :: l)) with (x + sum_R l).
  change (length (x :: l)) with (S (length l)). rewrite S_INR.
  destruct l as [|y l].
  - simpl. lra.
  - assert (sum_R (y :: l) < INR (length (y :: l)) * b) by (by apply IH). lra.
Qed.

Lemma np_mean_lt (b : R) (l : list R) :
  l <> [] -> Forall (fun x => x < b) l -> np_mean l < b.
Proof.
  intros Hl H. unfold np_mean. pose proof (sum_R_lt b l Hl H).
  assert (0 < INR (length l)).
  { apply lt_0_INR. destruct l; [done | simpl; lia]. }
  apply (Rmult_lt_reg_r (INR (length l))); [done|]. field_simplify; lra.
Qed.

End NumericFacts.

(** ** The consistency score *)

Section ConsistencyRange.
Context {fa : arithmetic}.
#[local] Open Scope R_scope.

Lemma clamp_monotone (x y : R) :
  x <= y -> Rmax 20 (Rmin x 95) <= Rmax 20 (Rmin y 95).
Proof.
  intros H. unfold Rmax, Rmin. repeat destruct (Rle_dec _ _); lra.
Qed.

(** The three pieces of the map, each antitone, and the levels that keep
    them apart: 60 and more below 50, between 45 and 57.5 from 50 to 100,
    30 and less from 100 on. *)
Lemma piece_antitone (a d cv cv' : R) :
  0 < d -> cv <= cv' -> fsub a (fdiv cv' d) <= fsub a (fdiv cv d).
Proof.
  intros Hd H. unfold fsub, fdiv. apply rnd_monotone.
  assert (rnd (cv / d) <= rnd (cv' / d)); [|lra].
  apply rnd_monotone. unfold Rdiv. apply Rmult_le_compat_r; [|done].
  left. by apply Rinv_0_lt_compat.
Qed.

Lemma piece_at (a d cv : R) (m k : Z) :
  0 < d -> (Z.abs m <= 2 ^ 53)%Z -> (Z.abs k <= 2 ^ 53)%Z ->
  cv / d = IZR m / 2 -> a - IZR m / 2 = IZR k / 2 ->
  fsub a (fdiv cv d) = IZR k / 2.
Proof.
  intros Hd Hm Hk E1 E2. unfold fsub, fdiv.
  rewrite E1, rnd_half_integer, E2, rnd_half_integer; done.
Qed.

Lemma first_piece_ge (cv : R) : cv <= 50 -> 60 <= fsub 85 (fdiv cv 2).
Proof.
  intros H. pose proof (piece_antitone 85 2 cv 50 ltac:(lra) H) as Hle.
  rewrite (piece_at 85 2 50 50 120) in Hle by (lia || lra). lra.
Qed.

Lemma second_piece_le (cv : R) : 50 <= cv -> fsub 70 (fdiv cv 4) <= 115 / 2.
Proof.
  intros H. pose proof (piece_antitone 70 4 50 cv ltac:(lra) H) as Hle.
  rewrite (piece_at 70 4 50 25 115) in Hle by (lia || lra). lra.
Qed.

Lemma second_piece_ge (cv : R) : cv <= 100 -> 45 <= fsub 70 (fdiv cv 4).
Proof.
  intros H. pose proof (piece_antitone 70 4 cv 100 ltac:(lra) H) as Hle.
  rewrite (piece_at 70 4 100 50 90) in Hle by (lia || lra). lra.
Qed.

Lemma third_piece_le (cv : R) : 100 <= cv -> fsub 40 (fdiv cv 10) <= 30.
Proof.
  intros H. pose proof (piece_antitone 40 10 100 cv ltac:(lra) H) as Hle.
  rewrite (piece_at 40 10 100 20 60) in Hle by (lia || lra). lra.
Qed.

Lemma consistency_of_cv_antitone (cv cv' : R) :
  cv <= cv' -> consistency_of_cv cv' <= consistency_of_cv cv.
Proof.
  intros H. unfold consistency_of_cv. apply clamp_monotone.
  destruct (Rlt_dec cv' 50) as [H1'|H1'].
  - destruct (Rlt_dec cv 50); [|lra]. apply piece_antitone; [lra | done].
  - destruct (Rlt_dec cv' 100) as [H2'|H2'].
    + destruct (Rlt_dec cv 50).
      * pose proof (first_piece_ge cv ltac:(lra)).
        pose proof (second_piece_le cv' ltac:(lra)). lra.
      * destruct (Rlt_dec cv 100); [|lra]. apply piece_antitone; [lra | done].
    + pose proof (third_piece_le cv' ltac:(lra)).
      destruct (Rlt_dec cv 50).
      * pose proof (first_piece_ge cv ltac:(lra)). lra.
      * destruct (Rlt_dec cv 100).
        -- pose proof (second_piece_ge cv ltac:(lra)). lra.
        -- apply piece_antitone; [lra | done].
Qed.

Lemma calculate_consistency_range (values : list R) :
  20 <= calculate_consistency values <= 95.
Proof.
  unfold calculate_consistency.
  destruct (length values <? 2)%nat; [lra|].
  destruct (3 <=? length values)%nat; [|lra].
  destruct (Req_dec_T _ _); [lra|].
  apply consistency_of_cv_bounds.
Qed.

End ConsistencyRange.

(** X8.  The consistency score of any list of data points lies between 20
    and 95, and among lists of three or more points with a non-zero mean a
    larger coefficient of variation never gives a larger score: the means
    and the coefficients are the computed ones, and the rounding of the map
    does not disturb the order. *)
Theorem consistency_in_range_and_antitone {fa : arithmetic} :
  (forall values : list R, (20 <= calculate_consistency values <= 95)%R) /\
  (forall values values' : list R,
     (3 <= length values)%nat -> (3 <= length values')%nat ->
     fmean values <> 0%R -> fmean values' <> 0%R ->
     (coefficient_of_variation values <= coefficient_of_variation values')%R ->
     (calculate_consistency values' <= calculate_consistency values)%R).
Proof.
  split; [apply calculate_consistency_range|].
  intros values values' H3 H3' Hm Hm' Hcv.
  rewrite !calculate_consistency_cv by done.
  by apply consistency_of_cv_antitone.
Qed.

Lemma consistency_in_range_and_antitone_witness :
  (calculate_consistency (fa := binary64) [1; 1; 3; 3]
   <= calculate_consistency (fa := binary64) [19; 17; 17; 9; 2])%R.
Proof.
  apply (proj2 (consistency_in_range_and_antitone (fa := binary64))
           [19; 17; 17; 9; 2]%R [1; 1; 3; 3]%R).
  - simpl. lia.
  - simpl. lia.
  - change (Binary64.mean [19; 17; 17; 9; 2]%R <> 0%R). rewrite mean_of_five.
    pow2_eval. lra.
  - change (Binary64.mean [1; 1; 3; 3]%R <> 0%R). rewrite mean_of_four. lra.
  - rewrite cv_of_five, cv_of_four. pow2_eval. lra.
Defined.

(** ** The sorted batch of videos *)

Section SortFacts.

Lemma insert_by_views_sorted (x : video) (l : list video) :
  StronglySorted (fun a b => views_of b <= views_of a) l ->
  StronglySorted (fun a b => views_of b <= views_of a) (insert_by_views x l).
Proof.
  induction 1 as [|y l Hl IH Hy]; simpl.
  - repeat constructor.
  - destruct (Z.leb_spec (views_of y) (views_of x)) as [Hle|Hgt].
    + constructor; [by constructor|]. constructor; [done|].
      eapply Forall_impl; [exact Hy|]. simpl. lia.
    + constructor; [done|].
      rewrite (insert_by_views_perm x l). constructor; [lia | done].
Qed.

Lemma sorted_videos_sorted (l : list video) :
  StronglySorted (fun a b => views_of b <= views_of a) (sorted_videos l).
Proof.
  induction l as [|x l IH]; simpl; [constructor|].
  by apply insert_by_views_sorted.
Qed.

Lemma strongly_sorted_lookup {A} (R : A -> A -> Prop) (l : list A)
    (i j : nat) (a b : A) :
  StronglySorted R l -> (i < j)%nat ->
  l !! i = Some a -> l !! j = Some b -> R a b.
Proof.
  intros H. revert i j. induction H as [|x l Hl IH Hx]; intros i j Hij Hi Hj;
    [done|].
  destruct i as [|i], j as [|j]; try lia; simpl in *.
  - injection Hi as ->. rewrite Forall_forall in Hx. apply Hx.
    by eapply list_elem_of_lookup_2.
  - apply (IH i j); [lia | done | done].
Qed.

End SortFacts.

(** X9.  What the video fetch returns is the fetched batch in descending
    order of views: the analysed items are a rearrangement of the fetched
    videos, no video has more views than one before it, the recent videos are
    the first [max_results] of them and the count is that of the batch. *)
Theorem fetched_videos_sorted_by_views (fetched : list video) (max_results : nat) :
  let videos_data := fetched_videos_data fetched max_results in
  let items := items_of (Some videos_data) in
  items ≡ₚ fetched /\
  (forall (i j : nat) (a b : video),
     (i <= j)%nat -> items !! i = Some a -> items !! j = Some b ->
     views_of b <= views_of a) /\
  recent_videos videos_data `prefix_of` items /\
  length (recent_videos videos_data) = Nat.min max_results (length fetched) /\
  total_videos_fetched videos_data = Z.of_nat (length fetched).
Proof.
  simpl. split; [apply sorted_videos_perm|]. split; [|split; [|split]].
  - intros i j a b Hij Hi Hj.
    destruct (decide (i = j)) as [->|Hne].
    + rewrite Hi in Hj. injection Hj as ->. lia.
    + apply (strongly_sorted_lookup (fun a b => views_of b <= views_of a)
               (sorted_videos fetched) i j a b);
        [apply sorted_videos_sorted | lia | done | done].
  - apply prefix_take.
  - by rewrite length_take, (Permutation_length (sorted_videos_perm fetched)).
  - by rewrite (Permutation_length (sorted_videos_perm fetched)).
Qed.

Lemma fetched_videos_sorted_by_views_witness :
  let low := Video (Some "a") (Some (Statistics (Some 10) None None)) None None None in
  let high := Video (Some "b") (Some (Statistics (Some 500) None None)) None None None in
  views_of low <= views_of high.
Proof.
  intros low high.
  apply (proj1 (proj2 (fetched_videos_sorted_by_views [low; high] 50)) 0%nat 1%nat high low).
  - lia.
  - reflexivity.
  - reflexivity.
Defined.

(** ** Videos without views *)

Section ZeroViewFacts.
Context {fa : arithmetic}.
#[local] Open Scope R_scope.

Lemma engagement_rates_skip (before after : list video) (v : video) :
  views_of v = 0%Z ->
  omap engagement_rate_of (before ++ v :: after)%list
  = omap engagement_rate_of (before ++ after)%list.
Proof.
  intros Hv. rewrite !omap_app. f_equal. simpl.
  unfold engagement_rate_of at 1. by rewrite Hv.
Qed.

Lemma total_views_skip (before after : list video) (v : video) :
  views_of v = 0%Z ->
  foldr Z.add 0%Z (views_of <$> (before ++ v :: after)%list)
  = foldr Z.add 0%Z (views_of <$> (before ++ after)%list).
Proof.
  intros Hv. rewrite !fmap_app, !foldr_app. simpl. by rewrite Hv.
Qed.

Lemma engagement_fields (vd : option videos_data) (top : video)
    (rest : list video) :
  items_of vd = top :: rest ->
  let m := calculate_comprehensive_engagement vd in
  m !! "avg_engagement_rate"
    = Some (PFloat (round_to
        match omap engagement_rate_of (top :: rest) with
        | [] => 0
        | _ => np_mean (omap engagement_rate_of (top :: rest))
        end 2)) /\
  m !! "total_recent_views"
    = Some (PInt (foldr Z.add 0%Z (views_of <$> top :: rest))) /\
  m !! "videos_analyzed" = Some (PInt (Z.of_nat (length (top :: rest)))).
Proof.
  intros E m. subst m. rewrite !(engagement_of_items vd top rest) by done.
  done.
Qed.

End ZeroViewFacts.

(** X10.  A video without views does not weigh on the average engagement
    rate, yet it is counted among the videos analysed: adding such a video
    after the first one leaves [avg_engagement_rate] and
    [total_recent_views] as they were and raises [videos_analyzed] by one. *)
Theorem zero_view_video_counted_not_averaged {fa : arithmetic} (top v : video)
    (before after : list video) (recent : list video) (fetched : Z) :
  views_of v = 0 ->
  let with_v :=
    calculate_comprehensive_engagement
      (Some (VideosData recent
               (Some (VideoStats (Some (top :: before ++ v :: after)%list))) fetched)) in
  let without :=
    calculate_comprehensive_engagement
      (Some (VideosData recent
               (Some (VideoStats (Some (top :: before ++ after)%list))) fetched)) in
  with_v !! "avg_engagement_rate" = without !! "avg_engagement_rate" /\
  with_v !! "total_recent_views" = without !! "total_recent_views" /\
  with_v !! "videos_analyzed"
    = Some (PInt (Z.of_nat (length (top :: before ++ after)%list) + 1)) /\
  without !! "videos_analyzed"
    = Some (PInt (Z.of_nat (length (top :: before ++ after)%list))).
Proof.
  intros Hv with_v without. subst with_v without.
  destruct (engagement_fields
    (Some (VideosData recent
             (Some (VideoStats (Some (top :: before ++ v :: after)%list))) fetched))
    top (before ++ v :: after)%list eq_refl) as (-> & -> & ->).
  destruct (engagement_fields
    (Some (VideosData recent
             (Some (VideoStats (Some (top :: before ++ after)%list))) fetched))
    top (before ++ after)%list eq_refl) as (-> & -> & ->).
  change (top :: before ++ v :: after)%list with ((top :: before) ++ v :: after)%list.
  change (top :: before ++ after)%list with ((top :: before) ++ after)%list.
  rewrite engagement_rates_skip, total_views_skip by done.
  repeat split. do 2 f_equal. rewrite !length_app. simpl. lia.
Qed.

Lemma zero_view_video_counted_not_averaged_witness :
  let top := Video None (Some (Statistics (Some 100) (Some 5) (Some 1))) None None None in
  let v := Video None None None None None in
  calculate_comprehensive_engagement (fa := binary64)
    (Some (VideosData [] (Some (VideoStats (Some [top; v]))) 2))
    !! "videos_analyzed" = Some (PInt 2).
Proof.
  intros top v.
  apply (zero_view_video_counted_not_averaged (fa := binary64)
           top v [] [] [] 2).
  reflexivity.
Defined.

(** ** The performance aggregation *)

Section PerformanceFacts.
Context {fa : arithmetic}.
#[local] Open Scope R_scope.

Lemma foldr_max_ge (d : Z) (dates : list Z) : (d <= foldr Z.max d dates)%Z.
Proof. induction dates as [|x dates IH]; simpl; lia. Qed.

Lemma foldr_min_le (d : Z) (dates : list Z) : (foldr Z.min d dates <= d)%Z.
Proof. induction dates as [|x dates IH]; simpl; lia. Qed.

Lemma content_velocity_range (videos : list video) :
  0 <= calculate_content_velocity videos <= 100.
Proof.
  unfold calculate_content_velocity.
  destruct (length videos <? 2)%nat; [lra|].
  destruct (mapM _ videos) as [[|d dates]|]; try lra.
  pose proof (foldr_max_ge d dates). pose proof (foldr_min_le d dates).
  set (total_days := ((foldr Z.max d dates - foldr Z.min d dates) / 86400)%Z).
  assert (0 <= total_days)%Z by (apply Z.div_pos; lia).
  destruct (Z.eqb_spec total_days 0); [lra|].
  apply (round_to_between 0 100).
  assert (0 < IZR total_days) by (apply IZR_lt; lia).
  assert (0 <= INR (length videos)) by apply pos_INR.
  assert (0 <= INR (length videos) / IZR total_days).
  { apply Rmult_le_pos; [done|]. apply Rlt_le, Rinv_0_lt_compat. done. }
  unfold Rmin. destruct (Rle_dec _ _); lra.
Qed.

Lemma retention_estimates_le (items : list video) :
  Forall (fun x => x <= 95) (omap retention_estimate_of items).
Proof.
  induction items as [|v items IH]; simpl; [constructor|].
  unfold retention_estimate_of at 1. destruct (0 <? views_of v)%Z; [|done].
  constructor; [apply Rmin_r | done].
Qed.

Lemma retention_estimates_ge (items : list video) :
  Forall (fun v => (0 <= likes_of v + comments_of v)%Z) items ->
  Forall (fun x => 0 <= x) (omap retention_estimate_of items).
Proof.
  induction 1 as [|v items Hv _ IH]; simpl; [constructor|].
  unfold retention_estimate_of at 1.
  destruct (Z.ltb_spec 0 (views_of v)); [|done].
  constructor; [|done].
  assert (0 < IZR (views_of v)) by (by apply IZR_lt).
  assert (0 <= IZR (likes_of v + comments_of v)) by (by apply IZR_le).
  assert (0 <= IZR (likes_of v + comments_of v) / IZR (views_of v)).
  { apply Rmult_le_pos; [done|]. by apply Rlt_le, Rinv_0_lt_compat. }
  unfold Rmin. destruct (Rle_dec _ _); lra.
Qed.

Lemma weighted_durations_sub (durations performances : list R) (w : R -> R) :
  flat_map (fun '(duration, performance) =>
              replicate (Z.to_nat (py_int (w performance * 10))) duration)
           (zip durations performances) ⊆ durations.
Proof.
  revert performances. induction durations as [|d durations IH];
    intros [|p performances]; simpl; try set_solver.
  intros x [Hx|Hx]%elem_of_app.
  - apply elem_of_replicate in Hx as [-> _]. set_solver.
  - apply IH in Hx. set_solver.
Qed.

End PerformanceFacts.

(** X11.  The scores of the performance aggregation stay within their
    scales: for a non-empty collection the retention estimate is at most 95
    (and not negative when no video has negative likes plus comments), the
    content velocity is between 0 and 100 and the duration consistency is
    between 20 and 95. *)
Theorem performance_scores_in_range {fa : arithmetic}
    (vd : option videos_data) (engagement_metrics : dict) :
  items_of vd <> [] ->
  exists retention velocity consistency : R,
    let m := calculate_performance_metrics_enhanced vd engagement_metrics in
    m !! "estimated_retention_rate" = Some (PFloat retention) /\
    m !! "content_velocity_score" = Some (PFloat velocity) /\
    m !! "duration_consistency" = Some (PFloat consistency) /\
    (retention <= 95)%R /\
    (Forall (fun v => 0 <= likes_of v + comments_of v) (items_of vd) ->
     (0 <= retention)%R) /\
    (0 <= velocity <= 100)%R /\ (20 <= consistency <= 95)%R.
Proof.
  intros Hne. unfold calculate_performance_metrics_enhanced.
  destruct (items_of vd) as [|top rest] eqn:E; [done|].
  exists (round_to match omap retention_estimate_of (top :: rest) with
                   | [] => 0%R
                   | _ => np_mean (omap retention_estimate_of (top :: rest))
                   end 1),
         (calculate_content_velocity (top :: rest)),
         (calculate_consistency ((fun v => IZR (duration_seconds v)) <$> top :: rest)).
  cbv zeta.
  split; [reflexivity|]. split; [reflexivity|]. split; [reflexivity|].
  split; [|split; [|split]].
  - apply (round_to_le 95).
    destruct (omap retention_estimate_of (top :: rest)) as [|r rs] eqn:Er; [lra|].
    apply np_mean_le; [done|]. rewrite <- Er. apply retention_estimates_le.
  - intros Hpos. apply (round_to_ge 0).
    destruct (omap retention_estimate_of (top :: rest)) as [|r rs] eqn:Er; [lra|].
    apply np_mean_ge; [done|]. rewrite <- Er. by apply retention_estimates_ge.
  - apply content_velocity_range.
  - apply calculate_consistency_range.
Qed.

Lemma performance_scores_in_range_witness :
  exists retention velocity consistency : R,
    let m := calculate_performance_metrics_enhanced (fa := binary64)
               (Some (VideosData [] (Some (VideoStats (Some
                  [Video None (Some (Statistics (Some 100) (Some 99) None))
                     None (Some "PT4M") None]))) 1)) ∅ in
    m !! "estimated_retention_rate" = Some (PFloat retention) /\
    m !! "content_velocity_score" = Some (PFloat velocity) /\
    m !! "duration_consistency" = Some (PFloat consistency) /\
    (retention <= 95)%R.
Proof.
  destruct (performance_scores_in_range (fa := binary64)
    (Some (VideosData [] (Some (VideoStats (Some
       [Video None (Some (Statistics (Some 100) (Some 99) None))
          None (Some "PT4M") None]))) 1)) ∅)
    as (retention & velocity & consistency & H1 & H2 & H3 & H4 & _).
  - discriminate.
  - by exists retention, velocity, consistency.
Defined.

(** X12.  The optimal length is read off a weighted mean of the durations,
    so it stays in a bracket that holds them all: when scores are given and
    every duration is below 3 minutes the label is the short one, when every
    duration is 30 minutes or more it is the very long one, and when every
    duration is between 8 and 15 minutes it is the medium one. *)
Theorem optimal_length_within_common_bracket (durations performances : list R) :
  durations <> [] -> performances <> [] ->
  (Forall (fun d => d < 180)%R durations ->
   determine_optimal_length_enhanced durations performances
   = "Short (under 3 minutes)") /\
  (Forall (fun d => 480 <= d /\ d < 900)%R durations ->
   determine_optimal_length_enhanced durations performances
   = "Medium (8-15 minutes)") /\
  (Forall (fun d => 1800 <= d)%R durations ->
   determine_optimal_length_enhanced durations performances
   = "Very Long (30+ minutes)").
Proof.
  intros Hd Hp. unfold determine_optimal_length_enhanced.
  destruct durations as [|d ds] eqn:Ed; [done|].
  destruct performances as [|p ps] eqn:Ep; [done|].
  rewrite <- Ed, <- Ep.
  set (w := fun performance : R =>
    if Rgt_dec (max_R performances) 0
    then (performance / max_R performances)%R else 1%R).
  pose proof (weighted_durations_sub durations performances w) as Hsub.
  set (weighted := flat_map _ _) in *.
  assert (Hmean : forall P : R -> Prop,
    (forall l : list R, l <> [] -> Forall P l -> P (np_mean l)) ->
    Forall P durations ->
    P match weighted with [] => np_mean durations | _ => np_mean weighted end).
  { intros P HP Hall. destruct weighted as [|x xs] eqn:Ew.
    - apply HP; [by rewrite Ed | done].
    - apply HP; [done|]. rewrite Forall_forall in Hall |- *.
      intros y Hy. by apply Hall, Hsub. }
  clearbody weighted. subst durations performances.
  split; [|split]; intros Hall.
  - assert (H := Hmean (fun x => x < 180)%R (np_mean_lt 180) Hall).
    simpl in H. by destruct (Rlt_dec _ 180).
  - assert (H : (480 <= match weighted with
                         | [] => np_mean (d :: ds) | _ => np_mean weighted end
                 < 900)%R).
    { split.
      - apply (Hmean (fun x => 480 <= x)%R (np_mean_ge 480)).
        eapply Forall_impl; [exact Hall | naive_solver].
      - apply (Hmean (fun x => x < 900)%R (np_mean_lt 900)).
        eapply Forall_impl; [exact Hall | naive_solver]. }
    destruct (Rlt_dec _ 180); [lra|]. destruct (Rlt_dec _ 480); [lra|].
    destruct (Rlt_dec _ 900); [done | lra].
  - assert (H := Hmean (fun x => 1800 <= x)%R (np_mean_ge 1800) Hall).
    simpl in H.
    destruct (Rlt_dec _ 180); [lra|]. destruct (Rlt_dec _ 480); [lra|].
    destruct (Rlt_dec _ 900); [lra|]. destruct (Rlt_dec _ 1800); [lra | done].
Qed.

Lemma optimal_length_within_common_bracket_witness :
  determine_optimal_length_enhanced [60; 120; 45]%R [10; 20]%R
  = "Short (under 3 minutes)".
Proof.
  apply (optimal_length_within_common_bracket [60; 120; 45]%R [10; 20]%R).
  - discriminate.
  - discriminate.
  - repeat constructor; lra.
Defined.

(** ** The composite metrics and their validation *)

Import Validation Growth Demographics Gaps.

Section CompositeRange.
#[local] Open Scope R_scope.

Lemma number_field_num (d : dict) (k : string) :
  number_field d k -> exists r, as_num (get d k (PInt 0)) = Ok r.
Proof. apply as_num_total. Qed.

Lemma capped_sum_range (a b c d ca cb cc cd' : R) :
  0 <= a -> 0 <= b -> 0 <= c -> 0 <= d ->
  0 <= ca -> 0 <= cb -> 0 <= cc -> 0 <= cd' ->
  0 <= Rmin (Rmin a ca + Rmin b cb + Rmin c cc + Rmin d cd') 100 <= 100.
Proof.
  intros. unfold Rmin. repeat destruct (Rle_dec _ _); lra.
Qed.

Lemma ai_metrics_shape
    (channel_data engagement_metrics content_analysis performance_metrics : dict) :
  number_field channel_data "subscribers" ->
  nonneg_field engagement_metrics "avg_engagement_rate" ->
  nonneg_field engagement_metrics "top_performing_video_views" ->
  nonneg_field engagement_metrics "performance_consistency" ->
  nonneg_field content_analysis "content_diversity_score" ->
  exists (health quality loyalty favorability viral : R)
         (growth tier engagement : string),
    calculate_ai_enhanced_metrics channel_data engagement_metrics
      content_analysis performance_metrics
    = Ok (list_to_map [
        ("channel_health_score", PInt (py_round health));
        ("content_quality_score", PInt (py_round quality));
        ("growth_potential", PStr growth);
        ("performance_tier", PStr tier);
        ("viral_ratio", PFloat viral);
        ("engagement_health", PStr engagement);
        ("audience_loyalty_score", PInt (py_round loyalty));
        ("algorithm_favorability", PInt (py_round favorability)) ]) /\
    0 <= health <= 100 /\ 0 <= quality <= 100 /\
    0 <= loyalty <= 100 /\ 0 <= favorability <= 100 /\
    growth ∈ valid_growth.
Proof.
  intros [subs Es]%number_field_num (rate & Er & Hr) (top & Et & Ht)
         (cons & Ec & Hc) (div & Ed & Hd).
  unfold calculate_ai_enhanced_metrics, assess_channel_scale.
  rewrite Es, Er, Et, Ec, Ed. cbn [mbind exc_bind mret exc_ret].
  set (scale := if Rge_dec subs 10000000 then _ else _).
  set (viral := top / Rmax subs 1).
  assert (Hv : 0 <= viral).
  { unfold viral. apply Rmult_le_pos; [done|].
    apply Rlt_le, Rinv_0_lt_compat. unfold Rmax. destruct (Rle_dec _ _); lra. }
  clearbody viral scale.
  eexists _, _, _, _, _, _, _, _. split; [reflexivity|].
  split; [|split; [|split; [|split]]].
  - repeat destruct (decide _); apply capped_sum_range; lra.
  - assert (Hb : forall bonus, 0 <= bonus <= 10 ->
      0 <= Rmin (Rmin (rate * 7) 40 + Rmin (cons * (4 / 10)) 30
                 + Rmin (div * (3 / 10)) 20 + bonus) 100 <= 100).
    { intros bonus Hbonus. unfold Rmin. repeat destruct (Rle_dec _ _); lra. }
    apply Hb. repeat case_match; lra.
  - unfold Rmin. destruct (Rle_dec _ _); lra.
  - unfold Rmin. destruct (Rle_dec _ _); lra.
  - unfold valid_growth. repeat case_match; set_solver.
Qed.

End CompositeRange.

(** X13.  The composite metrics computed from numbers that are not negative
    pass the validation of metrics: the computation returns, every required
    field is there, the four scores are integers between 0 and 100 and the
    growth potential is one of the five accepted labels. *)
Theorem composite_metrics_pass_validation
    (channel_data engagement_metrics content_analysis performance_metrics : dict) :
  number_field channel_data "subscribers" ->
  nonneg_field engagement_metrics "avg_engagement_rate" ->
  nonneg_field engagement_metrics "top_performing_video_views" ->
  nonneg_field engagement_metrics "performance_consistency" ->
  nonneg_field content_analysis "content_diversity_score" ->
  exists (metrics : dict) (health quality loyalty favorability : Z),
    calculate_ai_enhanced_metrics channel_data engagement_metrics
      content_analysis performance_metrics = Ok metrics /\
    validate_ai_metrics metrics = Ok true /\
    metrics !! "channel_health_score" = Some (PInt health) /\
    metrics !! "content_quality_score" = Some (PInt quality) /\
    metrics !! "audience_loyalty_score" = Some (PInt loyalty) /\
    metrics !! "algorithm_favorability" = Some (PInt favorability) /\
    0 <= health <= 100 /\ 0 <= quality <= 100 /\
    0 <= loyalty <= 100 /\ 0 <= favorability <= 100.
Proof.
  intros Hs Hr Ht Hc Hd.
  destruct (ai_metrics_shape channel_data engagement_metrics content_analysis
              performance_metrics Hs Hr Ht Hc Hd)
    as (health & quality & loyalty & favorability & viral & growth & tier
        & engagement & -> & Hh & Hq & Hl & Hf & Hg).
  pose proof (py_round_between 0 100 health Hh) as Hh'.
  pose proof (py_round_between 0 100 quality Hq) as Hq'.
  pose proof (py_round_between 0 100 loyalty Hl) as Hl'.
  pose proof (py_round_between 0 100 favorability Hf) as Hf'.
  eexists _, _, _, _, _. split; [reflexivity|].
  split; [|by repeat (split; [reflexivity|])].
  unfold validate_ai_metrics, in_score_range.
  change (forallb _ required_fields) with true. cbv iota.
  change (get _ "channel_health_score" (PInt 0)) with (PInt (py_round health)).
  change (get _ "content_quality_score" (PInt 0)) with (PInt (py_round quality)).
  change (get _ "growth_potential" PNone) with (PStr growth).
  cbn [as_num mbind exc_bind mret exc_ret].
  rewrite !bool_decide_eq_true_2 by (apply IZR_le; lia).
  cbn [andb negb]. f_equal.
  unfold valid_growth in *. set_unfold in Hg.
  destruct Hg as [->|[->|[->|[->|[->|[]]]]]]; reflexivity.
Qed.

Lemma composite_metrics_pass_validation_witness :
  exists metrics : dict,
    calculate_ai_enhanced_metrics
      (list_to_map [("subscribers", PInt 5000)])
      (list_to_map [("avg_engagement_rate", PFloat 5);
                    ("top_performing_video_views", PInt 20000)])
      ∅ ∅ = Ok metrics /\
    validate_ai_metrics metrics = Ok true.
Proof.
  destruct (composite_metrics_pass_validation
    (list_to_map [("subscribers", PInt 5000)])
    (list_to_map [("avg_engagement_rate", PFloat 5);
                  ("top_performing_video_views", PInt 20000)])
    ∅ ∅) as (metrics & _ & _ & _ & _ & H1 & H2 & _).
  - exact I.
  - exists 5%R. split; [reflexivity | lra].
  - exists 20000%R. split; [reflexivity | lra].
  - exists 0%R. split; [reflexivity | lra].
  - exists 0%R. split; [reflexivity | lra].
  - by exists metrics.
Defined.

(** ** Growth prediction *)

Section GrowthFacts.
#[local] Open Scope R_scope.

Lemma py_round_half_up (a : Z) (x : R) :
  IZR a - 1/2 < x -> (a <= py_round x)%Z.
Proof.
  intros H. pose proof (floor_bounds x) as [Hf1 Hf2].
  assert (Hfl : (a - 1 <= floor x)%Z).
  { apply floor_ge. rewrite minus_IZR. lra. }
  unfold py_round.
  destruct (Z.eq_dec (floor x) (a - 1)%Z) as [E|]; [|repeat case_match; lia].
  rewrite E in *. rewrite minus_IZR in *.
  destruct (Rlt_dec _ _); [lra|]. destruct (Rgt_dec _ _); [lia | lra].
Qed.

Lemma base_growth_range (subs : R) : 3/10 <= base_growth subs <= 4.
Proof. unfold base_growth. repeat destruct (decide _); lra. Qed.

Lemma viral_multiplier_range (viral : R) : 1 <= viral_multiplier viral <= 15/10.
Proof. unfold viral_multiplier. repeat destruct (decide _); lra. Qed.

Lemma growth_multiplier_range (growth_potential : pyval) (m : R) :
  growth_multiplier growth_potential = Ok m -> 3/10 <= m <= 18/10.
Proof.
  unfold growth_multiplier.
  destruct growth_potential; try discriminate; intros [= <-];
    repeat case_match; lra.
Qed.

Lemma growth_multiplier_total (growth_potential : pyval) :
  is_text growth_potential -> exists m, growth_multiplier growth_potential = Ok m.
Proof. destruct growth_potential; try done. intros _. by eexists. Qed.

Lemma monthly_rate_range (b m v : R) :
  3/10 <= b <= 4 -> 3/10 <= m <= 18/10 -> 1 <= v <= 15/10 ->
  9/100 <= b * m * v <= 108/10.
Proof.
  intros Hb Hm Hv.
  assert (9/100 <= b * m <= 72/10) by nra. nra.
Qed.

Lemma growth_drivers_spec (ai_metrics engagement_metrics : dict)
    (health rate consistency quality : R) :
  as_num (get ai_metrics "channel_health_score" (PInt 0)) = Ok health ->
  as_num (get engagement_metrics "avg_engagement_rate" (PInt 0)) = Ok rate ->
  as_num (get engagement_metrics "performance_consistency" (PInt 0))
    = Ok consistency ->
  as_num (get ai_metrics "content_quality_score" (PInt 0)) = Ok quality ->
  identify_growth_drivers ai_metrics engagement_metrics
  = Ok (take 3
      match (if decide (health >= 70) then ["Strong channel health"] else [])
            ++ (if decide (rate >= 6) then ["High engagement rate"] else [])
            ++ (if decide (consistency >= 70) then ["Consistent performance"] else [])
            ++ (if decide (quality >= 75) then ["Quality content"] else [])
      with
      | [] => ["Foundation building phase"]
      | drivers => drivers
      end)%list.
Proof.
  intros Eh Er Ec Eq. unfold identify_growth_drivers.
  rewrite Eh, Er, Ec, Eq. cbn [mbind exc_bind mret exc_ret].
  by repeat destruct (decide _).
Qed.

End GrowthFacts.

(** X14.  A growth prediction never shows a channel that stagnates or
    shrinks, and its 15 percent cap is never reached: for a channel with a
    subscriber count that is not negative and metrics that are numbers, the
    predicted monthly rate lies between 0.1 and 10.8 percent, the projected
    subscribers do not decrease from now to three, six and twelve months,
    and the confidence is at most 0.9. *)
Theorem growth_prediction_positive_and_ordered
    (channel_data ai_metrics engagement_metrics : dict) (subscribers : Z) :
  get channel_data "subscribers" (PInt 0) = PInt subscribers ->
  0 <= subscribers ->
  number_field ai_metrics "channel_health_score" ->
  number_field ai_metrics "content_quality_score" ->
  number_field ai_metrics "viral_ratio" ->
  is_text (get ai_metrics "growth_potential" (PStr "Unknown")) ->
  number_field engagement_metrics "avg_engagement_rate" ->
  number_field engagement_metrics "performance_consistency" ->
  exists (predictions : dict) (rate confidence : R) (p3 p6 p12 : Z),
    predict_growth_enhanced channel_data ai_metrics engagement_metrics
      = Ok predictions /\
    predictions !! "predicted_monthly_growth_rate" = Some (PFloat rate) /\
    predictions !! "predicted_3month_subs" = Some (PInt p3) /\
    predictions !! "predicted_6month_subs" = Some (PInt p6) /\
    predictions !! "predicted_12month_subs" = Some (PInt p12) /\
    predictions !! "confidence" = Some (PFloat confidence) /\
    (1/10 <= rate <= 108/10)%R /\
    subscribers <= p3 /\ p3 <= p6 /\ p6 <= p12 /\
    (confidence <= 9/10)%R.
Proof.
  intros Es Hs [health Eh]%number_field_num [quality Eq]%number_field_num
         [viral Ev]%number_field_num [mult Em]%growth_multiplier_total
         [rate Er]%number_field_num [cons Ec]%number_field_num.
  pose proof (growth_drivers_spec ai_metrics engagement_metrics health rate cons
                quality Eh Er Ec Eq) as Hd.
  unfold predict_growth_enhanced.
  rewrite Es, Em, Ev, Er, Eh, Hd. cbn [as_num mbind exc_bind mret exc_ret].
  pose proof (monthly_rate_range _ _ _ (base_growth_range (IZR subscribers))
                (growth_multiplier_range _ _ Em) (viral_multiplier_range viral))
    as Hm.
  set (monthly := (base_growth (IZR subscribers) * mult * viral_multiplier viral)%R)
    in *.
  assert (Hfinal : exists final : R,
    (if decide (rate > 3)%R
     then as_num (get engagement_metrics "performance_consistency" (PInt 0))
          ≫= (fun c => mret (if decide (c > 50)%R then Rmax monthly (5 / 10)
                             else monthly))
     else mret monthly) = Ok final /\ (9/100 <= final <= 108/10)%R).
  { destruct (decide (rate > 3)%R); [|by exists monthly].
    rewrite Ec. cbn [mbind exc_bind].
    destruct (decide (cons > 50)%R); [|by exists monthly].
    eexists. split; [reflexivity|]. unfold Rmax. destruct (Rle_dec _ _); lra. }
  destruct Hfinal as (final & -> & Hf). cbn [mbind exc_bind].
  assert (Hcap : Rmin final 15 = final).
  { unfold Rmin. destruct (Rle_dec _ _); lra. }
  rewrite !Hcap. rewrite !decide_True by lra.
  eexists _, _, _, _, _, _. split; [reflexivity|].
  do 5 (split; [reflexivity|]).
  set (q := (1 + final / 100)%R).
  assert (Hq : (1 <= q)%R) by (unfold q; lra).
  assert (Hz : (0 <= IZR subscribers)%R) by (by apply IZR_le).
  split; [|split; [|split; [|split]]].
  - unfold round_to. simpl pow. rewrite Rmult_1_r. split.
    + assert (1 <= py_round (final * 10))%Z by (apply py_round_half_up; lra).
      apply IZR_le in H. lra.
    + assert (py_round (final * 10) <= 108)%Z by (apply py_round_le; lra).
      apply IZR_le in H. lra.
  - apply py_int_ge. pose proof (pow_R1_Rle q 3 Hq). nra.
  - apply py_int_mono. apply Rmult_le_compat_l; [done|].
    apply Rle_pow; [done | lia].
  - apply py_int_mono. apply Rmult_le_compat_l; [done|].
    apply Rle_pow; [done | lia].
  - apply Rmin_r.
Qed.

Lemma growth_prediction_positive_and_ordered_witness :
  exists (predictions : dict) (p3 : Z),
    predict_growth_enhanced (list_to_map [("subscribers", PInt 5000)])
      (list_to_map [("growth_potential", PStr "High")]) ∅ = Ok predictions /\
    predictions !! "predicted_3month_subs" = Some (PInt p3) /\ 5000 <= p3.
Proof.
  destruct (growth_prediction_positive_and_ordered
    (list_to_map [("subscribers", PInt 5000)])
    (list_to_map [("growth_potential", PStr "High")]) ∅ 5000)
    as (predictions & rate & confidence & p3 & p6 & p12 & H & _ & H3 & _ & _ & _
        & _ & Hp & _); try exact I; try reflexivity; try lia.
  by exists predictions, p3.
Defined.

(** X15.  The growth drivers are between one and three labels: the
    placeholder label stands alone, exactly when no threshold is met, and
    when health, engagement and consistency all meet theirs the quality of
    the content is not reported, whatever it is. *)
Theorem growth_drivers_between_one_and_three
    (ai_metrics engagement_metrics : dict) :
  number_field ai_metrics "channel_health_score" ->
  number_field ai_metrics "content_quality_score" ->
  number_field engagement_metrics "avg_engagement_rate" ->
  number_field engagement_metrics "performance_consistency" ->
  exists (drivers : list string) (health rate consistency quality : R),
    identify_growth_drivers ai_metrics engagement_metrics = Ok drivers /\
    as_num (get ai_metrics "channel_health_score" (PInt 0)) = Ok health /\
    as_num (get engagement_metrics "avg_engagement_rate" (PInt 0)) = Ok rate /\
    as_num (get engagement_metrics "performance_consistency" (PInt 0))
      = Ok consistency /\
    as_num (get ai_metrics "content_quality_score" (PInt 0)) = Ok quality /\
    (1 <= length drivers <= 3)%nat /\
    ("Foundation building phase" ∈ drivers <->
       (health < 70 /\ rate < 6 /\ consistency < 70 /\ quality < 75)%R) /\
    ("Foundation building phase" ∈ drivers ->
       drivers = ["Foundation building phase"]) /\
    ((health >= 70 /\ rate >= 6 /\ consistency >= 70)%R ->
       drivers = ["Strong channel health"; "High engagement rate";
                  "Consistent performance"]).
Proof.
  intros [health Eh]%number_field_num [quality Eq]%number_field_num
         [rate Er]%number_field_num [cons Ec]%number_field_num.
  eexists _, health, rate, cons, quality.
  split; [by apply growth_drivers_spec|]. do 4 (split; [done|]).
  destruct (decide (health >= 70)%R), (decide (rate >= 6)%R),
    (decide (cons >= 70)%R), (decide (quality >= 75)%R); simpl;
    (split; [lia|]); (split; [|split]).
  all: try (split;
    [ intros HF; first [ by (repeat split; lra)
                       | exfalso; set_unfold; naive_solver ]
    | intros (? & ? & ? & ?); first [ exfalso; lra | set_solver ] ]).
  all: try (intros HF; first [ done | exfalso; set_unfold; naive_solver ]).
  all: intros (? & ? & ?); first [ done | exfalso; lra ].
Qed.

Lemma growth_drivers_between_one_and_three_witness :
  exists drivers : list string,
    identify_growth_drivers ∅ ∅ = Ok drivers /\
    (1 <= length drivers <= 3)%nat.
Proof.
  destruct (growth_drivers_between_one_and_three ∅ ∅)
    as (drivers & h & r & c & q & H & _ & _ & _ & _ & Hl & _); try exact I.
  by exists drivers.
Defined.

(** ** Audience demographics *)

Section DemographicsFacts.

Lemma fromkeys_fold (l seen : list string) :
  NoDup seen ->
  NoDup (foldl (fun (seen : list string) (x : string) =>
                  if decide (x ∈ seen) then seen else (seen ++ [x])%list)
               seen l).
Proof.
  revert seen. induction l as [|x l IH]; intros seen H; simpl; [done|].
  apply IH. destruct (decide (x ∈ seen)); [done|].
  apply NoDup_app. split; [done|]. split; [|apply NoDup_singleton].
  by intros y Hy ->%list_elem_of_singleton.
Qed.

Lemma fromkeys_NoDup (l : list string) : NoDup (fromkeys l).
Proof. apply fromkeys_fold, NoDup_nil_2. Qed.

Lemma take_NoDup {A} (n : nat) (l : list A) : NoDup l -> NoDup (take n l).
Proof. intros H. eapply sublist_NoDup; [exact H | apply sublist_take]. Qed.

End DemographicsFacts.

(** X16.  Whatever the categories of a channel are, the inferred
    demographics are well formed: the shares of the age groups, of the
    gender ratio and of the geographic distribution each add up to 100, and
    the interests are between one and five labels, none of them twice. *)
Theorem demographics_well_formed (channel_data : dict)
    (content_categories : Diversity.categories) :
  is_text (get channel_data "channel_title" (PStr "")) ->
  exists (demographics : dict) (interests : list string)
         (age_groups gender_ratio geographic_distribution : pyval),
    infer_demographics_enhanced channel_data content_categories
      = Ok demographics /\
    demographics !! "interests" = Some (PList (PStr <$> interests)) /\
    NoDup interests /\ (1 <= length interests <= 5)%nat /\
    demographics !! "age_groups" = Some age_groups /\
    demographics !! "gender_ratio" = Some gender_ratio /\
    demographics !! "geographic_distribution" = Some geographic_distribution /\
    shares_total age_groups = 100 /\ shares_total gender_ratio = 100 /\
    shares_total geographic_distribution = 100.
Proof.
  intros [title Et]%as_str_total. unfold infer_demographics_enhanced.
  rewrite Et. cbn [mbind exc_bind mret exc_ret].
  set (found := take 5 (fromkeys (flat_map interests_of content_categories.*1))).
  assert (Hfound : NoDup found /\ (length found <= 5)%nat).
  { split; [apply take_NoDup, fromkeys_NoDup|].
    unfold found. rewrite length_take. lia. }
  set (interests := match found with
                    | [] => ["Technology"; "Education"; "Entertainment"]
                    | _ => found
                    end).
  assert (Hi : NoDup interests /\ (1 <= length interests <= 5)%nat).
  { unfold interests. destruct found as [|i found'].
    - split; [by compute_done | simpl; lia].
    - split; [tauto | simpl in *; lia]. }
  clearbody interests. clear found Hfound.
  destruct (existsb _ ["gaming"; "tech"]);
    [|destruct (existsb _ ["educational"; "tutorial"])];
    (eexists _, interests, _, _, _; split; [reflexivity|];
     split; [apply lookup_insert_eq|]; split; [tauto|]; split; [tauto|];
     split; [reflexivity|]; split; [reflexivity|]; split; [reflexivity|];
     split; [|split]; vm_compute; reflexivity).
Qed.

Lemma demographics_well_formed_witness :
  exists (demographics : dict) (interests : list string),
    infer_demographics_enhanced
      (list_to_map [("channel_title", PStr "Retro Arcade")])
      [("gaming", 7%R); ("tech", 2%R)] = Ok demographics /\
    demographics !! "interests" = Some (PList (PStr <$> interests)) /\
    NoDup interests.
Proof.
  destruct (demographics_well_formed
    (list_to_map [("channel_title", PStr "Retro Arcade")])
    [("gaming", 7%R); ("tech", 2%R)])
    as (demographics & interests & a & g & d & H & Hi & Hn & _).
  - exact I.
  - by exists demographics, interests.
Defined.

(** ** Content gaps *)

Section GapFacts.
Variable lower : string -> string.

Lemma add_lower_text (channel_data : dict) :
  is_text (get channel_data "channel_description" (PStr "")) ->
  is_text (get channel_data "channel_title" (PStr "")) ->
  exists channel_desc,
    add_lower lower (get channel_data "channel_description" (PStr ""))
                    (get channel_data "channel_title" (PStr ""))
    = Ok channel_desc.
Proof.
  destruct (get channel_data "channel_description" _); try done.
  destruct (get channel_data "channel_title" _); try done.
  intros _ _. by eexists.
Qed.

Lemma gap_score_at_least_two (channel_data : dict) (main : string)
    (subs : list string) :
  is_text (get channel_data "channel_description" (PStr "")) ->
  is_text (get channel_data "channel_title" (PStr "")) ->
  (main, subs) ∈ all_categories ->
  exists score, gap_score lower subs channel_data = Ok score /\ (2 <= score)%nat.
Proof.
  intros Hd Ht Hin. destruct (add_lower_text channel_data Hd Ht) as [desc E].
  unfold all_categories in Hin. set_unfold in Hin.
  unfold gap_score, is_relevant_gap.
  repeat (destruct Hin as [[= -> ->]|Hin];
    [ cbn [mapM]; rewrite E; cbn [mbind exc_bind mret exc_ret fmap];
      cbn -[existsb filter length];
      repeat (destruct (existsb _ _));
      (eexists; split; [reflexivity|]; vm_compute; lia) |]).
  done.
Qed.

Lemma gaps_from_filter (channel_data : dict) (current : list string)
    (candidates : list (string * list string)) :
  (forall main subs, (main, subs) ∈ candidates ->
     exists score, gap_score lower subs channel_data = Ok score /\ (2 <= score)%nat) ->
  gaps_from lower candidates current channel_data
  = Ok (filter (fun main => main ∉ current) candidates.*1).
Proof.
  induction candidates as [|[main subs] candidates IH]; intros H; [done|].
  cbn [gaps_from]. rewrite fmap_cons, filter_cons. simpl fst.
  assert (IH' := IH (fun m s Hms => H m s (list_elem_of_further _ _ _ Hms))).
  destruct (decide (main ∈ current)) as [Hin|Hout].
  - rewrite decide_False by tauto. done.
  - rewrite decide_True by done.
    destruct (H main subs) as (score & -> & Hs); [left|].
    rewrite IH'. cbn [mbind exc_bind mret exc_ret].
    destruct (Nat.leb_spec 2 score); [done | lia].
Qed.

End GapFacts.

(** X17.  The content gaps do not depend on what the channel says of
    itself: every main category scores at least two relevant sub-categories
    whatever the description and the title are, so the gaps are the first
    four of the eight main categories, in their order, that are not among
    the categories of the channel. *)
Theorem content_gaps_ignore_channel_text (lower : string -> string)
    (categories : Diversity.categories) (channel_data : dict) :
  is_text (get channel_data "channel_description" (PStr "")) ->
  is_text (get channel_data "channel_title" (PStr "")) ->
  identify_content_gaps_ai lower categories channel_data
  = Ok (take 4 (filter (fun main => main ∉ categories.*1)
                  ["educational"; "entertainment"; "review"; "news"; "vlog";
                   "gaming"; "tech"; "creative"])).
Proof.
  intros Hd Ht. unfold identify_content_gaps_ai.
  rewrite (gaps_from_filter lower channel_data).
  - done.
  - intros main subs Hin.
    by apply (gap_score_at_least_two lower channel_data main).
Qed.

Lemma content_gaps_ignore_channel_text_witness :
  identify_content_gaps_ai (fun s => s) [("gaming", 3%R)]
    (list_to_map [("channel_description", PStr "We only ever talk about chess")])
  = Ok (take 4 (filter (fun main => main ∉ [("gaming", 3%R)].*1)
                  ["educational"; "entertainment"; "review"; "news"; "vlog";
                   "gaming"; "tech"; "creative"])).
Proof.
  apply (content_gaps_ignore_channel_text (fun s => s) [("gaming", 3%R)]
    (list_to_map [("channel_description", PStr "We only ever talk about chess")]));
    exact I.
Defined.

(** ** Unification of the data sources *)

Section UnifyFacts.
#[local] Open Scope R_scope.

Lemma getitem_dict (d : dict) (k : string) (section : dict) :
  getitem d k ≫= as_dict = Ok section <-> d !! k = Some (PDict section).
Proof.
  unfold getitem. destruct (d !! k) as [[]|]; simpl; naive_solver.
Qed.

Lemma unify_shape (analysis a' : dict) :
  unify_data_sources analysis = Ok a' ->
  exists (cm em : dict) (subs top : R),
    analysis !! "channel_metrics" = Some (PDict cm) /\
    analysis !! "engagement_metrics" = Some (PDict em) /\
    as_num (get cm "subscribers" (PInt 0)) = Ok subs /\
    as_num (get em "top_performing_video_views" (PInt 0)) = Ok top /\
    match analysis !! "ai_enhanced_metrics" with
    | None => a' = analysis
    | Some v =>
        exists ai scale,
          v = PDict ai /\ assess_channel_scale cm = Ok scale /\
          let ai1 := <["viral_ratio" := PFloat (round_to (top / Rmax subs 1) 1)]> ai in
          (a' = <["ai_enhanced_metrics" := PDict ai1]> analysis \/
           exists rate health,
             (scale = "nano" \/ scale = "micro") /\
             as_num (get em "avg_engagement_rate" (PInt 0)) = Ok rate /\
             rate < 3 /\
             as_num (get ai1 "channel_health_score" (PInt 0)) = Ok health /\
             health > 70 /\
             a' = <["ai_enhanced_metrics" :=
                      PDict (<["channel_health_score" :=
                                 PFloat (Rmax 30 (Rmin 60 health))]> ai1)]> analysis) /\
          ((scale = "nano" \/ scale = "micro") ->
           forall rate, as_num (get em "avg_engagement_rate" (PInt 0)) = Ok rate ->
           rate < 3 ->
           forall ai', a' !! "ai_enhanced_metrics" = Some (PDict ai') ->
           forall health, as_num (get ai' "channel_health_score" (PInt 0)) = Ok health ->
           health <= 70)
    end.
Proof.
  unfold unify_data_sources. intros H.
  destruct (getitem analysis "channel_metrics" ≫= as_dict) as [cm|] eqn:Ecm;
    [|done]. apply getitem_dict in Ecm.
  cbn [mbind exc_bind] in H.
  destruct (getitem analysis "engagement_metrics" ≫= as_dict) as [em|] eqn:Eem;
    [|done]. apply getitem_dict in Eem.
  cbn [mbind exc_bind] in H.
  destruct (as_num (get cm "subscribers" (PInt 0))) as [subs|] eqn:Es; [|done].
  cbn [mbind exc_bind] in H.
  destruct (as_num (get em "top_performing_video_views" (PInt 0))) as [top|] eqn:Et;
    [|done].
  cbn [mbind exc_bind] in H.
  exists cm, em, subs, top. do 4 (split; [done|]).
  destruct (analysis !! "ai_enhanced_metrics") as [v|]; [|by injection H].
  destruct (as_dict v) as [ai|] eqn:Eai; [|done].
  destruct v; try done. injection Eai as ->.
  cbn [mbind exc_bind] in H.
  destruct (assess_channel_scale cm) as [scale|] eqn:Esc; [|done].
  cbn [mbind exc_bind] in H.
  exists ai, scale. split; [done|]. split; [done|].
  set (ai1 := <["viral_ratio" := PFloat (round_to (top / Rmax subs 1) 1)]> ai) in *.
  cbv zeta.
  destruct (bool_decide (scale = "nano") || bool_decide (scale = "micro")) eqn:Eb.
  - apply orb_prop in Eb.
    assert (Hsc : scale = "nano" \/ scale = "micro").
    { destruct Eb as [Eb|Eb]; apply bool_decide_eq_true_1 in Eb; tauto. }
    destruct (as_num (get em "avg_engagement_rate" (PInt 0))) as [rate|] eqn:Er;
      [|done].
    cbn [mbind exc_bind] in H.
    destruct (decide (rate < 3)) as [Hr|Hr].
    + destruct (as_num (get ai1 "channel_health_score" (PInt 0))) as [health|] eqn:Eh;
        [|done].
      cbn [mbind exc_bind] in H.
      destruct (decide (health > 70)) as [Hh|Hh]; injection H as <-.
      * split.
        { right. by exists rate, health. }
        intros _ rate' [= <-] _ ai' Ha health' Eh'.
        rewrite lookup_insert_eq in Ha. injection Ha as <-.
        unfold get in Eh'. rewrite lookup_insert_eq in Eh'. simpl in Eh'.
        injection Eh' as <-. unfold Rmax, Rmin.
        repeat destruct (Rle_dec _ _); lra.
      * split; [by left|].
        intros _ rate' [= <-] _ ai' Ha health' Eh'.
        rewrite lookup_insert_eq in Ha. injection Ha as <-.
        rewrite Eh in Eh'. injection Eh' as <-. lra.
    + injection H as <-. split; [by left|].
      intros _ rate' [= <-] Hlt. lra.
  - injection H as <-. split; [by left|].
    intros [->| ->]; simpl in Eb; discriminate.
Qed.

End UnifyFacts.

(** X18.  Unifying the data sources touches nothing but the composite
    metrics, where it rewrites the viral ratio and at most the health score;
    and a channel below 10,000 subscribers whose engagement rate is below 3
    leaves it with a health score of at most 70. *)
Theorem unify_caps_small_channel_health (analysis unified : dict) :
  unify_data_sources analysis = Ok unified ->
  (forall k, k <> "ai_enhanced_metrics" -> unified !! k = analysis !! k) /\
  (analysis !! "ai_enhanced_metrics" = None -> unified = analysis) /\
  (forall ai, analysis !! "ai_enhanced_metrics" = Some (PDict ai) ->
     exists ai' viral,
       unified !! "ai_enhanced_metrics" = Some (PDict ai') /\
       ai' !! "viral_ratio" = Some (PFloat viral) /\
       forall k, k <> "viral_ratio" -> k <> "channel_health_score" ->
                 ai' !! k = ai !! k) /\
  (forall (cm em ai' : dict) (subs rate health : R),
     analysis !! "channel_metrics" = Some (PDict cm) ->
     analysis !! "engagement_metrics" = Some (PDict em) ->
     as_num (get cm "subscribers" (PInt 0)) = Ok subs -> (subs < 10000)%R ->
     as_num (get em "avg_engagement_rate" (PInt 0)) = Ok rate -> (rate < 3)%R ->
     unified !! "ai_enhanced_metrics" = Some (PDict ai') ->
     as_num (get ai' "channel_health_score" (PInt 0)) = Ok health ->
     (health <= 70)%R).
Proof.
  intros H. apply unify_shape in H
    as (cm & em & subs & top & Ecm & Eem & Es & Et & H).
  destruct (analysis !! "ai_enhanced_metrics") as [v|] eqn:Ev.
  - destruct H as (ai & scale & -> & Esc & Ha & Hcap).
    split; [|split; [done|split]].
    + intros k Hk.
      destruct Ha as [->|(rate & health & _ & _ & _ & _ & _ & ->)];
        by rewrite lookup_insert_ne.
    + intros ai0 [= <-].
      destruct Ha as [->|(rate & health & _ & _ & _ & _ & _ & ->)];
        rewrite lookup_insert_eq; eexists _, _; (split; [done|]).
      * split; [apply lookup_insert_eq|]. intros k Hk _.
        by rewrite lookup_insert_ne.
      * split; [by rewrite lookup_insert_ne, lookup_insert_eq|].
        intros k Hk Hk'. by rewrite !lookup_insert_ne.
    + intros cm' em' ai' subs' rate health Hcm Hem Es' Hsubs Er Hr Hai Eh.
      rewrite Ecm in Hcm. injection Hcm as <-.
      rewrite Eem in Hem. injection Hem as <-.
      rewrite Es in Es'. injection Es' as <-.
      apply (Hcap) with (rate := rate) (ai' := ai'); try done.
      unfold assess_channel_scale in Esc. rewrite Es in Esc.
      cbn [mbind exc_bind mret exc_ret] in Esc. injection Esc as <-.
      repeat destruct (Rge_dec _ _); try lra; tauto.
  - subst unified. split; [done|]. split; [done|]. split; [done|].
    intros cm' em' ai' subs' rate health _ _ _ _ _ _ Hai. by rewrite Ev in Hai.
Qed.

Lemma unify_caps_small_channel_health_witness :
  let ai : dict := list_to_map [("channel_health_score", PInt 90)] in
  let analysis : dict :=
    list_to_map [("channel_metrics", PDict (list_to_map [("subscribers", PInt 800)]));
                 ("engagement_metrics",
                    PDict (list_to_map [("avg_engagement_rate", PInt 1)]));
                 ("ai_enhanced_metrics", PDict ai)] in
  exists (unified ai' : dict) (health : R),
    unify_data_sources analysis = Ok unified /\
    unified !! "ai_enhanced_metrics" = Some (PDict ai') /\
    as_num (get ai' "channel_health_score" (PInt 0)) = Ok health /\
    (health <= 70)%R.
Proof.
  intros ai analysis.
  assert (E : unify_data_sources analysis
    = Ok (<["ai_enhanced_metrics" :=
             PDict (<["channel_health_score" := PFloat (Rmax 30 (Rmin 60 90))]>
                      (<["viral_ratio" := PFloat (round_to (0 / Rmax 800 1) 1)]> ai))]>
            analysis)).
  { unfold unify_data_sources, assess_channel_scale.
    change (getitem analysis "channel_metrics" ≫= as_dict)
      with (Ok (list_to_map [("subscribers", PInt 800)]) : exc dict).
    change (getitem analysis "engagement_metrics" ≫= as_dict)
      with (Ok (list_to_map [("avg_engagement_rate", PInt 1)]) : exc dict).
    cbn [mbind exc_bind mret exc_ret].
    change (get _ "subscribers" (PInt 0)) with (PInt 800).
    change (get _ "top_performing_video_views" (PInt 0)) with (PInt 0).
    change (get _ "avg_engagement_rate" (PInt 0)) with (PInt 1).
    cbn [as_num mbind exc_bind mret exc_ret].
    change (analysis !! "ai_enhanced_metrics") with (Some (PDict ai)).
    cbn [as_dict mbind exc_bind mret exc_ret].
    repeat (destruct (Rge_dec _ _); [lra|]).
    cbn [mbind exc_bind mret exc_ret].
    rewrite (bool_decide_eq_true_2 ("nano" = "nano")) by done. cbn [orb].
    rewrite (decide_True (P := (1 < 3)%R)) by lra.
    change (get _ "channel_health_score" (PInt 0)) with (PInt 90).
    cbn [as_num mbind exc_bind mret exc_ret].
    rewrite (decide_True (P := (90 > 70)%R)) by lra. reflexivity. }
  eexists _, _, _. split; [exact E|]. split; [apply lookup_insert_eq|].
  split; [reflexivity|].
  apply (proj2 (proj2 (proj2 (unify_caps_small_channel_health analysis _ E)))
           (list_to_map [("subscribers", PInt 800)])
           (list_to_map [("avg_engagement_rate", PInt 1)])
           (<["channel_health_score" := PFloat (Rmax 30 (Rmin 60 90))]>
              (<["viral_ratio" := PFloat (round_to (0 / Rmax 800 1) 1)]> ai))
           800%R 1%R); try reflexivity; try lra.
Defined.

(** ** The cache row *)

Import Cache.

Section CacheFacts.
Variable fromisoformat : string -> option pyval.
Variable now : pyval.

Lemma set_attrs_lookup (section : dict) (fields : list (string * string * pyval))
    (row : dict) (attr : string) :
  set_attrs section fields row !! attr
  = match assigned attr fields with
    | Some (key, dflt) => Some (get section key dflt)
    | None => row !! attr
    end.
Proof.
  unfold set_attrs. revert row.
  induction fields as [|[[attr' key] dflt] fields IH]; intros row; [done|].
  cbn [foldl assigned]. rewrite IH.
  destruct (assigned attr fields) as [[key' dflt']|]; [done|].
  destruct (String.eqb_spec attr attr') as [->|Hne].
  - apply lookup_insert_eq.
  - by apply lookup_insert_ne.
Qed.

Lemma set_published_at_lookup (channel_metrics row : dict) (attr : string) :
  attr <> "channel_published_at" ->
  set_published_at fromisoformat channel_metrics row !! attr = row !! attr.
Proof.
  intros Hne. unfold set_published_at.
  destruct (decide _); [|done]. by apply lookup_insert_ne.
Qed.

Lemma populate_sections (row analysis cm em pm ai ca dm : dict) :
  analysis !! "channel_metrics" = Some (PDict cm) ->
  analysis !! "engagement_metrics" = Some (PDict em) ->
  analysis !! "performance_metrics" = Some (PDict pm) ->
  analysis !! "ai_enhanced_metrics" = Some (PDict ai) ->
  analysis !! "content_analysis" = Some (PDict ca) ->
  analysis !! "demographics" = Some (PDict dm) ->
  populate_snapshot_data fromisoformat now row analysis
  = <["analysis_timestamp" := now]>
      (<["data_source" := get analysis "data_source" (PStr "unknown")]>
      (<["videos_analyzed" := get em "videos_analyzed" (PInt 0)]>
      (set_attrs analysis insight_fields
      (set_attrs dm demographic_fields
      (set_attrs ca content_fields
      (set_attrs ai ai_fields
      (set_attrs pm performance_fields
      (set_attrs em engagement_fields
      (set_published_at fromisoformat cm
      (set_attrs cm channel_fields row)))))))))).
Proof.
  intros Hcm Hem Hpm Hai Hca Hdm. unfold populate_snapshot_data, getitem, get.
  by rewrite Hcm, Hem, Hpm, Hai, Hca, Hdm.
Qed.

Lemma restored (section : dict) (key : string) (dflt : pyval) :
  dflt <> PNone ->
  match get section key dflt with PNone => dflt | _ => get section key dflt end
  = safe_get_attr section key dflt.
Proof.
  intros Hd. unfold get, safe_get_attr.
  destruct (section !! key) as [[]|]; simpl; try done. by destruct dflt.
Qed.

Lemma safe_get_attr_written (row : dict) (attr : string) (v dflt : pyval) :
  row !! attr = Some v ->
  safe_get_attr row attr dflt = match v with PNone => dflt | _ => v end.
Proof. intros E. unfold safe_get_attr. rewrite E. by destruct v. Qed.

End CacheFacts.

(** The lookup of an attribute in a populated row. *)
Ltac row_lookup :=
  rewrite ?lookup_insert_ne by done; rewrite ?lookup_insert_eq;
  repeat (rewrite set_attrs_lookup; cbn [assigned String.eqb Ascii.eqb Bool.eqb
            channel_fields engagement_fields performance_fields ai_fields
            content_fields demographic_fields insight_fields]);
  rewrite ?set_published_at_lookup by done;
  repeat (rewrite set_attrs_lookup; cbn [assigned String.eqb Ascii.eqb Bool.eqb
            channel_fields engagement_fields performance_fields ai_fields
            content_fields demographic_fields insight_fields]).

(** X19.  What a cached analysis keeps of the analysis that was saved.  When
    the row written from an analysis is converted back, the data source is
    the cache tag; fifteen engagement metrics come back as saved (a missing
    or null one as its default); the recent views are replaced by the total
    views of the channel; the composite metrics keep four fields only, so
    the viral ratio and the other scores are gone; and the content analysis
    reports the optimal length of the performance metrics and the number of
    videos of the engagement metrics. *)
Theorem cached_analysis_after_save (fromisoformat : string -> option pyval)
    (now : pyval) (row analysis cm em pm ai ca dm : dict) :
  is_Some (row !! "id") ->
  analysis !! "channel_metrics" = Some (PDict cm) ->
  analysis !! "engagement_metrics" = Some (PDict em) ->
  analysis !! "performance_metrics" = Some (PDict pm) ->
  analysis !! "ai_enhanced_metrics" = Some (PDict ai) ->
  analysis !! "content_analysis" = Some (PDict ca) ->
  analysis !! "demographics" = Some (PDict dm) ->
  let cached :=
    convert_snapshot_to_analysis
      (populate_snapshot_data fromisoformat now row analysis) in
  exists em' ai' ca' : dict,
    cached !! "engagement_metrics" = Some (PDict em') /\
    cached !! "ai_enhanced_metrics" = Some (PDict ai') /\
    cached !! "content_analysis" = Some (PDict ca') /\
    cached !! "data_source" = Some (PStr "cached_7day") /\
    Forall (fun '(key, dflt) => em' !! key = Some (safe_get_attr em key dflt))
           kept_engagement_fields /\
    em' !! "total_recent_views" = Some (safe_get_attr cm "total_views" (PInt 0)) /\
    (forall k, k ∉ ["channel_health_score"; "performance_tier";
                    "growth_potential"; "content_quality_score"] ->
               ai' !! k = None) /\
    ca' !! "optimal_video_length"
      = Some (safe_get_attr pm "optimal_video_length" (PStr "Unknown")) /\
    ca' !! "total_videos_analyzed"
      = Some (safe_get_attr em "videos_analyzed" (PInt 0)).
Proof.
  intros [id Hid] Hcm Hem Hpm Hai Hca Hdm cached. subst cached.
  rewrite (populate_sections fromisoformat now row analysis cm em pm ai ca dm)
    by done.
  set (saved := <["analysis_timestamp" := now]> _).
  assert (Hrow : forall attr key dflt,
    saved !! attr = Some (get em key dflt) -> dflt <> PNone ->
    safe_get_attr saved attr dflt = safe_get_attr em key dflt).
  { intros attr key dflt E Hd.
    rewrite (safe_get_attr_written saved attr _ dflt E). by apply restored. }
  unfold convert_snapshot_to_analysis.
  assert (Hsid : saved !! "id" = Some id).
  { unfold saved. row_lookup. done. }
  rewrite Hsid.
  eexists _, _, _. split; [reflexivity|]. split; [reflexivity|].
  split; [reflexivity|]. split; [reflexivity|].
  split; [|split; [|split; [|split]]].
  - unfold kept_engagement_fields.
    repeat (constructor;
      [ match goal with
        | |- list_to_map _ !! ?key = Some (safe_get_attr em ?key' ?dflt) =>
            transitivity (Some (safe_get_attr saved
              match key with
              | "total_recent_likes" => "total_likes"
              | "total_recent_comments" => "total_comments"
              | _ => key
              end dflt)); [reflexivity|];
            f_equal; apply Hrow; [unfold saved; row_lookup; reflexivity | done]
        end |]).
    constructor.
  - transitivity (Some (safe_get_attr saved "total_views" (PInt 0)));
      [reflexivity|]. f_equal.
    rewrite (safe_get_attr_written saved "total_views"
               (get cm "total_views" (PInt 0)) (PInt 0)).
    + by apply restored.
    + unfold saved. row_lookup. reflexivity.
  - intros k Hk. apply not_elem_of_list_to_map_1.
    cbn [fmap list_fmap fst]. set_solver.
  - transitivity (Some (safe_get_attr saved "optimal_video_length" (PStr "Unknown")));
      [reflexivity|]. f_equal.
    rewrite (safe_get_attr_written saved "optimal_video_length"
               (get pm "optimal_video_length" (PStr "Unknown")) (PStr "Unknown")).
    + by apply restored.
    + unfold saved. row_lookup. reflexivity.
  - transitivity (Some (safe_get_attr saved "videos_analyzed" (PInt 0)));
      [reflexivity|]. f_equal. apply Hrow; [|done].
    unfold saved. row_lookup. reflexivity.
Qed.

Lemma cached_analysis_after_save_witness :
  let analysis : dict :=
    list_to_map [
      ("channel_metrics", PDict (list_to_map [("total_views", PInt 123456)]));
      ("engagement_metrics", PDict (list_to_map [("total_recent_views", PInt 999)]));
      ("performance_metrics", PDict ∅);
      ("ai_enhanced_metrics", PDict (list_to_map [("viral_ratio", PFloat 2)]));
      ("content_analysis", PDict ∅);
      ("demographics", PDict ∅) ] in
  exists em' : dict,
    convert_snapshot_to_analysis
      (populate_snapshot_data (fun _ => None) PNone
         (list_to_map [("id", PInt 1)]) analysis)
      !! "engagement_metrics" = Some (PDict em') /\
    em' !! "total_recent_views"
      = Some (safe_get_attr (list_to_map [("total_views", PInt 123456)])
                "total_views" (PInt 0)).
Proof.
  intros analysis.
  destruct (cached_analysis_after_save (fun _ => None) PNone
    (list_to_map [("id", PInt 1)]) analysis
    (list_to_map [("total_views", PInt 123456)])
    (list_to_map [("total_recent_views", PInt 999)])
    ∅ (list_to_map [("viral_ratio", PFloat 2)]) ∅ ∅)
    as (em' & ai' & ca' & H1 & _ & _ & _ & _ & H2 & _);
    try reflexivity.
  - by eexists.
  - by exists em'.
Defined.

(** ** The flat view *)

Section FlatFacts.

Lemma is_dict_as_dict (v : pyval) : is_dict v -> exists d, as_dict v = Ok d.
Proof. destruct v; try done. intros _. by eexists. Qed.

End FlatFacts.

(** X20.  The flat view of an analysis always has the same forty-two keys:
    when the five sections it reads are dictionaries or are missing, the
    flattening returns and a key is present exactly when it is one of the
    keys of the view, whatever the analysis holds. *)
Theorem flat_view_has_fixed_keys (analysis : dict) :
  is_dict (get analysis "channel_metrics" (PDict ∅)) ->
  is_dict (get analysis "engagement_metrics" (PDict ∅)) ->
  is_dict (get analysis "performance_metrics" (PDict ∅)) ->
  is_dict (get analysis "ai_enhanced_metrics" (PDict ∅)) ->
  is_dict (get analysis "content_analysis" (PDict ∅)) ->
  exists flattened : dict,
    flatten_youtube_data analysis = Ok flattened /\
    (forall k, is_Some (flattened !! k) <-> k ∈ flat_keys) /\
    NoDup flat_keys /\ length flat_keys = 42%nat.
Proof.
  intros [cm Ecm]%is_dict_as_dict [em Eem]%is_dict_as_dict
         [pm Epm]%is_dict_as_dict [ai Eai]%is_dict_as_dict
         [ca Eca]%is_dict_as_dict.
  unfold flatten_youtube_data. rewrite Ecm, Eem, Epm, Eai, Eca.
  cbn [mbind exc_bind mret exc_ret].
  eexists. split; [reflexivity|]. split; [|split; [by compute_done | done]].
  intros k. rewrite <- elem_of_dom, dom_list_to_map_L, elem_of_list_to_set.
  done.
Qed.

Lemma flat_view_has_fixed_keys_witness :
  exists flattened : dict,
    flatten_youtube_data
      (list_to_map [("channel_metrics",
                       PDict (list_to_map [("subscribers", PInt 1200)]))])
    = Ok flattened /\
    is_Some (flattened !! "audience_loyalty_score").
Proof.
  destruct (flat_view_has_fixed_keys
    (list_to_map [("channel_metrics",
                     PDict (list_to_map [("subscribers", PInt 1200)]))]))
    as (flattened & H & Hk & _); try exact I.
  exists flattened. split; [done|]. apply Hk. by compute_done.
Defined.

(** X21.  A cached analysis is displayed without its loyalty and algorithm
    scores: the flat view of a converted row has the cache tag as data
    source, the health score and the engagement rate of the row, and 0 for
    the audience loyalty and the algorithm favorability, which the row does
    not keep. *)
Theorem flat_view_of_cached_analysis (row : dict) :
  is_Some (row !! "id") ->
  exists flattened : dict,
    flatten_youtube_data (convert_snapshot_to_analysis row) = Ok flattened /\
    flattened !! "data_source" = Some (PStr "cached_7day") /\
    flattened !! "channel_health"
      = Some (safe_get_attr row "channel_health_score" (PInt 0)) /\
    flattened !! "engagement_rate"
      = Some (safe_get_attr row "avg_engagement_rate" (PInt 0)) /\
    flattened !! "audience_loyalty_score" = Some (PInt 0) /\
    flattened !! "algorithm_favorability" = Some (PInt 0).
Proof.
  intros [id Hid]. unfold convert_snapshot_to_analysis. rewrite Hid.
  eexists. split; [reflexivity|]. by repeat split.
Qed.

Lemma flat_view_of_cached_analysis_witness :
  exists flattened : dict,
    flatten_youtube_data
      (convert_snapshot_to_analysis
         (list_to_map [("id", PInt 7); ("channel_health_score", PInt 64)]))
    = Ok flattened /\
    flattened !! "audience_loyalty_score" = Some (PInt 0).
Proof.
  destruct (flat_view_of_cached_analysis
    (list_to_map [("id", PInt 7); ("channel_health_score", PInt 64)]))
    as (flattened & H & _ & _ & _ & Hl & _).
  - by eexists.
  - by exists flattened.
Defined.

(** ** The order of the engagement labels *)

Import Labels.

(** X22.  The engagement label is monotone: for a channel of a given scale
    a higher engagement rate never gets a worse label, and for a given
    engagement rate a mega channel is never labelled worse than a large one,
    nor a large one worse than a channel of any smaller scale. *)
Theorem engagement_label_monotone (rate rate' : R) (scale : string) :
  (rate <= rate')%R ->
  (health_rank (assess_engagement_health_scaled rate scale)
   <= health_rank (assess_engagement_health_scaled rate' scale))%nat /\
  (scale <> "mega" -> scale <> "large" ->
   health_rank (assess_engagement_health_scaled rate scale)
   <= health_rank (assess_engagement_health_scaled rate "large"))%nat /\
  (health_rank (assess_engagement_health_scaled rate "large")
   <= health_rank (assess_engagement_health_scaled rate "mega"))%nat.
Proof.
  intros H. unfold assess_engagement_health_scaled.
  split; [|split].
  - repeat destruct (decide (scale = _)); repeat destruct (Rge_dec _ _);
      try lra; by compute_done.
  - intros Hm Hl. rewrite !(decide_False (P := scale = _)) by done.
    rewrite (decide_False (P := "large" = "mega")) by done.
    rewrite (decide_True (P := "large" = "large")) by done.
    repeat destruct (Rge_dec _ _); try lra; by compute_done.
  - rewrite (decide_False (P := "large" = "mega")) by done.
    rewrite (decide_True (P := "large" = "large")) by done.
    rewrite (decide_True (P := "mega" = "mega")) by done.
    repeat destruct (Rge_dec _ _); try lra; by compute_done.
Qed.

Lemma engagement_label_monotone_witness :
  (health_rank (assess_engagement_health_scaled 2 "small")
   <= health_rank (assess_engagement_health_scaled (45/10) "small"))%nat.
Proof.
  apply (engagement_label_monotone 2 (45/10) "small"). lra.
Defined.

(** ** Publishing pattern and recency *)

Import Publishing.

Section PublishingFacts.
Context {fa : arithmetic}.
#[local] Open Scope R_scope.

Lemma mapM_option_perm {A B} (f : A -> option B) (l l' : list A) :
  l ≡ₚ l' ->
  match mapM f l, mapM f l' with
  | Some k, Some k' => k ≡ₚ k'
  | None, None => True
  | _, _ => False
  end.
Proof.
  induction 1 as [|x l l' _ IH|x y l|l l' l'' _ IH1 _ IH2]; simpl.
  - done.
  - destruct (f x); simpl; [|done].
    destruct (mapM f l), (mapM f l'); simpl; try done. by constructor.
  - destruct (f x), (f y); simpl; try done.
    destruct (mapM f l); simpl; [|done]. apply perm_swap.
  - destruct (mapM f l), (mapM f l'), (mapM f l''); try done. by etrans.
Qed.

Lemma merge_sort_perm (dates dates' : list Z) :
  dates ≡ₚ dates' -> merge_sort Z.le dates = merge_sort Z.le dates'.
Proof.
  intros H. apply (Sorted_unique Z.le).
  - apply Sorted_merge_sort. intros x y. lia.
  - apply Sorted_merge_sort. intros x y. lia.
  - by rewrite !merge_sort_Permutation.
Qed.

Lemma frequency_label_cases (avg : R) :
  frequency_label avg ∈ ["Daily"; "Frequent (2-3 days)"; "Weekly"; "Bi-weekly";
                         "Monthly"; "Irregular"].
Proof. unfold frequency_label. repeat destruct (Rle_dec _ _); set_solver. Qed.

End PublishingFacts.

(** X23.  The publishing pattern does not depend on the order of the
    videos: any rearrangement of the collection gives the same frequency and
    the same consistency.  The frequency is one of seven labels, and the
    consistency is 0 or lies between 20 and 95. *)
Theorem publishing_pattern_ignores_order {fa : arithmetic}
    (videos videos' : list video) :
  videos ≡ₚ videos' ->
  analyze_publishing_pattern_enhanced videos
  = analyze_publishing_pattern_enhanced videos' /\
  exists (frequency : string) (consistency : R),
    analyze_publishing_pattern_enhanced videos !! "frequency"
      = Some (PStr frequency) /\
    as_num (get (analyze_publishing_pattern_enhanced videos) "consistency" PNone)
      = Ok consistency /\
    frequency ∈ ["Daily"; "Frequent (2-3 days)"; "Weekly"; "Bi-weekly";
                 "Monthly"; "Irregular"; "Unknown"] /\
    (consistency = 0 \/ 20 <= consistency <= 95)%R.
Proof.
  intros Hp. split.
  - unfold analyze_publishing_pattern_enhanced.
    rewrite (Permutation_length Hp).
    destruct (length videos' <? 2)%nat; [done|].
    pose proof (mapM_option_perm publish_date videos videos' Hp) as Hd.
    destruct (mapM publish_date videos) as [dates|],
             (mapM publish_date videos') as [dates'|]; try done.
    by rewrite (merge_sort_perm dates dates' Hd).
  - unfold analyze_publishing_pattern_enhanced.
    destruct (length videos <? 2)%nat.
    { exists "Irregular", 0%R. repeat split; [set_solver | by left]. }
    destruct (mapM publish_date videos) as [dates|].
    2:{ exists "Unknown", 0%R. repeat split; [set_solver | by left]. }
    destruct (merge_sort Z.le dates) as [|first sorted] eqn:Es.
    { exists "Irregular", 0%R. repeat split; [set_solver | by left]. }
    destruct (last (first :: sorted)) as [latest|].
    2:{ exists "Irregular", 0%R. repeat split; [set_solver | by left]. }
    destruct (_ && _).
    2:{ exists "Irregular", 0%R. repeat split; [set_solver | by left]. }
    eexists _, _. split; [reflexivity|]. split; [reflexivity|]. split.
    + pose proof (frequency_label_cases
        (IZR (days latest first) / INR (length (first :: sorted) - 1))).
      set_solver.
    + right. apply calculate_consistency_range.
Qed.

Lemma publishing_pattern_ignores_order_witness :
  let a := Video None None (Some (Snippet None (Some 0) None)) None None in
  let b := Video None None (Some (Snippet None (Some 864000) None)) None None in
  analyze_publishing_pattern_enhanced (fa := binary64) [a; b]
  = analyze_publishing_pattern_enhanced (fa := binary64) [b; a].
Proof.
  intros a b.
  apply (publishing_pattern_ignores_order (fa := binary64) [a; b] [b; a]).
  apply perm_swap.
Defined.

Section RecencyFacts.
#[local] Open Scope R_scope.

Lemma mapM_exc_Forall {A B} (f : A -> exc B) (P : A -> Prop) (Q : B -> Prop)
    (l : list A) :
  (forall x, P x -> exists y, f x = Ok y /\ Q y) ->
  Forall P l ->
  exists ys, mapM f l = Ok ys /\ length ys = length l /\ Forall Q ys.
Proof.
  intros Hf. induction 1 as [|x l Hx _ (ys & E & Hl & Hq)].
  - by exists [].
  - destruct (Hf x Hx) as (y & Ey & Hy). exists (y :: ys).
    cbn [mapM]. rewrite Ey, E. cbn [mbind exc_bind mret exc_ret].
    split; [done|]. split; [simpl; lia | by constructor].
Qed.

Lemma sum_R_between (a b : R) (l : list R) :
  Forall (fun x => a <= x <= b) l ->
  INR (length l) * a <= sum_R l <= INR (length l) * b.
Proof.
  intros H. split.
  - apply sum_R_ge. eapply Forall_impl; [exact H|]. simpl. tauto.
  - apply sum_R_le. eapply Forall_impl; [exact H|]. simpl. tauto.
Qed.

Lemma np_mean_between (a b : R) (l : list R) :
  l <> [] -> Forall (fun x => a <= x <= b) l -> a <= np_mean l <= b.
Proof.
  intros Hl H. split.
  - apply np_mean_ge; [done|]. eapply Forall_impl; [exact H|]. simpl. tauto.
  - apply np_mean_le; [done|]. eapply Forall_impl; [exact H|]. simpl. tauto.
Qed.

Lemma days_nonneg (now t : Z) : (t <= now)%Z -> (0 <= days now t)%Z.
Proof. intros H. unfold days. apply Z.div_pos; lia. Qed.

Lemma days_today (now t : Z) : (t <= now < t + 86400)%Z -> days now t = 0%Z.
Proof. intros H. unfold days. apply Z.div_small. lia. Qed.

Lemma trending_score_range (now : Z) (v : video) :
  dated_before now v ->
  exists score,
    (t ← publish_date_or_raise v;
     mret (IZR (Z.max 0 (10 - days now t)) + Rmin (IZR (views_of v) / 1000) 5))
    = Ok score /\ 0 <= score <= 15.
Proof.
  intros (t & Et & Ht & Hv). unfold publish_date_or_raise. rewrite Et.
  cbn [mbind exc_bind mret exc_ret]. eexists. split; [reflexivity|].
  pose proof (days_nonneg now t Ht).
  assert (0 <= IZR (Z.max 0 (10 - days now t)) <= 10).
  { split; apply IZR_le; lia. }
  assert (0 <= IZR (views_of v)) by (by apply IZR_le).
  unfold Rmin. destruct (Rle_dec _ _); lra.
Qed.

Lemma trending_score_hit (now : Z) (v : video) :
  fresh_hit now v ->
  exists score,
    (t ← publish_date_or_raise v;
     mret (IZR (Z.max 0 (10 - days now t)) + Rmin (IZR (views_of v) / 1000) 5))
    = Ok score /\ 15 <= score <= 15.
Proof.
  intros (t & Et & Ht & Hv). unfold publish_date_or_raise. rewrite Et.
  cbn [mbind exc_bind mret exc_ret]. eexists. split; [reflexivity|].
  rewrite (days_today now t Ht). change (Z.max 0 (10 - 0)) with 10%Z.
  assert (5000 <= IZR (views_of v)) by (by apply IZR_le).
  unfold Rmin. destruct (Rle_dec _ _); lra.
Qed.

Lemma freshness_score_range (now : Z) (v : video) :
  dated_before now v ->
  exists score,
    (t ← publish_date_or_raise v;
     mret (IZR (Z.max 0 (100 - days now t * 5))))
    = Ok score /\ 0 <= score <= 100.
Proof.
  intros (t & Et & Ht & Hv). unfold publish_date_or_raise. rewrite Et.
  cbn [mbind exc_bind mret exc_ret]. eexists. split; [reflexivity|].
  pose proof (days_nonneg now t Ht). split; apply IZR_le; lia.
Qed.

Lemma scaled_sum_range (n : nat) (total c : R) :
  (0 < n)%nat -> INR n * 0 <= total <= INR n * c ->
  0 <= total / INR (n * 10) * 100 <= c * 10.
Proof.
  intros Hn [H0 H1]. rewrite mult_INR. simpl INR.
  assert (0 < INR n) by (by apply lt_0_INR).
  replace (total / (INR n * (1 + 1 + 1 + 1 + 1 + 1 + 1 + 1 + 1 + 1)) * 100)
    with (total / INR n * 10) by (field; lra).
  assert (0 <= total / INR n <= c); [|lra].
  split.
  - apply Rmult_le_pos; [lra|]. by apply Rlt_le, Rinv_0_lt_compat.
  - apply (Rmult_le_reg_r (INR n)); [done|]. field_simplify; lra.
Qed.

End RecencyFacts.

(** X24.  The two recency scores of a collection whose videos are dated and
    not from the future: the freshness lies between 0 and 100, but the
    trending alignment lies between 0 and 150, not 100, and it is 150 when
    the ten first videos are less than a day old with 5000 views or more. *)
Theorem trending_alignment_up_to_150 (now : Z) (videos : list video) :
  videos <> [] ->
  Forall (dated_before now) videos ->
  exists trending freshness : R,
    assess_trending_alignment_ai now videos = Ok trending /\
    assess_content_freshness now videos = Ok freshness /\
    (0 <= trending <= 150)%R /\ (0 <= freshness <= 100)%R /\
    (Forall (fresh_hit now) (take 10 videos) -> trending = 150%R).
Proof.
  intros Hne Hall.
  unfold assess_trending_alignment_ai, assess_content_freshness.
  assert (Hlen : (0 < length (take 10 videos))%nat).
  { destruct videos; [done | simpl; lia]. }
  destruct (mapM_exc_Forall _ (dated_before now) (fun s => 0 <= s <= 15)%R
              (take 10 videos) (trending_score_range now)
              (Forall_take _ 10%nat _ Hall)) as (scores & E & Hl & Hs).
  destruct (mapM_exc_Forall _ (dated_before now) (fun s => 0 <= s <= 100)%R
              (take 20 videos) (freshness_score_range now)
              (Forall_take _ 20%nat _ Hall)) as (fresh & E' & Hl' & Hf).
  destruct videos as [|v videos'] eqn:Ev; [done|]. rewrite <- Ev in *.
  rewrite E, E'. cbn [mbind exc_bind mret exc_ret].
  destruct (Nat.ltb_spec 0 (length (take 10 videos) * 10)); [|lia].
  eexists _, _. split; [reflexivity|]. split; [reflexivity|].
  split; [|split].
  - apply (round_to_between 0 150).
    pose proof (sum_R_between 0 15 scores Hs) as Hsum. rewrite Hl in Hsum.
    pose proof (scaled_sum_range _ _ _ Hlen Hsum). lra.
  - destruct fresh as [|f fresh'] eqn:Ef; [lra|]. rewrite <- Ef in *.
    apply (round_to_between 0 100).
    apply np_mean_between; [by rewrite Ef | done].
  - intros Hhit.
    destruct (mapM_exc_Forall _ (fresh_hit now) (fun s => 15 <= s <= 15)%R
                (take 10 videos) (trending_score_hit now) Hhit)
      as (scores' & Eh & _ & Hs').
    rewrite E in Eh. injection Eh as <-.
    pose proof (sum_R_between 15 15 scores Hs') as Hsum. rewrite Hl in Hsum.
    assert (Hsum' : sum_R scores = (INR (length (take 10 videos)) * 15)%R) by lra.
    rewrite Hsum', mult_INR. replace (INR 10) with 10%R by (simpl; lra).
    assert (0 < INR (length (take 10 videos)))%R by (by apply lt_0_INR).
    replace (INR (length (take 10 videos)) * 15
             / (INR (length (take 10 videos)) * 10) * 100)%R
      with 150%R by (field; lra).
    apply (round_to_IZR 1500). simpl pow. lra.
Qed.

Lemma trending_alignment_up_to_150_witness :
  let v := Video None (Some (Statistics (Some 8000) None None))
             (Some (Snippet None (Some 1000) None)) None None in
  exists trending : R,
    assess_trending_alignment_ai 2000 [v] = Ok trending /\ trending = 150%R.
Proof.
  intros v.
  destruct (trending_alignment_up_to_150 2000 [v])
    as (trending & freshness & E & _ & _ & _ & H150).
  - discriminate.
  - constructor; [|constructor]. exists 1000.
    split; [reflexivity|]. change (views_of v) with 8000. lia.
  - exists trending. split; [done|]. apply H150.
    constructor; [|constructor]. exists 1000.
    split; [reflexivity|]. change (views_of v) with 8000. lia.
Defined.

(** ** The details of the videos *)

Import Details.

Section DetailsFacts.
Variable lower : string -> string.

Lemma asks_app (l1 l2 : list step) : asks (l1 ++ l2) = (asks l1 + asks l2)%nat.
Proof. induction l1 as [|[] l1 IH]; simpl; lia. Qed.

Lemma pauses_app (l1 l2 : list step) :
  pauses (l1 ++ l2) = (pauses l1 + pauses l2)%nat.
Proof. induction l1 as [|[] l1 IH]; simpl; lia. Qed.

Lemma batches_of_length (fuel : nat) (video_ids : list string) :
  (length video_ids <= fuel)%nat ->
  length (batches_of fuel video_ids) = ((length video_ids + 19) / 20)%nat.
Proof.
  revert video_ids. induction fuel as [|fuel IH]; intros video_ids Hf.
  - destruct video_ids; [done | simpl in Hf; lia].
  - destruct video_ids as [|v video_ids]; [done|].
    cbn [batches_of]. cbn [length]. rewrite IH.
    2:{ rewrite length_drop. simpl in *. lia. }
    rewrite length_drop. cbn [length]. set (m := length video_ids).
    destruct (decide (m < 20)%nat).
    + replace (S m - 20)%nat with O by lia.
      change ((0 + 19) / 20)%nat with O.
      apply (Nat.div_unique _ _ _ m); lia.
    + assert (E : ((S m + 19) / 20 = (S m - 20 + 19) / 20 + 1)%nat).
      { rewrite <- Nat.div_add by lia. f_equal. lia. }
      rewrite E. lia.
Qed.

Lemma batches_of_concat (fuel : nat) (video_ids : list string) :
  (length video_ids <= fuel)%nat -> concat (batches_of fuel video_ids) = video_ids.
Proof.
  revert video_ids. induction fuel as [|fuel IH]; intros video_ids Hf.
  - destruct video_ids; [done | simpl in Hf; lia].
  - destruct video_ids as [|v video_ids]; [done|].
    cbn [batches_of concat]. rewrite IH.
    + apply take_drop.
    + rewrite length_drop. simpl in *. lia.
Qed.

Lemma try_keys_for_batch_cost (provider : nat -> reply (list raw_item))
    (batch : nat) (keys : list string) (key_index : nat) :
  let log := (try_keys_for_batch lower provider batch key_index keys).1 in
  (asks log <= length keys)%nat /\ pauses log = O.
Proof.
  revert key_index. induction keys as [|key keys IH]; intros key_index;
    [simpl; lia|].
  cbn [try_keys_for_batch]. specialize (IH (S key_index)).
  destruct (try_keys_for_batch lower provider batch (S key_index) keys)
    as [log videos]. simpl in IH.
  destruct (provider key_index) as [code message| |items|e]; simpl; try lia.
  - destruct (is_key_message lower message); simpl; lia.
  - destruct (mapM with_thumbnail items); simpl; lia.
Qed.

Lemma try_keys_for_batch_first (provider : nat -> reply (list raw_item))
    (batch : nat) (key : string) (keys : list string) :
  well_answered (provider O) ->
  try_keys_for_batch lower provider batch 0 (key :: keys)
  = ([Ask batch 0], answer_of (provider O)).
Proof.
  intros H. cbn [try_keys_for_batch]. unfold answer_of.
  destruct (provider O) as [code message| |items|e]; try done.
  destruct H as [videos ->]. done.
Qed.

Lemma fetch_batches_cost (provider : list string -> nat -> reply (list raw_item))
    (keys : list string) (todo : list (list string)) (batch : nat) :
  let log := (fetch_batches lower provider keys batch todo).1 in
  (asks log <= length todo * length keys)%nat /\
  pauses log = (length todo - 1)%nat.
Proof.
  revert batch. induction todo as [|batch_ids todo IH]; intros batch;
    [simpl; lia|].
  cbn [fetch_batches].
  pose proof (try_keys_for_batch_cost (provider batch_ids) batch keys 0) as Hk.
  destruct (try_keys_for_batch lower (provider batch_ids) batch 0 keys)
    as [log videos]. simpl in Hk.
  specialize (IH (S batch)).
  destruct (fetch_batches lower provider keys (S batch) todo) as [log' videos'].
  simpl in IH. cbn [fst]. rewrite !asks_app, !pauses_app.
  destruct todo as [|next todo]; simpl in *; lia.
Qed.

Lemma fetch_batches_first (provider : list string -> nat -> reply (list raw_item))
    (key : string) (keys : list string) (todo : list (list string)) (batch : nat) :
  Forall (fun batch_ids => well_answered (provider batch_ids O)) todo ->
  let outcome := fetch_batches lower provider (key :: keys) batch todo in
  asks outcome.1 = length todo /\
  outcome.2 = flat_map (fun batch_ids => answer_of (provider batch_ids O)) todo.
Proof.
  intros H. revert batch. induction H as [|batch_ids todo Hb _ IH]; intros batch;
    [done|].
  cbn [fetch_batches]. rewrite try_keys_for_batch_first by done.
  specialize (IH (S batch)).
  destruct (fetch_batches lower provider (key :: keys) (S batch) todo)
    as [log' videos']. simpl in IH. destruct IH as [IH1 IH2].
  cbn [fst snd flat_map]. rewrite !asks_app. split.
  - destruct todo; simpl in *; lia.
  - by rewrite IH2.
Qed.

End DetailsFacts.

(** X25.  The details of the videos are fetched in batches of twenty: the
    batches are the list of ids cut in order; the client asks at most once
    per batch and key and pauses once between two batches, whatever the
    answers are; and when the first key answers every batch, it asks once
    per batch and returns the videos of the answers, in the order of the
    ids. *)
Theorem video_details_in_batches (lower : string -> string)
    (youtube_keys : list string)
    (provider : list string -> nat -> reply (list raw_item))
    (video_ids : list string) (key_index : nat) :
  let todo := batches_of (length video_ids) video_ids in
  let outcome :=
    get_video_details_safe lower youtube_keys provider video_ids key_index in
  length todo = ((length video_ids + 19) / 20)%nat /\
  concat todo = video_ids /\
  (asks outcome.1 <= length todo * length youtube_keys)%nat /\
  pauses outcome.1 = (length todo - 1)%nat /\
  (youtube_keys <> [] ->
   Forall (fun batch_ids => well_answered (provider batch_ids O)) todo ->
   asks outcome.1 = length todo /\
   outcome.2 = flat_map (fun batch_ids => answer_of (provider batch_ids O)) todo).
Proof.
  intros todo outcome. subst todo outcome. unfold get_video_details_safe.
  split; [by apply batches_of_length|]. split; [by apply batches_of_concat|].
  split; [apply fetch_batches_cost|]. split; [apply fetch_batches_cost|].
  intros Hk Hall. destruct youtube_keys as [|key keys]; [done|].
  by apply fetch_batches_first.
Qed.

Lemma video_details_in_batches_witness :
  let item := RawItem (Video (Some "v1") None None None None)
                      (Thumbnails None (Some (Some "https://i/hq.jpg")) None None) in
  (get_video_details_safe (fun s => s) ["k1"; "k2"]
     (fun _ _ => Found [item]) ["v1"] 0).2
  = [Video (Some "v1") None None None (Some "https://i/hq.jpg")].
Proof.
  intros item.
  apply (video_details_in_batches (fun s => s) ["k1"; "k2"]
           (fun _ _ => Found [item]) ["v1"] 0).
  - discriminate.
  - constructor; [|constructor]. by eexists.
Defined.

(** ** The growth predictions of the application *)

Section AppFacts.
#[local] Open Scope R_scope.

Lemma app_growth_multiplier_total (growth_potential : pyval) :
  is_text growth_potential ->
  exists m, App.growth_multiplier growth_potential = Ok m.
Proof. destruct growth_potential; try done. intros _. by eexists. Qed.

End AppFacts.

(** X26.  The growth predictions the application shows: for an analysis
    with a subscriber count that is not negative and metrics that are
    numbers, the monthly rate lies between 0.1 and 8 percent and the
    projected subscribers do not decrease from now to three, six and twelve
    months.  Two of the growth labels of the composite metrics, Medium-High
    and Low-Medium, are unknown to the application and count as neutral. *)
Theorem app_growth_predictions_bounded (analysis cm em ai : dict)
    (subscribers : Z) :
  analysis !! "channel_metrics" = Some (PDict cm) ->
  analysis !! "engagement_metrics" = Some (PDict em) ->
  analysis !! "ai_enhanced_metrics" = Some (PDict ai) ->
  get cm "subscribers" (PInt 0) = PInt subscribers ->
  0 <= subscribers ->
  number_field em "avg_engagement_rate" ->
  number_field em "performance_consistency" ->
  number_field ai "content_quality_score" ->
  is_text (get ai "growth_potential" (PStr "Unknown")) ->
  (exists (predictions : dict) (rate : R) (p3 p6 p12 : Z),
     App.calculate_consistent_growth_predictions analysis = Ok predictions /\
     predictions !! "predicted_monthly_growth_rate" = Some (PFloat rate) /\
     predictions !! "predicted_3month_subs" = Some (PInt p3) /\
     predictions !! "predicted_6month_subs" = Some (PInt p6) /\
     predictions !! "predicted_12month_subs" = Some (PInt p12) /\
     (1/10 <= rate <= 8)%R /\
     subscribers <= p3 /\ p3 <= p6 /\ p6 <= p12) /\
  App.growth_multiplier (PStr "Medium-High") = Ok 1%R /\
  App.growth_multiplier (PStr "Low-Medium") = Ok 1%R /\
  App.growth_multiplier (PStr "Unknown") = Ok 1%R.
Proof.
  intros Hcm Hem Hai Es Hs [rate Er]%number_field_num [cons Ec]%number_field_num
         [quality Eq]%number_field_num [mult Em]%app_growth_multiplier_total.
  split; [|by repeat split].
  unfold App.calculate_consistent_growth_predictions, getitem.
  rewrite Hcm, Hem, Hai. cbn [as_dict mbind exc_bind mret exc_ret].
  rewrite Es, Er, Ec, Eq, Em. cbn [as_num mbind exc_bind mret exc_ret].
  set (monthly := Rmax (1 / 10) (Rmin _ 8)).
  assert (Hm : (1/10 <= monthly <= 8)%R).
  { unfold monthly, Rmax, Rmin. repeat destruct (Rle_dec _ _); lra. }
  clearbody monthly.
  eexists _, _, _, _, _. split; [reflexivity|].
  do 4 (split; [reflexivity|]).
  set (q := (1 + monthly / 100)%R).
  assert (Hq : (1 <= q)%R) by (unfold q; lra).
  assert (Hz : (0 <= IZR subscribers)%R) by (by apply IZR_le).
  split; [|split; [|split]].
  - unfold round_to. simpl pow. rewrite Rmult_1_r. split.
    + assert (1 <= py_round (monthly * 10))%Z by (apply py_round_ge; lra).
      apply IZR_le in H. lra.
    + assert (py_round (monthly * 10) <= 80)%Z by (apply py_round_le; lra).
      apply IZR_le in H. lra.
  - apply py_int_ge. pose proof (pow_R1_Rle q 3 Hq). nra.
  - apply py_int_mono. apply Rmult_le_compat_l; [done|].
    apply Rle_pow; [done | lia].
  - apply py_int_mono. apply Rmult_le_compat_l; [done|].
    apply Rle_pow; [done | lia].
Qed.

Lemma app_growth_predictions_bounded_witness :
  let analysis : dict :=
    list_to_map [
      ("channel_metrics", PDict (list_to_map [("subscribers", PInt 25000)]));
      ("engagement_metrics", PDict (list_to_map [("avg_engagement_rate", PFloat 4)]));
      ("ai_enhanced_metrics",
         PDict (list_to_map [("growth_potential", PStr "Medium-High")])) ] in
  exists (predictions : dict) (p3 : Z),
    App.calculate_consistent_growth_predictions analysis = Ok predictions /\
    predictions !! "predicted_3month_subs" = Some (PInt p3) /\ 25000 <= p3.
Proof.
  intros analysis.
  destruct (app_growth_predictions_bounded analysis
    (list_to_map [("subscribers", PInt 25000)])
    (list_to_map [("avg_engagement_rate", PFloat 4)])
    (list_to_map [("growth_potential", PStr "Medium-High")]) 25000)
    as [(predictions & rate & p3 & p6 & p12 & H & _ & H3 & _ & _ & _ & Hp & _) _];
    try exact I; try reflexivity; try lia.
  by exists predictions, p3.
Defined.
